(** * Hospital-Management-System: appointment validation, token lifecycle
      and field encryption

    A shallow embedding of [backend/app] (models.py, schemas.py, crud.py,
    config.py, security.py, routers.py, encryption.py) and the properties
    its specification states about it.

    Conventions.
    - A Python [str] is the list of its code points; [bytes] is a list of
      [Byte.byte].
    - A naive [datetime] is the number of microseconds since
      0001-01-01T00:00:00 (a Monday), so comparison is that of [Z].  The
      datetimes are the numbers from [datetime.min] to [datetime.max];
      adding or subtracting a [timedelta] raises OverflowError when the
      result is not one of them.
    - An exception is a value: a function that may raise returns a
      [result]; [try/except] is a [match] on it.
    - A table is the list of its rows in storage order; [db.scalars(stmt)]
      filters it and [db.scalar(stmt)] takes the first row of the filter.
      Attribute assignments on a loaded row reach the table at
      [db.commit()] only. *)

From Stdlib Require Import ZArith List Bool Lia.
From Stdlib.Strings Require Import String Ascii Byte.
Import ListNotations.
Local Open Scope Z_scope.

(* ------------------------------------------------------------------ *)
(** ** Python values *)

Module Py.

Definition str := list Z.
Definition bytes := list byte.

(** An ASCII literal of the source, as a [str]. *)
Definition lit (s : string) : str :=
  map (fun a => Z.of_N (N_of_ascii a)) (list_ascii_of_string s).

Fixpoint str_eqb (a b : str) : bool :=
  match a, b with
  | [], [] => true
  | x :: a', y :: b' => (x =? y) && str_eqb a' b'
  | _, _ => false
  end.

(** [a < b] on [str]: lexicographic on code points. *)
Fixpoint str_ltb (a b : str) : bool :=
  match a, b with
  | _, [] => false
  | [], _ :: _ => true
  | x :: a', y :: b' =>
      if x <? y then true else if y <? x then false else str_ltb a' b'
  end.

(** [a <= b] on [str]. *)
Definition str_leb (a b : str) : bool := negb (str_ltb b a).

(** Truth value of an [Optional[str]]: [None] and the empty string are false. *)
Definition truthy_str (s : option str) : bool :=
  match s with
  | Some (_ :: _) => true
  | _ => false
  end.

(** Truth value of an [int | None]: [None] and [0] are false. *)
Definition truthy_int (n : option Z) : bool :=
  match n with
  | Some k => negb (k =? 0)
  | None => false
  end.

(** [n == o] for an int [n] and an [int | None] [o]. *)
Definition int_eqb_opt (n : Z) (o : option Z) : bool :=
  match o with
  | Some k => n =? k
  | None => false
  end.

(** Truth value of a mapped row or [None]: a row is always true. *)
Definition truthy_row {A : Type} (r : option A) : bool :=
  match r with
  | Some _ => true
  | None => false
  end.

(** The text an exception or an HTTP error carries. *)
Inductive message : Type :=
| Text (s : string)
    (* a literal of the source *)
| NotAValidStatus (value : str).
    (* f"{value!r} is not a valid AppointmentStatus", from the Enum lookup *)

Inductive exn : Type :=
| ValueError (msg : message)
| UnicodeEncodeError
| UnicodeDecodeError
| binascii_Error
| InvalidTag
| IntegrityError
| AttributeError
| OverflowError
    (* "date value out of range", from datetime arithmetic *)
| HTTPException (status_code : Z) (detail : message).

Inductive result (A : Type) : Type :=
| Return (a : A)
| Raise (e : exn).

Arguments Return {A} a.
Arguments Raise {A} e.

Definition bind {A B : Type} (m : result A) (k : A -> result B) : result B :=
  match m with
  | Return a => k a
  | Raise e => Raise e
  end.

(** [except ValueError]: the class and its subclasses
    (UnicodeError, binascii.Error). *)
Definition is_ValueError (e : exn) : option message :=
  match e with
  | ValueError m => Some m
  | UnicodeEncodeError => Some (Text "codec can't encode character")
  | UnicodeDecodeError => Some (Text "codec can't decode byte")
  | binascii_Error => Some (Text "Incorrect padding")
  | _ => None
  end.

End Py.

Import Py.

Notation "x <- m ;; k" := (bind m (fun x => k))
  (at level 61, m at next level, right associativity).
Notation "m ;;; k" := (bind m (fun _ => k))
  (at level 61, right associativity).

(* ------------------------------------------------------------------ *)
(** ** datetime *)

Module datetime.

Definition t := Z.

Definition us_per_minute : Z := 60 * 1000000.
Definition us_per_hour : Z := 60 * us_per_minute.
Definition us_per_day : Z := 24 * us_per_hour.

(** [timedelta(minutes=m)] *)
Definition timedelta_minutes (m : Z) : Z := m * us_per_minute.

(** [datetime.min] is 0001-01-01T00:00:00 and [datetime.max] is
    9999-12-31T23:59:59.999999, the last microsecond of day 3652059. *)
Definition min : t := 0.
Definition max : t := 3652059 * us_per_day - 1.

(** [d + delta] for a [timedelta] of [delta] microseconds. *)
Definition add (d : t) (delta : Z) : result t :=
  let r := d + delta in
  if (r <? min) || (max <? r) then Raise OverflowError else Return r.

(** [d - delta] *)
Definition sub (d : t) (delta : Z) : result t :=
  let r := d - delta in
  if (r <? min) || (max <? r) then Raise OverflowError else Return r.

(** [d.weekday()]: Monday is 0. *)
Definition weekday (d : t) : Z := (d / us_per_day) mod 7.

Definition hour (d : t) : Z := (d / us_per_hour) mod 24.
Definition minute (d : t) : Z := (d / us_per_minute) mod 60.

(** A number below 100 as two decimal digits. *)
Definition two_digits (n : Z) : str := [48 + n / 10; 48 + n mod 10].

(** ["%H:%M"] applied to an hour and a minute. *)
Definition HM (h m : Z) : str := two_digits h ++ [58] ++ two_digits m.

(** [d.strftime("%H:%M")] *)
Definition strftime_HM (d : t) : str := HM (hour d) (minute d).

(** The datetime [days] whole days after the epoch, at [h]:[m]:00. *)
Definition at_ (days h m : Z) : t :=
  days * us_per_day + h * us_per_hour + m * us_per_minute.

End datetime.

(* ------------------------------------------------------------------ *)
(** ** models.py *)

Inductive UserRole : Type := PATIENT | DOCTOR | ADMIN.

Inductive AppointmentStatus : Type := PENDING | APPROVED | REJECTED | CANCELLED.

Definition AppointmentStatus_value (s : AppointmentStatus) : str :=
  match s with
  | PENDING => lit "pending"
  | APPROVED => lit "approved"
  | REJECTED => lit "rejected"
  | CANCELLED => lit "cancelled"
  end.

(** [AppointmentStatus(v)]: the member whose value is [v], else ValueError. *)
Definition AppointmentStatus_call (v : str) : result AppointmentStatus :=
  if str_eqb v (AppointmentStatus_value PENDING) then Return PENDING
  else if str_eqb v (AppointmentStatus_value APPROVED) then Return APPROVED
  else if str_eqb v (AppointmentStatus_value REJECTED) then Return REJECTED
  else if str_eqb v (AppointmentStatus_value CANCELLED) then Return CANCELLED
  else Raise (ValueError (NotAValidStatus v)).

Definition UserRole_eqb (a b : UserRole) : bool :=
  match a, b with
  | PATIENT, PATIENT | DOCTOR, DOCTOR | ADMIN, ADMIN => true
  | _, _ => false
  end.

(** The part of [User] the appointment routes read: the role and the ids of
    the two profile rows ([None] when the relationship is empty). *)
Module User.
Record t : Type := mk {
  id : Z;
  role : UserRole;
  patient_profile : option Z;
  doctor_profile : option Z
}.
End User.

Module Appointment.
Record t : Type := mk {
  id : Z;
  patient_id : Z;
  doctor_id : Z;
  hospital_id : option Z;
  scheduled_time : datetime.t;
  status : AppointmentStatus;
  notes : option str;
  created_at : datetime.t
}.
End Appointment.

Module DoctorAvailability.
Record t : Type := mk {
  id : Z;
  doctor_id : Z;
  day_of_week : Z;
  start_time : str;
  end_time : str
}.
End DoctorAvailability.

Module RefreshToken.
Record t : Type := mk {
  id : Z;
  user_id : Z;
  jti : str;
  expires_at : datetime.t;
  revoked : bool;
  created_at : datetime.t
}.
End RefreshToken.

(** The tables behind a [Session]. *)
Record Session : Type := mkSession {
  users : list User.t;
  doctor_availabilities : list DoctorAvailability.t;
  appointments : list Appointment.t;
  refresh_tokens : list RefreshToken.t
}.

(** [db.scalars(select(M).where(stmt))] and [db.scalar(...)]. *)
Definition scalars {A : Type} (table : list A) (stmt : A -> bool) : list A :=
  filter stmt table.

Definition scalar {A : Type} (table : list A) (stmt : A -> bool) : option A :=
  hd_error (filter stmt table).

(** [stmt.where(clause)] *)
Definition where_ {A : Type} (stmt clause : A -> bool) : A -> bool :=
  fun row => stmt row && clause row.

(** The id the database gives a new row. *)
Definition next_id (ids : list Z) : Z := 1 + fold_right Z.max 0 ids.

(* ------------------------------------------------------------------ *)
(** ** schemas.py *)

Module AppointmentCreate.
Record t : Type := mk {
  doctor_id : Z;
  hospital_id : option Z;
  scheduled_time : datetime.t
}.
End AppointmentCreate.

Module AppointmentUpdate.
Record t : Type := mk {
  scheduled_time : option datetime.t;
  status : option str;
  notes : option str
}.
End AppointmentUpdate.

(** Updates of a loaded row. *)
Definition set_scheduled_time (a : Appointment.t) (v : datetime.t) : Appointment.t :=
  Appointment.mk (Appointment.id a) (Appointment.patient_id a)
    (Appointment.doctor_id a) (Appointment.hospital_id a) v
    (Appointment.status a) (Appointment.notes a) (Appointment.created_at a).

Definition set_status (a : Appointment.t) (v : AppointmentStatus) : Appointment.t :=
  Appointment.mk (Appointment.id a) (Appointment.patient_id a)
    (Appointment.doctor_id a) (Appointment.hospital_id a)
    (Appointment.scheduled_time a) v (Appointment.notes a)
    (Appointment.created_at a).

Definition set_notes (a : Appointment.t) (v : option str) : Appointment.t :=
  Appointment.mk (Appointment.id a) (Appointment.patient_id a)
    (Appointment.doctor_id a) (Appointment.hospital_id a)
    (Appointment.scheduled_time a) (Appointment.status a) v
    (Appointment.created_at a).

Definition set_doctor_id (a : Appointment.t) (v : Z) : Appointment.t :=
  Appointment.mk (Appointment.id a) (Appointment.patient_id a) v
    (Appointment.hospital_id a) (Appointment.scheduled_time a)
    (Appointment.status a) (Appointment.notes a) (Appointment.created_at a).

Definition set_hospital_id (a : Appointment.t) (v : option Z) : Appointment.t :=
  Appointment.mk (Appointment.id a) (Appointment.patient_id a)
    (Appointment.doctor_id a) v (Appointment.scheduled_time a)
    (Appointment.status a) (Appointment.notes a) (Appointment.created_at a).

Definition set_revoked (r : RefreshToken.t) (v : bool) : RefreshToken.t :=
  RefreshToken.mk (RefreshToken.id r) (RefreshToken.user_id r)
    (RefreshToken.jti r) (RefreshToken.expires_at r) v
    (RefreshToken.created_at r).

Definition with_appointments (db : Session) (v : list Appointment.t) : Session :=
  mkSession (users db) (doctor_availabilities db) v (refresh_tokens db).

Definition with_refresh_tokens (db : Session) (v : list RefreshToken.t) : Session :=
  mkSession (users db) (doctor_availabilities db) (appointments db) v.

(** The row a loaded object stands for is the first row its query selects;
    committing a change to the object rewrites that row. *)
Fixpoint update_first {A : Type} (p : A -> bool) (f : A -> A) (l : list A) : list A :=
  match l with
  | [] => []
  | x :: r => if p x then f x :: r else x :: update_first p f r
  end.

(* ------------------------------------------------------------------ *)
(** ** crud.py *)

Module crud.

Definition doctor_unavailable : exn :=
  ValueError (Text "Doctor not available at this time").
Definition doctor_slot_conflict : exn :=
  ValueError (Text "Doctor has another appointment in that slot").
Definition patient_slot_conflict : exn :=
  ValueError (Text "Patient has another appointment in that slot").

(** [a.start_time <= time_str < a.end_time] *)
Definition window_matches (time_str : str) (a : DoctorAvailability.t) : bool :=
  str_leb (DoctorAvailability.start_time a) time_str
  && str_ltb time_str (DoctorAvailability.end_time a).

Definition _validate_appointment_slot (db : Session) (doctor_id patient_id : Z)
    (scheduled_time : datetime.t) (exclude_id : option Z) : result unit :=
  let day := datetime.weekday scheduled_time in
  let time_str := datetime.strftime_HM scheduled_time in
  let avail_stmt := fun a =>
    (DoctorAvailability.doctor_id a =? doctor_id)
    && (DoctorAvailability.day_of_week a =? day) in
  let avail_list := scalars (doctor_availabilities db) avail_stmt in
  if negb (existsb (window_matches time_str) avail_list) then
    Raise doctor_unavailable
  else
  window_start <- datetime.sub scheduled_time (datetime.timedelta_minutes 29) ;;
  window_end <- datetime.add scheduled_time (datetime.timedelta_minutes 29) ;;
  let stmt_conflict := fun a =>
    (Appointment.doctor_id a =? doctor_id)
    && (window_start <=? Appointment.scheduled_time a)
    && (Appointment.scheduled_time a <=? window_end) in
  let stmt_conflict :=
    if truthy_int exclude_id then
      where_ stmt_conflict
        (fun a => negb (int_eqb_opt (Appointment.id a) exclude_id))
    else stmt_conflict in
  if truthy_row (scalar (appointments db) stmt_conflict) then
    Raise doctor_slot_conflict
  else
  let stmt_p_conflict := fun a =>
    (Appointment.patient_id a =? patient_id)
    && (window_start <=? Appointment.scheduled_time a)
    && (Appointment.scheduled_time a <=? window_end) in
  let stmt_p_conflict :=
    if truthy_int exclude_id then
      where_ stmt_p_conflict
        (fun a => negb (int_eqb_opt (Appointment.id a) exclude_id))
    else stmt_p_conflict in
  if truthy_row (scalar (appointments db) stmt_p_conflict) then
    Raise patient_slot_conflict
  else Return tt.

(** [db.add(appt); db.commit(); db.refresh(appt)]: the new row gets its id
    and [created_at] (the clock's [now]) from the database.  The foreign
    keys point into tables that are not modelled. *)
Definition create_appointment (now : datetime.t) (db : Session) (patient_id : Z)
    (appt_in : AppointmentCreate.t) : result (Appointment.t * Session) :=
  _validate_appointment_slot db (AppointmentCreate.doctor_id appt_in) patient_id
    (AppointmentCreate.scheduled_time appt_in) None ;;;
  let appt :=
    Appointment.mk (next_id (map Appointment.id (appointments db))) patient_id
      (AppointmentCreate.doctor_id appt_in)
      (AppointmentCreate.hospital_id appt_in)
      (AppointmentCreate.scheduled_time appt_in) PENDING None now in
  Return (appt, with_appointments db (appointments db ++ [appt])).

(** [db.commit()] after attribute assignments on [appt]. *)
Definition commit_appointment (db : Session) (appt : Appointment.t) : Session :=
  with_appointments db
    (update_first (fun r => Appointment.id r =? Appointment.id appt)
       (fun _ => appt) (appointments db)).

Definition update_appointment (db : Session) (appt : Appointment.t)
    (appt_in : AppointmentUpdate.t) : result (Appointment.t * Session) :=
  appt <-
    match AppointmentUpdate.scheduled_time appt_in with
    | Some scheduled_time =>
        _validate_appointment_slot db (Appointment.doctor_id appt)
          (Appointment.patient_id appt) scheduled_time
          (Some (Appointment.id appt)) ;;;
        Return (set_scheduled_time appt scheduled_time)
    | None => Return appt
    end ;;
  appt <-
    match AppointmentUpdate.status appt_in with
    | Some status =>
        status <- AppointmentStatus_call status ;;
        Return (set_status appt status)
    | None => Return appt
    end ;;
  let appt :=
    match AppointmentUpdate.notes appt_in with
    | Some notes => set_notes appt (Some notes)
    | None => appt
    end in
  Return (appt, commit_appointment db appt).

(** [db.get(models.Appointment, appt_id)] *)
Definition get_appointment (db : Session) (appt_id : Z) : option Appointment.t :=
  scalar (appointments db) (fun r => Appointment.id r =? appt_id).

Definition reassign_appointment (db : Session) (appt : Appointment.t)
    (new_doctor_id : Z) (new_hospital_id : option Z) : Appointment.t * Session :=
  let appt := set_doctor_id appt new_doctor_id in
  let appt :=
    match new_hospital_id with
    | Some h => set_hospital_id appt (Some h)
    | None => appt
    end in
  (appt, commit_appointment db appt).

(** The column [jti] has a unique index: a second row with the same value
    fails at [db.commit()]. *)
Definition create_refresh_token_record (now : datetime.t) (db : Session)
    (user_id : Z) (jti : str) (expires_at : datetime.t)
    : result (RefreshToken.t * Session) :=
  if existsb (fun r => str_eqb (RefreshToken.jti r) jti) (refresh_tokens db) then
    Raise IntegrityError
  else
  let rec :=
    RefreshToken.mk (next_id (map RefreshToken.id (refresh_tokens db)))
      user_id jti expires_at false now in
  Return (rec, with_refresh_tokens db (refresh_tokens db ++ [rec])).

Definition revoke_refresh_token (db : Session) (jti : str) : result Session :=
  let stmt := fun r => str_eqb (RefreshToken.jti r) jti in
  match scalar (refresh_tokens db) stmt with
  | Some rec =>
      if negb (RefreshToken.revoked rec) then
        Return (with_refresh_tokens db
                  (update_first stmt (fun r => set_revoked r true)
                     (refresh_tokens db)))
      else Return db
  | None => Return db
  end.

(** [now] is [datetime.utcnow()] at the call. *)
Definition validate_refresh_token (now : datetime.t) (db : Session) (jti : str)
    (user_id : Z) : bool :=
  let stmt := fun r =>
    str_eqb (RefreshToken.jti r) jti && (RefreshToken.user_id r =? user_id) in
  match scalar (refresh_tokens db) stmt with
  | None => false
  | Some rec =>
      if RefreshToken.revoked rec || (RefreshToken.expires_at rec <? now)
      then false
      else true
  end.

End crud.

(* ------------------------------------------------------------------ *)
(** ** config.py and security.py

    [jose.jwt] is a library: its two functions are taken as given.
    [jwt_decode] answers [None] where the library raises [JWTError]
    (bad signature, malformed token, [exp] in the past at [now]). *)

Module Claims.
Record t : Type := mk {
  sub : option str;
  role : option str;
  type_ : option str;
  jti : option str;
  exp : option datetime.t
}.
End Claims.

Record Jose : Type := mkJose {
  jwt_encode : Claims.t -> str -> str;
  jwt_decode : str -> str -> datetime.t -> option Claims.t
}.

Record Settings : Type := mkSettings {
  JWT_SECRET_KEY : str;
  JWT_REFRESH_SECRET_KEY : str;
  ACCESS_TOKEN_EXPIRE_MINUTES : Z;
  REFRESH_TOKEN_EXPIRE_MINUTES : Z;
  AES_ENCRYPTION_KEY : str
}.

(** [Settings()] with the environment's values for the three secrets. *)
Definition get_settings (jwt_secret jwt_refresh_secret aes_key : str) : Settings :=
  mkSettings jwt_secret jwt_refresh_secret 30 (60 * 24 * 7) aes_key.

Definition UserRole_value (r : UserRole) : str :=
  match r with
  | PATIENT => lit "patient"
  | DOCTOR => lit "doctor"
  | ADMIN => lit "admin"
  end.

Module security.

Definition create_token (jose : Jose) (now : datetime.t) (data : Claims.t)
    (expires_delta : Z) (secret : str) : result str :=
  expire <- datetime.add now expires_delta ;;
  let to_encode :=
    Claims.mk (Claims.sub data) (Claims.role data) (Claims.type_ data)
      (Claims.jti data) (Some expire) in
  Return (jwt_encode jose to_encode secret).

Definition create_access_token (jose : Jose) (settings : Settings)
    (now : datetime.t) (sub role : str) : result str :=
  create_token jose now
    (Claims.mk (Some sub) (Some role) (Some (lit "access")) None None)
    (datetime.timedelta_minutes (ACCESS_TOKEN_EXPIRE_MINUTES settings))
    (JWT_SECRET_KEY settings).

(** [uuid4_hex] is the value [uuid.uuid4().hex] takes at the call. *)
Definition create_refresh_token (jose : Jose) (settings : Settings)
    (now : datetime.t) (uuid4_hex : str) (sub role : str) (jti : option str)
    : result (str * str) :=
  let jti :=
    match jti with
    | Some (c :: s) => c :: s
    | _ => uuid4_hex
    end in
  token <-
    create_token jose now
      (Claims.mk (Some sub) (Some role) (Some (lit "refresh")) (Some jti) None)
      (datetime.timedelta_minutes (REFRESH_TOKEN_EXPIRE_MINUTES settings))
      (JWT_REFRESH_SECRET_KEY settings) ;;
  Return (token, jti).

Definition decode_token (jose : Jose) (settings : Settings) (now : datetime.t)
    (token : str) (refresh : bool) : option Claims.t :=
  let secret :=
    if refresh then JWT_REFRESH_SECRET_KEY settings else JWT_SECRET_KEY settings in
  jwt_decode jose token secret now.

End security.

(* ------------------------------------------------------------------ *)
(** ** routers.py

    A route returns its result together with the session as the commits
    made so far left it: an exception keeps what was committed before it
    and nothing else. *)

Module TokenPair.
Record t : Type := mk {
  access_token : str;
  refresh_token : str
}.
End TokenPair.

Module routers.

Definition invalid_status_change : exn :=
  HTTPException 400 (Text "Invalid status change").
Definition forbidden : exn := HTTPException 403 (Text "Forbidden").
Definition not_found : exn := HTTPException 404 (Text "Not found").

(** [profile.id] on a relationship that may be empty. *)
Definition profile_id (profile : option Z) : result Z :=
  match profile with
  | Some i => Return i
  | None => Raise AttributeError
  end.

(** [v not in l] *)
Definition not_in (v : option str) (l : list str) : bool :=
  match v with
  | Some s => negb (existsb (str_eqb s) l)
  | None => true
  end.

(** [v != s] for the value [v] of [dict.get]. *)
Definition ne (v : option str) (s : str) : bool :=
  match v with
  | Some v => negb (str_eqb v s)
  | None => true
  end.

Definition update_appointment (db : Session) (appt_id : Z)
    (appt_in : AppointmentUpdate.t) (current_user : User.t)
    : result Appointment.t * Session :=
  let r :=
    appt <-
      match crud.get_appointment db appt_id with
      | Some appt => Return appt
      | None => Raise not_found
      end ;;
    (if UserRole_eqb (User.role current_user) PATIENT then
       pid <- profile_id (User.patient_profile current_user) ;;
       (if negb (Appointment.patient_id appt =? pid) then Raise forbidden
        else Return tt) ;;;
       (if truthy_str (AppointmentUpdate.status appt_in)
           && not_in (AppointmentUpdate.status appt_in)
                [AppointmentStatus_value CANCELLED]
        then Raise invalid_status_change
        else Return tt)
     else Return tt) ;;;
    (if UserRole_eqb (User.role current_user) DOCTOR then
       did <- profile_id (User.doctor_profile current_user) ;;
       if negb (Appointment.doctor_id appt =? did) then Raise forbidden
       else Return tt
     else Return tt) ;;;
    match crud.update_appointment db appt appt_in with
    | Return r => Return r
    | Raise e =>
        match is_ValueError e with
        | Some detail => Raise (HTTPException 400 detail)
        | None => Raise e
        end
    end in
  match r with
  | Return (appt, db') => (Return appt, db')
  | Raise e => (Raise e, db)
  end.

(** [py_int] is [int(...)] on the claim [sub] and [py_str] is [str(...)] on
    a user id; [uuid4_hex] as in [security.create_refresh_token]. *)
Definition refresh_tokens (jose : Jose) (settings : Settings)
    (py_int : option str -> result Z) (py_str : Z -> str)
    (now : datetime.t) (uuid4_hex : str)
    (req_refresh_token : str) (db : Session)
    : result TokenPair.t * Session :=
  let invalid := HTTPException 401 (Text "Invalid refresh token") in
  let revoked := HTTPException 401 (Text "Token invalid or revoked") in
  match security.decode_token jose settings now req_refresh_token true with
  | None => (Raise invalid, db)
  | Some payload =>
  if ne (Claims.type_ payload) (lit "refresh") then (Raise invalid, db)
  else
  match py_int (Claims.sub payload) with
  | Raise e => (Raise e, db)
  | Return user_id =>
  let jti := Claims.jti payload in
  match scalar (users db) (fun u => User.id u =? user_id), jti with
  | Some user, Some (c :: s) =>
      let jti := c :: s in
      if negb (crud.validate_refresh_token now db jti user_id) then
        (Raise revoked, db)
      else
      match crud.revoke_refresh_token db jti with
      | Raise e => (Raise e, db)
      | Return db1 =>
      let sub := py_str (User.id user) in
      let role := UserRole_value (User.role user) in
      let rotated :=
        new_access <- security.create_access_token jose settings now sub role ;;
        refresh <-
          security.create_refresh_token jose settings now uuid4_hex sub role None ;;
        let '(new_refresh_token, new_jti) := refresh in
        expires_at <-
          datetime.add now
            (datetime.timedelta_minutes (REFRESH_TOKEN_EXPIRE_MINUTES settings)) ;;
        stored <-
          crud.create_refresh_token_record now db1 (User.id user) new_jti
            expires_at ;;
        Return (TokenPair.mk new_access new_refresh_token, snd stored) in
      match rotated with
      | Raise e => (Raise e, db1)
      | Return (tokens, db2) => (Return tokens, db2)
      end
      end
  | _, _ => (Raise revoked, db)
  end
  end
  end.

End routers.

(* ------------------------------------------------------------------ *)
(** ** Library codecs used by encryption.py

    [str.encode()] and [bytes.decode()] are UTF-8 (RFC 3629, strict);
    [base64.b64encode] is RFC 4648 with padding; [base64.b64decode] is the
    lenient decoder of [binascii.a2b_base64]: it skips bytes outside the
    alphabet, stops at a complete pad, and raises on a dangling group. *)

Module codecs.

Definition byte_of_Z (z : Z) : byte :=
  match Byte.of_N (Z.to_N (z mod 256)) with
  | Some b => b
  | None => x00
  end.

Definition Z_of_byte (b : byte) : Z := Z.of_N (Byte.to_N b).

Definition is_surrogate (c : Z) : bool := (0xD800 <=? c) && (c <=? 0xDFFF).

(** The UTF-8 bytes of one code point. *)
Definition encode_char (c : Z) : result bytes :=
  if c <? 0x80 then Return [byte_of_Z c]
  else if c <? 0x800 then
    Return [byte_of_Z (0xC0 + c / 64); byte_of_Z (0x80 + c mod 64)]
  else if c <? 0x10000 then
    if is_surrogate c then Raise UnicodeEncodeError
    else
      Return [byte_of_Z (0xE0 + c / 4096); byte_of_Z (0x80 + (c / 64) mod 64);
              byte_of_Z (0x80 + c mod 64)]
  else
    Return [byte_of_Z (0xF0 + c / 262144); byte_of_Z (0x80 + (c / 4096) mod 64);
            byte_of_Z (0x80 + (c / 64) mod 64); byte_of_Z (0x80 + c mod 64)].

(** [s.encode()] *)
Fixpoint str_encode (s : str) : result bytes :=
  match s with
  | [] => Return []
  | c :: s' =>
      b <- encode_char c ;;
      r <- str_encode s' ;;
      Return (b ++ r)
  end.

Definition is_continuation (b : byte) : bool :=
  (0x80 <=? Z_of_byte b) && (Z_of_byte b <? 0xC0).

Definition payload (b : byte) : Z := Z_of_byte b - 0x80.

(** [b.decode()] *)
Fixpoint bytes_decode (b : bytes) : result str :=
  match b with
  | [] => Return []
  | b0 :: r =>
      let x0 := Z_of_byte b0 in
      if x0 <? 0x80 then
        s <- bytes_decode r ;; Return (x0 :: s)
      else if x0 <? 0xC2 then Raise UnicodeDecodeError
      else if x0 <? 0xE0 then
        match r with
        | b1 :: r' =>
            if is_continuation b1 then
              s <- bytes_decode r' ;;
              Return ((x0 - 0xC0) * 64 + payload b1 :: s)
            else Raise UnicodeDecodeError
        | _ => Raise UnicodeDecodeError
        end
      else if x0 <? 0xF0 then
        match r with
        | b1 :: b2 :: r' =>
            let c := (x0 - 0xE0) * 4096 + payload b1 * 64 + payload b2 in
            if is_continuation b1 && is_continuation b2
               && (0x800 <=? c) && negb (is_surrogate c)
            then s <- bytes_decode r' ;; Return (c :: s)
            else Raise UnicodeDecodeError
        | _ => Raise UnicodeDecodeError
        end
      else if x0 <? 0xF5 then
        match r with
        | b1 :: b2 :: b3 :: r' =>
            let c := (x0 - 0xF0) * 262144 + payload b1 * 4096
                     + payload b2 * 64 + payload b3 in
            if is_continuation b1 && is_continuation b2 && is_continuation b3
               && (0x10000 <=? c) && (c <=? 0x10FFFF)
            then s <- bytes_decode r' ;; Return (c :: s)
            else Raise UnicodeDecodeError
        | _ => Raise UnicodeDecodeError
        end
      else Raise UnicodeDecodeError
  end.

(** [s.encode('ascii')] as [base64.b64decode] does it for a [str] argument:
    a code point above 127 is a ValueError. *)
Fixpoint ascii_encode (s : str) : result bytes :=
  match s with
  | [] => Return []
  | c :: s' =>
      if (0 <=? c) && (c <? 128) then
        r <- ascii_encode s' ;; Return (byte_of_Z c :: r)
      else
        Raise (ValueError (Text "string argument should contain only ASCII characters"))
  end.

(** The base64 alphabet: index to character and back. *)
Definition b64_char (i : Z) : byte :=
  byte_of_Z
    (if i <? 26 then 65 + i
     else if i <? 52 then 97 + (i - 26)
     else if i <? 62 then 48 + (i - 52)
     else if i =? 62 then 43
     else 47).

Definition b64_index (ch : byte) : option Z :=
  let x := Z_of_byte ch in
  if (65 <=? x) && (x <=? 90) then Some (x - 65)
  else if (97 <=? x) && (x <=? 122) then Some (x - 71)
  else if (48 <=? x) && (x <=? 57) then Some (x + 4)
  else if x =? 43 then Some 62
  else if x =? 47 then Some 63
  else None.

Definition b64_pad : byte := byte_of_Z 61.

(** [base64.b64encode(b)] *)
Fixpoint b64encode (b : bytes) : bytes :=
  match b with
  | [] => []
  | [b0] =>
      let x0 := Z_of_byte b0 in
      [b64_char (x0 / 4); b64_char (x0 mod 4 * 16); b64_pad; b64_pad]
  | [b0; b1] =>
      let x0 := Z_of_byte b0 in
      let x1 := Z_of_byte b1 in
      [b64_char (x0 / 4); b64_char (x0 mod 4 * 16 + x1 / 16);
       b64_char (x1 mod 16 * 4); b64_pad]
  | b0 :: b1 :: b2 :: r =>
      let x0 := Z_of_byte b0 in
      let x1 := Z_of_byte b1 in
      let x2 := Z_of_byte b2 in
      b64_char (x0 / 4) :: b64_char (x0 mod 4 * 16 + x1 / 16)
      :: b64_char (x1 mod 16 * 4 + x2 / 64) :: b64_char (x2 mod 64)
      :: b64encode r
  end.

(** [binascii.a2b_base64], not strict: the loop over the input with its
    state [quad_pos], [leftchar], [pads]. *)
Fixpoint a2b_base64 (quad_pos : nat) (leftchar pads : Z) (data : bytes)
    : result bytes :=
  match data with
  | [] =>
      match quad_pos with
      | O => Return []
      | _ => Raise binascii_Error
      end
  | this_ch :: rest =>
      if Z_of_byte this_ch =? 61 then
        match quad_pos with
        | O | S O => a2b_base64 quad_pos leftchar pads rest
        | _ =>
            if 4 <=? Z.of_nat quad_pos + (pads + 1) then Return []
            else a2b_base64 quad_pos leftchar (pads + 1) rest
        end
      else
        match b64_index this_ch with
        | None => a2b_base64 quad_pos leftchar pads rest
        | Some v =>
            match quad_pos with
            | O => a2b_base64 1 v 0 rest
            | S O =>
                out <- a2b_base64 2 (v mod 16) 0 rest ;;
                Return (byte_of_Z (leftchar * 4 + v / 16) :: out)
            | S (S O) =>
                out <- a2b_base64 3 (v mod 4) 0 rest ;;
                Return (byte_of_Z (leftchar * 16 + v / 4) :: out)
            | _ =>
                out <- a2b_base64 0 0 0 rest ;;
                Return (byte_of_Z (leftchar * 64 + v) :: out)
            end
        end
  end.

(** [base64.b64decode(s)] for a [str] argument. *)
Definition b64decode (s : str) : result bytes :=
  data <- ascii_encode s ;;
  a2b_base64 0 0 0 data.

End codecs.

(* ------------------------------------------------------------------ *)
(** ** cryptography's AESGCM

    The cipher itself is taken as given: [aead_seal key nonce data] is the
    ciphertext followed by its 16-byte tag, [aead_open] answers [None] when
    the tag does not verify.  The checks of the Python wrapper (key size,
    nonce size, room for the tag) are written out. *)

Record AEAD : Type := mkAEAD {
  aead_seal : bytes -> bytes -> bytes -> bytes;
  aead_open : bytes -> bytes -> bytes -> option bytes
}.

Module AESGCM.

(** [AESGCM(key)] *)
Definition init (key : bytes) : result bytes :=
  let n := Z.of_nat (List.length key) in
  if (n =? 16) || (n =? 24) || (n =? 32) then Return key
  else Raise (ValueError (Text "AESGCM key must be 128, 192, or 256 bits.")).

Definition _check_nonce (nonce : bytes) : result unit :=
  let n := Z.of_nat (List.length nonce) in
  if (n <? 8) || (128 <? n) then
    Raise (ValueError (Text "Nonce must be between 8 and 128 bytes"))
  else Return tt.

(** [aesgcm.encrypt(nonce, data, None)] *)
Definition encrypt (lib : AEAD) (key nonce data : bytes) : result bytes :=
  _check_nonce nonce ;;;
  Return (aead_seal lib key nonce data).

(** [aesgcm.decrypt(nonce, data, None)] *)
Definition decrypt (lib : AEAD) (key nonce data : bytes) : result bytes :=
  _check_nonce nonce ;;;
  if Z.of_nat (List.length data) <? 16 then Raise InvalidTag
  else
    match aead_open lib key nonce data with
    | Some pt => Return pt
    | None => Raise InvalidTag
    end.

End AESGCM.

(** What the theorems assume of the cipher, for a key and a nonce of sizes
    the wrapper accepts: opening what was sealed under the same key and
    nonce gives the data back, and sealing adds the 16 bytes of the tag. *)
Record AEAD_laws (lib : AEAD) : Prop := mkAEAD_laws {
  open_seal : forall key nonce data,
    AESGCM.init key = Return key ->
    AESGCM._check_nonce nonce = Return tt ->
    aead_open lib key nonce (aead_seal lib key nonce data) = Some data;
  seal_length : forall key nonce data,
    AESGCM.init key = Return key ->
    AESGCM._check_nonce nonce = Return tt ->
    List.length (aead_seal lib key nonce data) = (List.length data + 16)%nat
}.

(* ------------------------------------------------------------------ *)
(** ** encryption.py

    [KEY] is computed once, when the module is loaded; [encrypt] and
    [decrypt] read it.  [urandom_12] is the value [os.urandom(12)] takes at
    the call. *)

Module encryption.

Definition _normalize_key (raw : str) : result bytes :=
  b <- codecs.str_encode raw ;;
  if 32 <=? Z.of_nat (List.length b) then Return (firstn 32 b)
  else Return (firstn 32 (b ++ repeat "0"%byte 32)).

Definition KEY (settings : Settings) : result bytes :=
  _normalize_key (AES_ENCRYPTION_KEY settings).

Definition encrypt (lib : AEAD) (KEY : bytes) (urandom_12 : bytes)
    (plaintext : option str) : result (option str) :=
  match plaintext with
  | None => Return None
  | Some plaintext =>
      aesgcm <- AESGCM.init KEY ;;
      let nonce := urandom_12 in
      data <- codecs.str_encode plaintext ;;
      ct <- AESGCM.encrypt lib aesgcm nonce data ;;
      token <- codecs.bytes_decode (codecs.b64encode (nonce ++ ct)) ;;
      Return (Some token)
  end.

Definition decrypt (lib : AEAD) (KEY : bytes) (token : option str)
    : result (option str) :=
  match token with
  | None => Return None
  | Some token =>
      let body :=
        raw <- codecs.b64decode token ;;
        let nonce := firstn 12 raw in
        let ct := skipn 12 raw in
        aesgcm <- AESGCM.init KEY ;;
        pt <- AESGCM.decrypt lib aesgcm nonce ct ;;
        s <- codecs.bytes_decode pt ;;
        Return (Some s) in
      match body with
      | Return v => Return v
      | Raise _ => Return None
      end
  end.

End encryption.

(* ------------------------------------------------------------------ *)
(** ** Facts about the Python layer *)

Lemma str_eqb_eq (a b : str) : str_eqb a b = true <-> a = b.
Proof.
  revert b; induction a as [|x a IH]; intros [|y b]; simpl; split;
    try congruence; try reflexivity.
  - intros H. apply andb_true_iff in H as [Hx Hr].
    apply Z.eqb_eq in Hx. apply IH in Hr. congruence.
  - intros H. injection H as -> ->. rewrite Z.eqb_refl. simpl. now apply IH.
Qed.

Lemma str_eqb_neq (a b : str) : str_eqb a b = false <-> a <> b.
Proof.
  split.
  - intros H E. apply str_eqb_eq in E. congruence.
  - intros H. destruct (str_eqb a b) eqn:E; [|reflexivity].
    apply str_eqb_eq in E. contradiction.
Qed.

Lemma existsb_scalars {A : Type} (f g : A -> bool) (l : list A) :
  existsb f (scalars l g) = true <->
  exists a, In a l /\ g a = true /\ f a = true.
Proof.
  unfold scalars. rewrite existsb_exists. split.
  - intros (a & Hin & Hf). apply filter_In in Hin as [Hin Hg]. now exists a.
  - intros (a & Hin & Hg & Hf). exists a. split; [|assumption].
    apply filter_In. now split.
Qed.

Lemma truthy_scalar {A : Type} (stmt : A -> bool) (l : list A) :
  truthy_row (scalar l stmt) = true <-> exists a, In a l /\ stmt a = true.
Proof.
  unfold scalar. split.
  - destruct (filter stmt l) as [|a r] eqn:E; simpl; [discriminate|].
    intros _. exists a. apply filter_In. rewrite E. now left.
  - intros (a & Hin & Ha).
    assert (Hf : In a (filter stmt l)) by (apply filter_In; now split).
    destruct (filter stmt l); [contradiction|reflexivity].
Qed.

Lemma scalar_Some {A : Type} (stmt : A -> bool) (l : list A) (a : A) :
  scalar l stmt = Some a -> In a l /\ stmt a = true.
Proof.
  unfold scalar. intros H.
  destruct (filter stmt l) as [|x r] eqn:E; simpl in H; [discriminate|].
  injection H as ->. apply filter_In. rewrite E. now left.
Qed.

Lemma scalar_None {A : Type} (stmt : A -> bool) (l : list A) :
  scalar l stmt = None <-> forall a, In a l -> stmt a = false.
Proof.
  unfold scalar. split.
  - intros H a Hin. destruct (stmt a) eqn:Ea; [|reflexivity].
    assert (Hf : In a (filter stmt l)) by (apply filter_In; now split).
    destruct (filter stmt l); [contradiction|discriminate].
  - intros H. destruct (filter stmt l) as [|x r] eqn:E; [reflexivity|].
    assert (Hx : In x (filter stmt l)) by (rewrite E; now left).
    apply filter_In in Hx as [Hin Hs]. rewrite (H x Hin) in Hs. discriminate.
Qed.

(** *** ["%H:%M"] strings compare as times of day *)



Lemma HM_ltb (h1 m1 h2 m2 : Z) :
  0 <= h1 < 100 -> 0 <= m1 < 60 -> 0 <= h2 < 100 -> 0 <= m2 < 60 ->
  str_ltb (datetime.HM h1 m1) (datetime.HM h2 m2) = (60 * h1 + m1 <? 60 * h2 + m2).
Proof.
  intros Hh1 Hm1 Hh2 Hm2.
  unfold datetime.HM, datetime.two_digits. cbn [app str_ltb].
  repeat match goal with
         | |- context [?a <? ?b] => destruct (Z.ltb_spec a b)
         end; try reflexivity; exfalso;
    Z.div_mod_to_equations; lia.
Qed.

Lemma HM_leb (h1 m1 h2 m2 : Z) :
  0 <= h1 < 100 -> 0 <= m1 < 60 -> 0 <= h2 < 100 -> 0 <= m2 < 60 ->
  str_leb (datetime.HM h1 m1) (datetime.HM h2 m2) = (60 * h1 + m1 <=? 60 * h2 + m2).
Proof.
  intros Hh1 Hm1 Hh2 Hm2. unfold str_leb. rewrite HM_ltb by assumption.
  destruct (Z.ltb_spec (60 * h2 + m2) (60 * h1 + m1));
    destruct (Z.leb_spec (60 * h1 + m1) (60 * h2 + m2)); simpl; try reflexivity; lia.
Qed.




(* ------------------------------------------------------------------ *)
(** ** The conflict detector *)

(** [a] is an availability row of doctor [D] for the weekday of [T]. *)
Definition window_of (db : Session) (D : Z) (T : datetime.t)
    (a : DoctorAvailability.t) : Prop :=
  In a (doctor_availabilities db)
  /\ DoctorAvailability.doctor_id a = D
  /\ DoctorAvailability.day_of_week a = datetime.weekday T.

(** Some window of [D] that weekday has [start_time <= "%H:%M" of T < end_time]. *)
Definition available (db : Session) (D : Z) (T : datetime.t) : Prop :=
  exists a, window_of db D T a
    /\ str_leb (DoctorAvailability.start_time a) (datetime.strftime_HM T) = true
    /\ str_ltb (datetime.strftime_HM T) (DoctorAvailability.end_time a) = true.

(** The closed interval [[T - 29 minutes, T + 29 minutes]]. *)
Definition in_slot (T : datetime.t) (a : Appointment.t) : Prop :=
  T - datetime.timedelta_minutes 29 <= Appointment.scheduled_time a
  <= T + datetime.timedelta_minutes 29.

(** Both ends of the slot of [T] are datetimes. *)
Definition slot_in_range (T : datetime.t) : Prop :=
  datetime.min <= T - datetime.timedelta_minutes 29
  /\ T + datetime.timedelta_minutes 29 <= datetime.max.

(** An appointment of doctor [D], of any status and other than the excluded
    one, lies in the slot of [T]. *)
Definition doctor_conflict (db : Session) (D : Z) (T : datetime.t)
    (exclude_id : option Z) : Prop :=
  exists a, In a (appointments db)
    /\ Appointment.doctor_id a = D
    /\ exclude_id <> Some (Appointment.id a)
    /\ in_slot T a.

Definition patient_conflict (db : Session) (P : Z) (T : datetime.t)
    (exclude_id : option Z) : Prop :=
  exists a, In a (appointments db)
    /\ Appointment.patient_id a = P
    /\ exclude_id <> Some (Appointment.id a)
    /\ in_slot T a.

(** Primary keys of [appointments] come from the table's counter: they are
    positive. *)
Definition pk_positive (db : Session) : Prop :=
  forall a, In a (appointments db) -> 0 < Appointment.id a.

Lemma available_existsb (db : Session) (D : Z) (T : datetime.t) :
  existsb (crud.window_matches (datetime.strftime_HM T))
    (scalars (doctor_availabilities db)
       (fun a => (DoctorAvailability.doctor_id a =? D)
                 && (DoctorAvailability.day_of_week a =? datetime.weekday T)))
  = true <-> available db D T.
Proof.
  rewrite existsb_scalars. unfold available, window_of, crud.window_matches.
  split.
  - intros (a & Hin & Hk & Hm).
    apply andb_true_iff in Hk as [Hd Hw]. apply andb_true_iff in Hm as [Hs He].
    apply Z.eqb_eq in Hd, Hw. exists a. tauto.
  - intros (a & (Hin & Hd & Hw) & Hs & He). exists a.
    rewrite Hd, Hw, !Z.eqb_refl, Hs, He. tauto.
Qed.

Lemma slot_scan (db : Session) (key : Appointment.t -> Z) (k : Z)
    (T : datetime.t) (exclude_id : option Z) :
  pk_positive db ->
  let stmt := fun a =>
    (key a =? k)
    && (T - datetime.timedelta_minutes 29 <=? Appointment.scheduled_time a)
    && (Appointment.scheduled_time a <=? T + datetime.timedelta_minutes 29) in
  truthy_row
    (scalar (appointments db)
       (if truthy_int exclude_id then
          where_ stmt (fun a => negb (int_eqb_opt (Appointment.id a) exclude_id))
        else stmt)) = true
  <-> exists a, In a (appointments db) /\ key a = k
        /\ exclude_id <> Some (Appointment.id a) /\ in_slot T a.
Proof.
  intros Hpk stmt. rewrite truthy_scalar. unfold in_slot.
  assert (Hstmt : forall a, stmt a = true <->
            key a = k /\ T - datetime.timedelta_minutes 29 <= Appointment.scheduled_time a
                         <= T + datetime.timedelta_minutes 29).
  { intros a. unfold stmt. rewrite !andb_true_iff, Z.eqb_eq, !Z.leb_le. tauto. }
  split.
  - intros (a & Hin & Ha). exists a. split; [assumption|].
    destruct exclude_id as [e|]; simpl in Ha.
    + destruct (Z.eqb_spec e 0) as [->|Hne]; simpl in Ha.
      * apply Hstmt in Ha. specialize (Hpk a Hin).
        repeat split; try tauto. intros [= E]. lia.
      * unfold where_ in Ha. apply andb_true_iff in Ha as [Hs Hx].
        apply Hstmt in Hs. apply negb_true_iff in Hx. simpl in Hx.
        apply Z.eqb_neq in Hx. repeat split; try tauto. intros [= E]. congruence.
    + apply Hstmt in Ha. repeat split; try tauto. discriminate.
  - intros (a & Hin & Hk & Hex & Hslot). exists a. split; [assumption|].
    assert (Hs : stmt a = true) by (apply Hstmt; tauto).
    destruct exclude_id as [e|]; simpl; [|assumption].
    destruct (Z.eqb_spec e 0); simpl; [assumption|].
    unfold where_. rewrite Hs. simpl. apply negb_true_iff, Z.eqb_neq.
    intros E. apply Hex. now rewrite E.
Qed.

Lemma datetime_add_Return (d : datetime.t) (delta : Z) (r : datetime.t) :
  datetime.add d delta = Return r ->
  r = d + delta /\ datetime.min <= r <= datetime.max.
Proof.
  unfold datetime.add. cbv zeta.
  destruct (Z.ltb_spec (d + delta) datetime.min),
    (Z.ltb_spec datetime.max (d + delta)); cbn [orb]; try discriminate.
  intros [= <-]. lia.
Qed.

(** The two window ends of the validator: both are computed, or the first
    that leaves the datetime range raises. *)
Lemma slot_window (T : datetime.t) :
  (slot_in_range T
   /\ datetime.sub T (datetime.timedelta_minutes 29)
      = Return (T - datetime.timedelta_minutes 29)
   /\ datetime.add T (datetime.timedelta_minutes 29)
      = Return (T + datetime.timedelta_minutes 29))
  \/ (~ slot_in_range T
      /\ (datetime.sub T (datetime.timedelta_minutes 29) = Raise OverflowError
          \/ (datetime.sub T (datetime.timedelta_minutes 29)
               = Return (T - datetime.timedelta_minutes 29)
              /\ datetime.add T (datetime.timedelta_minutes 29)
                 = Raise OverflowError))).
Proof.
  unfold slot_in_range, datetime.sub, datetime.add. cbv zeta.
  assert (Hd : 0 < datetime.timedelta_minutes 29) by reflexivity.
  destruct (Z.ltb_spec (T - datetime.timedelta_minutes 29) datetime.min),
    (Z.ltb_spec datetime.max (T - datetime.timedelta_minutes 29)),
    (Z.ltb_spec (T + datetime.timedelta_minutes 29) datetime.min),
    (Z.ltb_spec datetime.max (T + datetime.timedelta_minutes 29));
    cbn [orb]; try lia;
    first [ left; split; [lia|split; reflexivity]
          | right; split; [lia|left; reflexivity]
          | right; split; [lia|right; split; reflexivity] ].
Qed.

(** The five ways [_validate_appointment_slot] ends, in the order the code
    tries them. *)
Lemma validate_cases (db : Session) (D P : Z) (T : datetime.t)
    (exclude_id : option Z) :
  pk_positive db ->
  let v := crud._validate_appointment_slot db D P T exclude_id in
  (~ available db D T /\ v = Raise crud.doctor_unavailable)
  \/ (available db D T /\ ~ slot_in_range T /\ v = Raise OverflowError)
  \/ (available db D T /\ slot_in_range T /\ doctor_conflict db D T exclude_id
      /\ v = Raise crud.doctor_slot_conflict)
  \/ (available db D T /\ slot_in_range T /\ ~ doctor_conflict db D T exclude_id
      /\ patient_conflict db P T exclude_id
      /\ v = Raise crud.patient_slot_conflict)
  \/ (available db D T /\ slot_in_range T /\ ~ doctor_conflict db D T exclude_id
      /\ ~ patient_conflict db P T exclude_id /\ v = Return tt).
Proof.
  intros Hpk v. subst v. unfold crud._validate_appointment_slot. cbv zeta.
  pose proof (available_existsb db D T) as Ha.
  pose proof (slot_scan db Appointment.doctor_id D T exclude_id Hpk) as Hd.
  pose proof (slot_scan db Appointment.patient_id P T exclude_id Hpk) as Hp.
  cbv zeta in Hd, Hp. fold (doctor_conflict db D T exclude_id) in Hd.
  fold (patient_conflict db P T exclude_id) in Hp.
  destruct (existsb _ _) eqn:Ea; cbn [negb].
  - assert (Hav : available db D T) by now apply Ha.
    destruct (slot_window T) as [(Hr & -> & ->)|(Hr & [-> | [-> ->]])];
      cbn [bind]; [|right; left; auto..].
    match goal with
    | |- context [if ?c then Raise crud.doctor_slot_conflict else _] =>
        destruct c eqn:Ed
    end.
    + right; right; left. split; [assumption|]. split; [assumption|].
      split; [now apply Hd|reflexivity].
    + assert (Hnd : ~ doctor_conflict db D T exclude_id).
      { intros Hc. apply Hd in Hc.
        first [discriminate Hc
              |pose proof (eq_trans (eq_sym Hc) Ed); discriminate]. }
      match goal with
      | |- context [if ?c then Raise crud.patient_slot_conflict else _] =>
          destruct c eqn:Ep
      end.
      * right; right; right; left. split; [assumption|]. split; [assumption|].
        split; [assumption|]. split; [now apply Hp|reflexivity].
      * right; right; right; right. split; [assumption|]. split; [assumption|].
        split; [assumption|].
        split; [|reflexivity]. intros Hc. apply Hp in Hc.
        first [discriminate Hc
              |pose proof (eq_trans (eq_sym Hc) Ep); discriminate].
  - left. split; [|reflexivity]. intros Hav. apply Ha in Hav. congruence.
Qed.


(** *** A small clinic, for concrete checks

    Doctor 1 works Mondays 09:00-17:00; 2024-01-01 (day 738885 from the
    epoch) is a Monday.  Patient 7 holds two appointments with doctor 1:
    number 1 at 09:30, already cancelled, and number 2 at 11:00, pending. *)

Definition monday : Z := 738885.

Definition clinic : Session :=
  mkSession
    [User.mk 10 PATIENT (Some 7) None; User.mk 11 DOCTOR None (Some 1);
     User.mk 12 DOCTOR None (Some 2)]
    [DoctorAvailability.mk 1 1 0 (lit "09:00") (lit "17:00")]
    [Appointment.mk 1 7 1 None (datetime.at_ monday 9 30) CANCELLED None 0;
     Appointment.mk 2 7 1 None (datetime.at_ monday 11 0) PENDING None 0]
    [].

Definition patient7 : User.t := User.mk 10 PATIENT (Some 7) None.
Definition doctor1 : User.t := User.mk 11 DOCTOR None (Some 1).

Lemma clinic_pk_positive : pk_positive clinic.
Proof.
  intros a [<-|[<-|[]]]; simpl; lia.
Defined.

Lemma clinic_available (h m : Z) :
  (9 <=? h) && (h <? 17) && (0 <=? m) && (m <? 60) = true ->
  available clinic 1 (datetime.at_ monday h m).
Proof.
  intros H. rewrite !andb_true_iff, !Z.leb_le, !Z.ltb_lt in H.
  exists (DoctorAvailability.mk 1 1 0 (lit "09:00") (lit "17:00")).
  assert (Hd : datetime.weekday (datetime.at_ monday h m) = 0).
  { unfold datetime.weekday, datetime.at_, monday, datetime.us_per_day,
      datetime.us_per_hour, datetime.us_per_minute.
    Z.div_mod_to_equations. lia. }
  assert (Hh : datetime.hour (datetime.at_ monday h m) = h).
  { unfold datetime.hour, datetime.at_, monday, datetime.us_per_day,
      datetime.us_per_hour, datetime.us_per_minute.
    Z.div_mod_to_equations. lia. }
  assert (Hm : datetime.minute (datetime.at_ monday h m) = m).
  { unfold datetime.minute, datetime.at_, monday, datetime.us_per_day,
      datetime.us_per_hour, datetime.us_per_minute.
    Z.div_mod_to_equations. lia. }
  split.
  - split; [now left|]. split; [reflexivity|]. simpl. now rewrite Hd.
  - unfold datetime.strftime_HM. rewrite Hh, Hm. simpl DoctorAvailability.start_time.
    simpl DoctorAvailability.end_time.
    change (lit "09:00") with (datetime.HM 9 0).
    change (lit "17:00") with (datetime.HM 17 0).
    rewrite HM_leb, HM_ltb by lia. split; [apply Z.leb_le|apply Z.ltb_lt]; lia.
Defined.


(** 09:00 is inside the window 09:00-17:00, 08:59 and 17:00 are outside;
    on a Tuesday the doctor has no window at all. *)
Example clinic_window_bounds :
  crud._validate_appointment_slot clinic 1 8 (datetime.at_ monday 9 0) None
    = Return tt
  /\ crud._validate_appointment_slot clinic 1 8 (datetime.at_ monday 16 59) None
    = Return tt
  /\ crud._validate_appointment_slot clinic 1 8 (datetime.at_ monday 8 59) None
    = Raise crud.doctor_unavailable
  /\ crud._validate_appointment_slot clinic 1 8 (datetime.at_ monday 17 0) None
    = Raise crud.doctor_unavailable
  /\ crud._validate_appointment_slot clinic 1 8 (datetime.at_ (monday + 1) 10 0) None
    = Raise crud.doctor_unavailable.
Proof. repeat split; vm_compute; reflexivity. Qed.

(** The last day of the datetime range, 9999-12-31 (a Friday), at a clinic
    where doctor 1 works Fridays from 00:00 to 23:59 and has an appointment
    at 23:30. *)
Definition last_day : Z := 3652058.

Definition year_end : Session :=
  mkSession
    [User.mk 10 PATIENT (Some 7) None; User.mk 11 DOCTOR None (Some 1)]
    [DoctorAvailability.mk 1 1 4 (lit "00:00") (lit "23:59")]
    [Appointment.mk 1 7 1 None (datetime.at_ last_day 23 30) PENDING None 0]
    [].

Lemma year_end_pk_positive : pk_positive year_end.
Proof.
  intros a [<-|[]]; simpl; lia.
Qed.

Lemma year_end_available :
  available year_end 1 (datetime.at_ last_day 23 40).
Proof.
  exists (DoctorAvailability.mk 1 1 4 (lit "00:00") (lit "23:59")).
  split; [|split; vm_compute; reflexivity].
  split; [left; reflexivity|]. split; vm_compute; reflexivity.
Qed.

Lemma year_end_doctor_conflict :
  doctor_conflict year_end 1 (datetime.at_ last_day 23 40) None.
Proof.
  exists (Appointment.mk 1 7 1 None (datetime.at_ last_day 23 30) PENDING None 0).
  split; [left; reflexivity|]. split; [reflexivity|]. split; [discriminate|].
  vm_compute. split; discriminate.
Qed.

(** The 23:30 appointment is one the code accepts (its slot ends at
    23:59:00); a booking one minute later already leaves the range. *)
Example year_end_booking :
  crud.create_appointment 0 (with_appointments year_end []) 7
    (AppointmentCreate.mk 1 None (datetime.at_ last_day 23 30))
  = Return (Appointment.mk 1 7 1 None (datetime.at_ last_day 23 30) PENDING None 0,
            year_end)
  /\ crud.create_appointment 0 (with_appointments year_end []) 7
       (AppointmentCreate.mk 1 None (datetime.at_ last_day 23 31))
     = Raise OverflowError.
Proof. split; vm_compute; reflexivity. Qed.

(** C1, as the specification states it, fails at the end of the datetime
    range: at 9999-12-31T23:40 doctor 1 is available and has an appointment
    ten minutes earlier, yet the validator does not reject with the
    doctor-slot conflict: T + 29 minutes is no datetime and it raises
    OverflowError. *)
Lemma slot_conflict_lost_at_datetime_max :
  pk_positive year_end
  /\ available year_end 1 (datetime.at_ last_day 23 40)
  /\ doctor_conflict year_end 1 (datetime.at_ last_day 23 40) None
  /\ crud._validate_appointment_slot year_end 1 8 (datetime.at_ last_day 23 40) None
     = Raise OverflowError
  /\ ~ (crud._validate_appointment_slot year_end 1 8
          (datetime.at_ last_day 23 40) None
        = Raise crud.doctor_slot_conflict
        <-> doctor_conflict year_end 1 (datetime.at_ last_day 23 40) None).
Proof.
  split; [exact year_end_pk_positive|]. split; [exact year_end_available|].
  split; [exact year_end_doctor_conflict|]. split; [vm_compute; reflexivity|].
  intros [_ H]. specialize (H year_end_doctor_conflict).
  vm_compute in H. discriminate.
Qed.

(** C1 (as amended). In a session whose appointment keys are positive (as
    the database assigns them), take a booking at time T for doctor D that
    passes the availability check.  When both ends of the slot,
    T - 29 minutes and T + 29 minutes, are datetimes, the validator raises
    "Doctor has another appointment in that slot" exactly when some
    appointment of D, whatever its status (cancelled included) and other
    than the excluded id when one is given, has its scheduled_time in the
    closed interval [T - 29 minutes, T + 29 minutes]; the patient scan
    decides exactly when the doctor scan found nothing; the booking is
    accepted exactly when neither scan finds a row, so a booking from which
    the other appointments of the doctor and of the patient are 30 minutes
    or more away is accepted.  When an end of the slot is no datetime, the
    validator raises OverflowError whatever the appointments are. *)
Theorem doctor_slot_conflict_iff (db : Session) (D P : Z) (T : datetime.t)
    (exclude_id : option Z) :
  pk_positive db ->
  available db D T ->
  let v := crud._validate_appointment_slot db D P T exclude_id in
  (slot_in_range T ->
   (v = Raise crud.doctor_slot_conflict <-> doctor_conflict db D T exclude_id)
   /\ (forall a, In a (appointments db) -> Appointment.doctor_id a = D ->
         Appointment.status a = CANCELLED ->
         exclude_id <> Some (Appointment.id a) -> in_slot T a ->
         v = Raise crud.doctor_slot_conflict)
   /\ (v = Raise crud.patient_slot_conflict <->
       ~ doctor_conflict db D T exclude_id /\ patient_conflict db P T exclude_id)
   /\ (v = Return tt <->
       ~ doctor_conflict db D T exclude_id /\ ~ patient_conflict db P T exclude_id)
   /\ ((forall a, In a (appointments db) ->
          Appointment.doctor_id a = D \/ Appointment.patient_id a = P ->
          exclude_id <> Some (Appointment.id a) ->
          datetime.timedelta_minutes 30
          <= Z.abs (Appointment.scheduled_time a - T)) ->
       v = Return tt))
  /\ (~ slot_in_range T -> v = Raise OverflowError).
Proof.
  intros Hpk Hav v.
  assert (Hfar_d : (forall a, In a (appointments db) ->
            Appointment.doctor_id a = D \/ Appointment.patient_id a = P ->
            exclude_id <> Some (Appointment.id a) ->
            datetime.timedelta_minutes 30
            <= Z.abs (Appointment.scheduled_time a - T)) ->
          ~ doctor_conflict db D T exclude_id
          /\ ~ patient_conflict db P T exclude_id).
  { intros Hfar. split; intros (a & Hin & Hk & Hex & Hs);
      [specialize (Hfar a Hin (or_introl Hk) Hex)
      |specialize (Hfar a Hin (or_intror Hk) Hex)];
      unfold in_slot, datetime.timedelta_minutes, datetime.us_per_minute in *;
      lia. }
  destruct (validate_cases db D P T exclude_id Hpk)
    as [[Hn _]|[(_ & Hr & Hv)|[(_ & Hr & Hd & Hv)|[(_ & Hr & Hd & Hp & Hv)
       |(_ & Hr & Hd & Hp & Hv)]]]];
    [contradiction| | | |]; fold v in Hv.
  - split; [intros Hin; contradiction|intros _; exact Hv].
  - split; [intros _|intros Hout; contradiction].
    split; [rewrite Hv; tauto|]. split; [intros; assumption|].
    split; [rewrite Hv; split; [discriminate|tauto]|].
    split; [rewrite Hv; split; [discriminate|tauto]|].
    intros Hfar. destruct (Hfar_d Hfar) as [H _]. contradiction.
  - split; [intros _|intros Hout; contradiction].
    split; [rewrite Hv; split; [discriminate|tauto]|].
    split; [intros a Hin Hk _ Hex Hs; exfalso; apply Hd; now exists a|].
    split; [rewrite Hv; tauto|].
    split; [rewrite Hv; split; [discriminate|tauto]|].
    intros Hfar. destruct (Hfar_d Hfar) as [_ H]. contradiction.
  - split; [intros _|intros Hout; contradiction].
    split; [rewrite Hv; split; [discriminate|tauto]|].
    split; [intros a Hin Hk _ Hex Hs; exfalso; apply Hd; now exists a|].
    split; [rewrite Hv; split; [discriminate|tauto]|].
    split; [rewrite Hv; tauto|]. intros _. exact Hv.
Qed.

Lemma clinic_slot_in_range (h m : Z) :
  0 <= h < 24 -> 0 <= m < 60 -> slot_in_range (datetime.at_ monday h m).
Proof.
  intros Hh Hm. unfold slot_in_range, datetime.at_, monday, datetime.min,
    datetime.max, datetime.timedelta_minutes, datetime.us_per_day,
    datetime.us_per_hour, datetime.us_per_minute. lia.
Qed.

Lemma doctor_slot_conflict_iff_witness :
  pk_positive clinic
  /\ available clinic 1 (datetime.at_ monday 9 59)
  /\ slot_in_range (datetime.at_ monday 9 59)
  /\ (crud._validate_appointment_slot clinic 1 8 (datetime.at_ monday 9 59) None
        = Raise crud.doctor_slot_conflict
      <-> doctor_conflict clinic 1 (datetime.at_ monday 9 59) None).
Proof.
  split; [exact clinic_pk_positive|].
  split; [apply clinic_available; reflexivity|].
  split; [apply clinic_slot_in_range; lia|].
  apply (doctor_slot_conflict_iff clinic 1 8 (datetime.at_ monday 9 59) None
           clinic_pk_positive (clinic_available 9 59 eq_refl)).
  apply clinic_slot_in_range; lia.
Defined.

(** The boundary: against the (cancelled) appointment at 09:30, a booking at
    09:59 or 09:01 is refused and one at 10:00 or 09:00 is accepted; one
    second past 29 minutes is outside the slot.  Rescheduling appointment 1
    itself into its own slot is not a conflict. *)
Example clinic_slot_bounds :
  crud._validate_appointment_slot clinic 1 8 (datetime.at_ monday 9 59) None
    = Raise crud.doctor_slot_conflict
  /\ crud._validate_appointment_slot clinic 1 8 (datetime.at_ monday 9 1) None
    = Raise crud.doctor_slot_conflict
  /\ crud._validate_appointment_slot clinic 1 8 (datetime.at_ monday 10 0) None
    = Return tt
  /\ crud._validate_appointment_slot clinic 1 8 (datetime.at_ monday 9 0) None
    = Return tt
  /\ crud._validate_appointment_slot clinic 1 8
       (datetime.at_ monday 9 59 + 1000000) None
    = Return tt
  /\ crud._validate_appointment_slot clinic 1 7 (datetime.at_ monday 9 45) (Some 1)
    = Return tt.
Proof. repeat split; vm_compute; reflexivity. Qed.

(* ------------------------------------------------------------------ *)
(** ** The appointment lifecycle *)

Lemma scalar_update_first {A : Type} (p : A -> bool) (f : A -> A)
    (l : list A) (x : A) :
  scalar l p = Some x -> p (f x) = true ->
  scalar (update_first p f l) p = Some (f x).
Proof.
  unfold scalar. induction l as [|y l IH]; simpl; [discriminate|].
  intros H Hf. destruct (p y) eqn:Ey; simpl in *.
  - injection H as ->. now rewrite Hf.
  - rewrite Ey. now apply IH.
Qed.

Lemma get_appointment_id (db : Session) (appt_id : Z) (appt : Appointment.t) :
  crud.get_appointment db appt_id = Some appt ->
  In appt (appointments db) /\ Appointment.id appt = appt_id.
Proof.
  intros H. apply scalar_Some in H as [Hin Hid]. now apply Z.eqb_eq in Hid.
Qed.

Lemma get_after_commit (db : Session) (appt_id : Z) (appt appt' : Appointment.t) :
  crud.get_appointment db appt_id = Some appt ->
  Appointment.id appt' = Appointment.id appt ->
  crud.get_appointment (crud.commit_appointment db appt') appt_id = Some appt'.
Proof.
  intros Hget Hid. destruct (get_appointment_id _ _ _ Hget) as [_ Hi].
  unfold crud.get_appointment, crud.commit_appointment. simpl.
  rewrite Hid, Hi.
  apply (scalar_update_first _ (fun _ => appt') _ appt Hget).
  rewrite Hid, Hi. apply Z.eqb_refl.
Qed.

(** The caller checks of [routers.update_appointment] let the request
    through to [crud.update_appointment]. *)
Definition may_update (user : User.t) (appt : Appointment.t)
    (appt_in : AppointmentUpdate.t) : Prop :=
  User.role user = ADMIN
  \/ (User.role user = DOCTOR
      /\ User.doctor_profile user = Some (Appointment.doctor_id appt))
  \/ (User.role user = PATIENT
      /\ User.patient_profile user = Some (Appointment.patient_id appt)
      /\ (truthy_str (AppointmentUpdate.status appt_in) = false
          \/ AppointmentUpdate.status appt_in
             = Some (AppointmentStatus_value CANCELLED))).

Lemma router_reaches_crud (db : Session) (appt_id : Z) (appt : Appointment.t)
    (appt_in : AppointmentUpdate.t) (user : User.t) :
  crud.get_appointment db appt_id = Some appt ->
  may_update user appt appt_in ->
  routers.update_appointment db appt_id appt_in user =
  match crud.update_appointment db appt appt_in with
  | Return (appt', db') => (Return appt', db')
  | Raise e =>
      match is_ValueError e with
      | Some detail => (Raise (HTTPException 400 detail), db)
      | None => (Raise e, db)
      end
  end.
Proof.
  intros Hget Hmay. unfold routers.update_appointment. rewrite Hget.
  assert (Hend : forall r : result (Appointment.t * Session),
            match
              match r with
              | Return x => Return x
              | Raise e =>
                  match is_ValueError e with
                  | Some detail => Raise (HTTPException 400 detail)
                  | None => Raise e
                  end
              end
            with
            | Return (a, d) => (Return a, d)
            | Raise e => (Raise e, db)
            end =
            match r with
            | Return (a, d) => (Return a, d)
            | Raise e =>
                match is_ValueError e with
                | Some detail => (Raise (HTTPException 400 detail), db)
                | None => (Raise e, db)
                end
            end).
  { intros [[a d]|e]; [reflexivity|]. now destruct (is_ValueError e). }
  destruct Hmay as [Hr|[(Hr & Hp)|(Hr & Hp & Hs)]]; rewrite Hr;
    cbn [bind UserRole_eqb].
  - apply Hend.
  - rewrite Hp. cbn [bind routers.profile_id]. rewrite Z.eqb_refl.
    cbn [negb bind]. apply Hend.
  - rewrite Hp. cbn [bind routers.profile_id]. rewrite Z.eqb_refl.
    cbn [negb bind].
    assert (Hguard : truthy_str (AppointmentUpdate.status appt_in)
                    && routers.not_in (AppointmentUpdate.status appt_in)
                         [AppointmentStatus_value CANCELLED] = false).
    { destruct Hs as [Hs|Hs]; rewrite Hs; [reflexivity|].
      rewrite andb_false_iff. right. reflexivity. }
    rewrite Hguard. cbn [bind]. apply Hend.
Qed.

Lemma crud_update_status_only (db : Session) (appt : Appointment.t)
    (appt_in : AppointmentUpdate.t) (s : str) (st : AppointmentStatus) :
  AppointmentUpdate.scheduled_time appt_in = None ->
  AppointmentUpdate.status appt_in = Some s ->
  AppointmentStatus_call s = Return st ->
  exists appt',
    crud.update_appointment db appt appt_in
      = Return (appt', crud.commit_appointment db appt')
    /\ Appointment.status appt' = st
    /\ Appointment.id appt' = Appointment.id appt
    /\ Appointment.scheduled_time appt' = Appointment.scheduled_time appt.
Proof.
  intros Ht Hs Hst. unfold crud.update_appointment. rewrite Ht, Hs. simpl.
  rewrite Hst. simpl.
  destruct (AppointmentUpdate.notes appt_in); eexists; repeat split.
Qed.

(** C4, as the specification states it, fails on the code: the owning
    doctor moves the cancelled appointment 1 to approved, and the owning
    patient moves a rejected appointment to cancelled. *)
Lemma cancelled_appointment_reapproved :
  option_map Appointment.status (crud.get_appointment clinic 1) = Some CANCELLED
  /\ option_map Appointment.status
       (crud.get_appointment
          (snd (routers.update_appointment clinic 1
                  (AppointmentUpdate.mk None (Some (lit "approved")) None)
                  doctor1)) 1)
     = Some APPROVED
  /\ (let rejected :=
        with_appointments clinic
          [Appointment.mk 1 7 1 None (datetime.at_ monday 9 30) REJECTED None 0] in
      option_map Appointment.status
        (crud.get_appointment
           (snd (routers.update_appointment rejected 1
                   (AppointmentUpdate.mk None (Some (lit "cancelled")) None)
                   patient7)) 1)
      = Some CANCELLED).
Proof. repeat split; vm_compute; reflexivity. Qed.

(** C4, amended. The code keeps no transition table: for an appointment in
    any status (rejected and cancelled included) an update without a new
    time that carries one of the four status values, from a caller the
    route lets through (an admin, the owning doctor, or the owning patient
    asking for cancelled), succeeds and stores that value as the status. *)
Theorem update_sets_requested_status (db : Session) (appt_id : Z)
    (appt : Appointment.t) (appt_in : AppointmentUpdate.t) (user : User.t)
    (s : str) (st : AppointmentStatus) :
  crud.get_appointment db appt_id = Some appt ->
  may_update user appt appt_in ->
  AppointmentUpdate.scheduled_time appt_in = None ->
  AppointmentUpdate.status appt_in = Some s ->
  AppointmentStatus_call s = Return st ->
  exists appt',
    routers.update_appointment db appt_id appt_in user
      = (Return appt', crud.commit_appointment db appt')
    /\ Appointment.status appt' = st
    /\ crud.get_appointment (crud.commit_appointment db appt') appt_id
       = Some appt'.
Proof.
  intros Hget Hmay Ht Hs Hst.
  destruct (crud_update_status_only db appt appt_in s st Ht Hs Hst)
    as (appt' & Hup & Hst' & Hid & _).
  exists appt'. rewrite (router_reaches_crud db appt_id appt appt_in user Hget Hmay).
  rewrite Hup. split; [reflexivity|]. split; [assumption|].
  now apply (get_after_commit db appt_id appt appt').
Qed.

Lemma update_sets_requested_status_witness :
  exists appt',
    routers.update_appointment clinic 1
      (AppointmentUpdate.mk None (Some (lit "approved")) None) doctor1
      = (Return appt', crud.commit_appointment clinic appt')
    /\ Appointment.status appt' = APPROVED
    /\ crud.get_appointment (crud.commit_appointment clinic appt') 1 = Some appt'.
Proof.
  apply (update_sets_requested_status clinic 1
           (Appointment.mk 1 7 1 None (datetime.at_ monday 9 30) CANCELLED None 0)
           (AppointmentUpdate.mk None (Some (lit "approved")) None) doctor1
           (lit "approved") APPROVED).
  - reflexivity.
  - right; left. split; reflexivity.
  - reflexivity.
  - reflexivity.
  - reflexivity.
Defined.

(** C5, as the specification states it, fails on the code: the patient guard
    tests [appt_in.status and ...], so the empty string passes it and is
    refused later by the Enum lookup, with another detail than
    "Invalid status change". *)
Lemma patient_empty_status_other_detail :
  fst (routers.update_appointment clinic 2
         (AppointmentUpdate.mk None (Some []) None) patient7)
  = Raise (HTTPException 400 (NotAValidStatus []))
  /\ fst (routers.update_appointment clinic 2
            (AppointmentUpdate.mk None (Some []) None) patient7)
     <> Raise routers.invalid_status_change.
Proof. split; [vm_compute; reflexivity|vm_compute; discriminate]. Qed.

(** C5, amended. For the patient who owns the appointment: a requested
    status value of "cancelled" is accepted (the route hands the request to
    [crud.update_appointment], and without a new time the update succeeds
    and stores cancelled, from pending in particular); any other non-empty
    status value is rejected with "Invalid status change" and the session
    is left as it was. *)
Theorem patient_may_only_cancel (db : Session) (appt_id : Z)
    (appt : Appointment.t) (appt_in : AppointmentUpdate.t) (user : User.t) :
  crud.get_appointment db appt_id = Some appt ->
  User.role user = PATIENT ->
  User.patient_profile user = Some (Appointment.patient_id appt) ->
  (AppointmentUpdate.status appt_in = Some (AppointmentStatus_value CANCELLED) ->
   routers.update_appointment db appt_id appt_in user
     = match crud.update_appointment db appt appt_in with
       | Return (appt', db') => (Return appt', db')
       | Raise e =>
           match is_ValueError e with
           | Some detail => (Raise (HTTPException 400 detail), db)
           | None => (Raise e, db)
           end
       end
   /\ (AppointmentUpdate.scheduled_time appt_in = None ->
       exists appt',
         routers.update_appointment db appt_id appt_in user
           = (Return appt', crud.commit_appointment db appt')
         /\ Appointment.status appt' = CANCELLED
         /\ crud.get_appointment (crud.commit_appointment db appt') appt_id
            = Some appt'))
  /\ (forall s, AppointmentUpdate.status appt_in = Some s ->
        s <> [] -> s <> AppointmentStatus_value CANCELLED ->
        routers.update_appointment db appt_id appt_in user
          = (Raise routers.invalid_status_change, db)).
Proof.
  intros Hget Hr Hp. split.
  - intros Hs.
    assert (Hmay : may_update user appt appt_in).
    { right; right. split; [assumption|]. split; [assumption|]. now right. }
    pose proof (router_reaches_crud db appt_id appt appt_in user Hget Hmay) as Hrt.
    split; [exact Hrt|]. intros Ht.
    destruct (crud_update_status_only db appt appt_in _ CANCELLED Ht Hs eq_refl)
      as (appt' & Hup & Hst' & Hid & _).
    exists appt'. rewrite Hrt, Hup. split; [reflexivity|]. split; [assumption|].
    now apply (get_after_commit db appt_id appt appt').
  - intros s Hs Hne Hnc. unfold routers.update_appointment.
    rewrite Hget, Hr, Hp, Hs. cbn [bind UserRole_eqb routers.profile_id].
    rewrite Z.eqb_refl. cbn [negb bind].
    assert (Hguard : truthy_str (Some s)
                    && routers.not_in (Some s) [AppointmentStatus_value CANCELLED]
                    = true).
    { destruct s as [|c s]; [contradiction|]. cbn [truthy_str andb].
      unfold routers.not_in. cbn [existsb]. rewrite orb_false_r.
      apply negb_true_iff. now apply str_eqb_neq. }
    rewrite Hguard. reflexivity.
Qed.

(** Patient 7 cancels the pending appointment 2, and may not approve it. *)
Lemma patient_may_only_cancel_witness :
  (exists appt',
     routers.update_appointment clinic 2
       (AppointmentUpdate.mk None (Some (lit "cancelled")) None) patient7
       = (Return appt', crud.commit_appointment clinic appt')
     /\ Appointment.status appt' = CANCELLED
     /\ crud.get_appointment (crud.commit_appointment clinic appt') 2 = Some appt')
  /\ routers.update_appointment clinic 2
       (AppointmentUpdate.mk None (Some (lit "approved")) None) patient7
     = (Raise routers.invalid_status_change, clinic).
Proof.
  pose (appt2 := Appointment.mk 2 7 1 None (datetime.at_ monday 11 0) PENDING None 0).
  split.
  - destruct (patient_may_only_cancel clinic 2 appt2
                (AppointmentUpdate.mk None (Some (lit "cancelled")) None) patient7
                eq_refl eq_refl eq_refl) as [Hcancel _].
    destruct (Hcancel eq_refl) as [_ Hdone]. exact (Hdone eq_refl).
  - destruct (patient_may_only_cancel clinic 2 appt2
                (AppointmentUpdate.mk None (Some (lit "approved")) None) patient7
                eq_refl eq_refl eq_refl) as [_ Hother].
    apply (Hother (lit "approved") eq_refl); discriminate.
Defined.

Lemma validate_raises (db : Session) (D P : Z) (T : datetime.t)
    (exclude_id : option Z) (e : exn) :
  crud._validate_appointment_slot db D P T exclude_id = Raise e ->
  (slot_in_range T \/ ~ available db D T ->
   e = crud.doctor_unavailable \/ e = crud.doctor_slot_conflict
   \/ e = crud.patient_slot_conflict)
  /\ (~ slot_in_range T -> available db D T -> e = OverflowError).
Proof.
  unfold crud._validate_appointment_slot. cbv zeta.
  pose proof (available_existsb db D T) as Ha.
  destruct (existsb _ _) eqn:Ea; cbn [negb].
  - destruct (slot_window T) as [(Hr & -> & ->)|(Hr & [-> | [-> ->]])];
      cbn [bind]; intros H.
    + split; [intros _|intros Hn; contradiction].
      repeat match type of H with
             | (if ?c then _ else _) = _ => destruct c
             end; try discriminate; injection H as <-; tauto.
    + injection H as <-. split; [|reflexivity].
      intros [Hin|Hn]; [contradiction|]. exfalso. apply Hn. now apply Ha.
    + injection H as <-. split; [|reflexivity].
      intros [Hin|Hn]; [contradiction|]. exfalso. apply Hn. now apply Ha.
  - intros [= <-]. split; [tauto|].
    intros _ Hav. apply Ha in Hav. discriminate.
Qed.

(** C9, as the specification states it, fails at the end of the datetime
    range: patient 7 moves the 23:30 appointment of 9999-12-31 to 23:40;
    the doctor is available, the detector raises OverflowError, and what
    reaches the caller is that error and no reason of the detector. *)
Lemma reschedule_overflow_gives_no_reason :
  crud._validate_appointment_slot year_end 1 7 (datetime.at_ last_day 23 40)
    (Some 1)
  = Raise OverflowError
  /\ routers.update_appointment year_end 1
       (AppointmentUpdate.mk (Some (datetime.at_ last_day 23 40)) None None)
       patient7
     = (Raise OverflowError, year_end)
  /\ (forall detail,
        routers.update_appointment year_end 1
          (AppointmentUpdate.mk (Some (datetime.at_ last_day 23 40)) None None)
          patient7
        <> (Raise (HTTPException 400 detail), year_end)).
Proof.
  split; [vm_compute; reflexivity|]. split; [vm_compute; reflexivity|].
  intros detail H. vm_compute in H. discriminate.
Qed.

(** C9 (as amended). An update that carries a new scheduled_time runs the
    conflict detector on the appointment's doctor and patient with the
    appointment's own id excluded, before anything else.  Whenever the
    detector raises, the stored record keeps its scheduled_time, status and
    notes (the session is returned as it was).  When both ends of the new
    slot are datetimes, what the detector raises is one of its three
    reasons and that message is the detail of the 400 the caller gets; a
    slot conflict is always with another row than the appointment itself.
    When an end of the new slot is no datetime and the doctor is
    available, the detector raises OverflowError and that error reaches the
    caller in place of a reason. *)
Theorem reschedule_revalidates (db : Session) (appt_id : Z)
    (appt : Appointment.t) (appt_in : AppointmentUpdate.t) (user : User.t)
    (t : datetime.t) :
  crud.get_appointment db appt_id = Some appt ->
  may_update user appt appt_in ->
  AppointmentUpdate.scheduled_time appt_in = Some t ->
  let v :=
    crud._validate_appointment_slot db (Appointment.doctor_id appt)
      (Appointment.patient_id appt) t (Some (Appointment.id appt)) in
  crud.update_appointment db appt appt_in =
    (v ;;;
     crud.update_appointment db (set_scheduled_time appt t)
       (AppointmentUpdate.mk None (AppointmentUpdate.status appt_in)
          (AppointmentUpdate.notes appt_in)))
  /\ (forall e, v = Raise e ->
        crud.update_appointment db appt appt_in = Raise e
        /\ snd (routers.update_appointment db appt_id appt_in user) = db
        /\ crud.get_appointment
             (snd (routers.update_appointment db appt_id appt_in user)) appt_id
           = Some appt)
  /\ (slot_in_range t ->
      forall e, v = Raise e ->
        exists detail,
          e = ValueError detail
          /\ (e = crud.doctor_unavailable \/ e = crud.doctor_slot_conflict
              \/ e = crud.patient_slot_conflict)
          /\ routers.update_appointment db appt_id appt_in user
             = (Raise (HTTPException 400 detail), db))
  /\ (~ slot_in_range t -> available db (Appointment.doctor_id appt) t ->
      v = Raise OverflowError
      /\ routers.update_appointment db appt_id appt_in user
         = (Raise OverflowError, db))
  /\ (pk_positive db ->
      (v = Raise crud.doctor_slot_conflict ->
       exists a, In a (appointments db)
         /\ Appointment.id a <> Appointment.id appt
         /\ Appointment.doctor_id a = Appointment.doctor_id appt
         /\ in_slot t a)
      /\ (v = Raise crud.patient_slot_conflict ->
          exists a, In a (appointments db)
            /\ Appointment.id a <> Appointment.id appt
            /\ Appointment.patient_id a = Appointment.patient_id appt
            /\ in_slot t a)).
Proof.
  intros Hget Hmay Ht v.
  assert (Heq : crud.update_appointment db appt appt_in =
                (v ;;;
                 crud.update_appointment db (set_scheduled_time appt t)
                   (AppointmentUpdate.mk None (AppointmentUpdate.status appt_in)
                      (AppointmentUpdate.notes appt_in)))).
  { unfold crud.update_appointment. rewrite Ht. cbn [AppointmentUpdate.scheduled_time
      AppointmentUpdate.status AppointmentUpdate.notes]. fold v.
    destruct v as [[]|e]; reflexivity. }
  assert (Hroute : forall e, v = Raise e ->
            crud.update_appointment db appt appt_in = Raise e
            /\ routers.update_appointment db appt_id appt_in user
               = match is_ValueError e with
                 | Some detail => (Raise (HTTPException 400 detail), db)
                 | None => (Raise e, db)
                 end).
  { intros e He.
    assert (Hup : crud.update_appointment db appt appt_in = Raise e)
      by (rewrite Heq, He; reflexivity).
    split; [assumption|].
    now rewrite (router_reaches_crud db appt_id appt appt_in user Hget Hmay), Hup. }
  split; [exact Heq|]. split; [|split; [|split]].
  - intros e He. destruct (Hroute e He) as [Hup Hrt].
    split; [assumption|]. rewrite Hrt.
    destruct (is_ValueError e); cbn [snd]; auto.
  - intros Hin e He. destruct (Hroute e He) as [_ Hrt].
    destruct (validate_raises _ _ _ _ _ _ He) as [Hreason _].
    specialize (Hreason (or_introl Hin)).
    destruct Hreason as [-> | [-> | ->]]; eexists;
      (split; [reflexivity|]); (split; [tauto|]); exact Hrt.
  - intros Hout Hav.
    destruct (crud._validate_appointment_slot db (Appointment.doctor_id appt)
                (Appointment.patient_id appt) t (Some (Appointment.id appt)))
      as [[]|e] eqn:He.
    + exfalso. revert He. unfold crud._validate_appointment_slot. cbv zeta.
      destruct (existsb _ _); cbn [negb]; [|discriminate].
      destruct (slot_window t) as [(Hr & _)|(_ & [-> | [-> ->]])];
        [contradiction|discriminate|discriminate].
    + destruct (validate_raises _ _ _ _ _ _ He) as [_ Ho].
      specialize (Ho Hout Hav). subst e.
      assert (Hv : v = Raise OverflowError) by first [reflexivity|exact He].
      split; [exact Hv|]. destruct (Hroute OverflowError Hv) as [_ Hrt].
      exact Hrt.
  - intros Hpk.
    pose proof (validate_cases db (Appointment.doctor_id appt)
                  (Appointment.patient_id appt) t (Some (Appointment.id appt)) Hpk)
      as Hc.
    cbv zeta in Hc. fold v in Hc.
    split; intros Hv; rewrite Hv in Hc;
      destruct Hc as [[_ Hc]|[(_ & _ & Hc)|[(_ & _ & Hd & Hc)
        |[(_ & _ & _ & Hp & Hc)|(_ & _ & _ & _ & Hc)]]]];
      try discriminate.
    + destruct Hd as (a & Hin & Hk & Hex & Hs). exists a.
      split; [assumption|]. split; [congruence|]. now split.
    + destruct Hp as (a & Hin & Hk & Hex & Hs). exists a.
      split; [assumption|]. split; [congruence|]. now split.
Qed.

(** Patient 7 moves appointment 2 from 11:00 to 09:45, into the slot of
    appointment 1: refused, and nothing is stored. *)
Lemma reschedule_revalidates_witness :
  routers.update_appointment clinic 2
    (AppointmentUpdate.mk (Some (datetime.at_ monday 9 45))
       (Some (lit "cancelled")) (Some (lit "late"))) patient7
  = (Raise (HTTPException 400 (Text "Doctor has another appointment in that slot")),
     clinic).
Proof.
  pose (appt2 := Appointment.mk 2 7 1 None (datetime.at_ monday 11 0) PENDING None 0).
  pose (upd := AppointmentUpdate.mk (Some (datetime.at_ monday 9 45))
                 (Some (lit "cancelled")) (Some (lit "late"))).
  assert (Hmay : may_update patient7 appt2 upd).
  { right; right. split; [reflexivity|]. split; [reflexivity|]. now right. }
  assert (Hin : slot_in_range (datetime.at_ monday 9 45))
    by (apply clinic_slot_in_range; lia).
  destruct (reschedule_revalidates clinic 2 appt2 upd patient7
              (datetime.at_ monday 9 45) eq_refl Hmay eq_refl)
    as (_ & _ & Hfail & _).
  destruct (Hfail Hin crud.doctor_slot_conflict eq_refl)
    as (detail & Hd & _ & Hrt).
  injection Hd as <-. exact Hrt.
Defined.

(** Moving appointment 2 to 10:40, inside its own slot and clear of the
    others, is accepted: the appointment does not conflict with itself. *)
Example reschedule_within_own_slot :
  fst (routers.update_appointment clinic 2
         (AppointmentUpdate.mk (Some (datetime.at_ monday 10 40)) None None) patient7)
  = Return (Appointment.mk 2 7 1 None (datetime.at_ monday 10 40) PENDING None 0).
Proof. vm_compute. reflexivity. Qed.

(* ------------------------------------------------------------------ *)
(** ** The refresh-token lifecycle *)

(** The unique index on [refresh_tokens.jti]. *)
Definition unique_jti (db : Session) : Prop :=
  NoDup (map RefreshToken.jti (refresh_tokens db)).

(** The persisted record of [jti] for [user_id]. *)
Definition token_record (db : Session) (jti : str) (user_id : Z)
    (r : RefreshToken.t) : Prop :=
  In r (refresh_tokens db)
  /\ RefreshToken.jti r = jti /\ RefreshToken.user_id r = user_id.

Lemma scalar_unique {A K : Type} (key : A -> K) (p : A -> bool) (k : K)
    (l : list A) (r : A) :
  NoDup (map key l) ->
  (forall x, p x = true -> key x = k) ->
  In r l -> p r = true ->
  scalar l p = Some r.
Proof.
  intros Hnd Hp Hin Hr. unfold scalar.
  induction l as [|y l IH]; [contradiction|].
  simpl in Hnd. apply NoDup_cons_iff in Hnd as [Hny Hnd]. simpl.
  destruct Hin as [->|Hin].
  - now rewrite Hr.
  - destruct (p y) eqn:Ey.
    + exfalso. apply Hny. rewrite (Hp y Ey), <- (Hp r Hr). now apply in_map.
    + now apply IH.
Qed.

Lemma token_stmt_spec (jti : str) (user_id : Z) (r : RefreshToken.t) :
  str_eqb (RefreshToken.jti r) jti && (RefreshToken.user_id r =? user_id) = true
  <-> RefreshToken.jti r = jti /\ RefreshToken.user_id r = user_id.
Proof. now rewrite andb_true_iff, str_eqb_eq, Z.eqb_eq. Qed.

Lemma validate_true_iff (now : datetime.t) (db : Session) (jti : str)
    (user_id : Z) :
  unique_jti db ->
  crud.validate_refresh_token now db jti user_id = true <->
  exists r, token_record db jti user_id r
    /\ RefreshToken.revoked r = false /\ now <= RefreshToken.expires_at r.
Proof.
  intros Hu. unfold crud.validate_refresh_token, token_record. split.
  - destruct (scalar _ _) as [r|] eqn:Es; [|discriminate].
    apply scalar_Some in Es as [Hin Hs]. apply token_stmt_spec in Hs.
    destruct (RefreshToken.revoked r) eqn:Er; simpl; [discriminate|].
    destruct (Z.ltb_spec (RefreshToken.expires_at r) now); [discriminate|].
    intros _. exists r. tauto.
  - intros (r & (Hin & Hj & Hi) & Hr & He).
    rewrite (scalar_unique RefreshToken.jti _ jti _ r Hu).
    + rewrite Hr. simpl.
      destruct (Z.ltb_spec (RefreshToken.expires_at r) now); [lia|reflexivity].
    + intros x Hx. now apply token_stmt_spec in Hx.
    + assumption.
    + now apply token_stmt_spec.
Qed.

Lemma update_first_map {A B : Type} (g : A -> B) (p : A -> bool) (f : A -> A)
    (l : list A) :
  (forall x, g (f x) = g x) -> map g (update_first p f l) = map g l.
Proof.
  intros Hg. induction l as [|y l IH]; simpl; [reflexivity|].
  destruct (p y); simpl; [now rewrite Hg|now rewrite IH].
Qed.

(** A table after some operations: every row that was there is still there,
    at its place, the same or with [revoked] gone from false to true; rows
    may have been added at the end. *)
Definition revoked_only_set (l l' : list RefreshToken.t) : Prop :=
  exists kept added,
    l' = kept ++ added
    /\ Forall2 (fun r r' =>
                  r' = r \/ (RefreshToken.revoked r = false /\ r' = set_revoked r true))
         l kept.

Lemma revoked_only_set_refl (l : list RefreshToken.t) : revoked_only_set l l.
Proof.
  exists l, []. split; [now rewrite app_nil_r|].
  induction l; constructor; auto.
Qed.

Lemma revoked_only_set_app (l added : list RefreshToken.t) :
  revoked_only_set l (l ++ added).
Proof.
  exists l, added. split; [reflexivity|]. induction l; constructor; auto.
Qed.

Lemma revoked_only_set_trans (l1 l2 l3 : list RefreshToken.t) :
  revoked_only_set l1 l2 -> revoked_only_set l2 l3 -> revoked_only_set l1 l3.
Proof.
  intros (k1 & a1 & -> & H1) (k2 & a2 & -> & H2).
  apply Forall2_app_inv_l in H2 as (k2a & k2b & Ha & Hb & ->).
  exists k2a, (k2b ++ a2). split; [now rewrite app_assoc|].
  clear Hb. revert k2a Ha. induction H1 as [|r r' l k Hr _ IH]; intros k2a Ha.
  - inversion Ha. constructor.
  - inversion Ha as [|? r'' ? k' Hr' Hk']; subst. constructor; [|now apply IH].
    destruct Hr as [->|[Hf ->]]; [assumption|].
    destruct Hr' as [->|[Hf' _]]; [now right|]. simpl in Hf'. discriminate.
Qed.

Lemma revoked_only_set_update_first (p : RefreshToken.t -> bool)
    (l : list RefreshToken.t) (rec : RefreshToken.t) :
  scalar l p = Some rec -> RefreshToken.revoked rec = false ->
  revoked_only_set l (update_first p (fun r => set_revoked r true) l).
Proof.
  intros Hs Hr. exists (update_first p (fun r => set_revoked r true) l), [].
  split; [now rewrite app_nil_r|].
  unfold scalar in Hs. induction l as [|y l IH]; simpl in *; [constructor|].
  destruct (p y) eqn:Ey; simpl in Hs.
  - injection Hs as ->. constructor; [now right|].
    clear. induction l; constructor; auto.
  - constructor; [now left|]. now apply IH.
Qed.

Lemma update_first_In {A : Type} (p : A -> bool) (f : A -> A) (l : list A)
    (x : A) :
  scalar l p = Some x -> In (f x) (update_first p f l).
Proof.
  unfold scalar. induction l as [|y l IH]; simpl; [discriminate|].
  destruct (p y) eqn:Ey; simpl.
  - intros [= ->]. now left.
  - intros H. right. now apply IH.
Qed.

Lemma NoDup_map_inj {A K : Type} (key : A -> K) (l : list A) (a b : A) :
  NoDup (map key l) -> In a l -> In b l -> key a = key b -> a = b.
Proof.
  induction l as [|y l IH]; [contradiction|].
  simpl. intros Hnd Ha Hb Hk. apply NoDup_cons_iff in Hnd as [Hny Hnd].
  destruct Ha as [->|Ha], Hb as [->|Hb].
  - reflexivity.
  - exfalso. apply Hny. rewrite Hk. now apply in_map.
  - exfalso. apply Hny. rewrite <- Hk. now apply in_map.
  - now apply IH.
Qed.

(** A row that is revoked stays as it is, at its place. *)
Lemma revoked_only_set_keeps (l l' : list RefreshToken.t) (i : nat)
    (r : RefreshToken.t) :
  revoked_only_set l l' ->
  nth_error l i = Some r -> RefreshToken.revoked r = true ->
  nth_error l' i = Some r.
Proof.
  intros (kept & added & -> & H) Hi Hr.
  revert i Hi. induction H as [|x x' l k Hx _ IH]; intros i Hi.
  - destruct i; discriminate.
  - destruct i as [|i]; simpl in *.
    + injection Hi as ->. destruct Hx as [->|[Hf _]]; [reflexivity|congruence].
    + now apply IH.
Qed.

Lemma revoke_returns (db : Session) (jti : str) :
  exists db1,
    crud.revoke_refresh_token db jti = Return db1
    /\ users db1 = users db
    /\ doctor_availabilities db1 = doctor_availabilities db
    /\ appointments db1 = appointments db
    /\ map (fun r => (RefreshToken.id r, RefreshToken.user_id r, RefreshToken.jti r,
                      RefreshToken.expires_at r, RefreshToken.created_at r))
         (refresh_tokens db1)
       = map (fun r => (RefreshToken.id r, RefreshToken.user_id r, RefreshToken.jti r,
                        RefreshToken.expires_at r, RefreshToken.created_at r))
           (refresh_tokens db)
    /\ revoked_only_set (refresh_tokens db) (refresh_tokens db1)
    /\ (forall rec,
          scalar (refresh_tokens db) (fun r => str_eqb (RefreshToken.jti r) jti)
            = Some rec ->
          scalar (refresh_tokens db1) (fun r => str_eqb (RefreshToken.jti r) jti)
            = Some (set_revoked rec true)
          /\ In (set_revoked rec true) (refresh_tokens db1)).
Proof.
  unfold crud.revoke_refresh_token.
  destruct (scalar _ _) as [rec|] eqn:Es.
  - destruct (RefreshToken.revoked rec) eqn:Er; simpl.
    + exists db. repeat (split; [reflexivity|]).
      split; [apply revoked_only_set_refl|].
      intros rec' [= <-].
      assert (E : set_revoked rec true = rec).
      { unfold set_revoked. rewrite <- Er. now destruct rec. }
      rewrite E. split; [exact Es|]. now apply scalar_Some in Es.
    + eexists. split; [reflexivity|]. simpl. repeat (split; [reflexivity|]).
      split; [now apply update_first_map|].
      split; [now apply (revoked_only_set_update_first _ _ rec)|].
      intros rec' [= <-]. split.
      * apply (scalar_update_first _ (fun r => set_revoked r true) _ rec);
          [assumption|]. simpl. now apply scalar_Some in Es.
      * now apply (update_first_In _ (fun r => set_revoked r true)).
  - exists db. repeat (split; [reflexivity|]).
    split; [apply revoked_only_set_refl|]. intros rec [=].
Qed.

Lemma create_record_spec (now : datetime.t) (db : Session) (user_id : Z)
    (jti : str) (expires_at : datetime.t) (rec : RefreshToken.t) (db' : Session) :
  crud.create_refresh_token_record now db user_id jti expires_at = Return (rec, db') ->
  (forall r, In r (refresh_tokens db) -> RefreshToken.jti r <> jti)
  /\ RefreshToken.jti rec = jti /\ RefreshToken.user_id rec = user_id
  /\ RefreshToken.revoked rec = false
  /\ refresh_tokens db' = refresh_tokens db ++ [rec]
  /\ appointments db' = appointments db.
Proof.
  unfold crud.create_refresh_token_record.
  destruct (existsb _ _) eqn:Ee; [discriminate|]. intros [= <- <-]. simpl.
  split; [|tauto]. intros r Hin Hj.
  assert (Ht : existsb (fun r => str_eqb (RefreshToken.jti r) jti)
                 (refresh_tokens db) = true).
  { apply existsb_exists. exists r. split; [assumption|]. now apply str_eqb_eq. }
  congruence.
Qed.

Lemma unique_jti_create (now : datetime.t) (db : Session) (user_id : Z)
    (jti : str) (expires_at : datetime.t) (rec : RefreshToken.t) (db' : Session) :
  crud.create_refresh_token_record now db user_id jti expires_at = Return (rec, db') ->
  unique_jti db -> unique_jti db'.
Proof.
  intros H Hu. destruct (create_record_spec _ _ _ _ _ _ _ H)
    as (Hfresh & Hj & _ & _ & Ht & _).
  unfold unique_jti in *. rewrite Ht, map_app. simpl.
  apply NoDup_app; [assumption|repeat constructor; intros []|].
  intros k Hk [<-|[]]. apply in_map_iff in Hk as (r & Hr & Hin).
  apply (Hfresh r Hin). congruence.
Qed.

Lemma unique_jti_revoke (db db1 : Session) (jti : str) :
  crud.revoke_refresh_token db jti = Return db1 ->
  unique_jti db -> unique_jti db1.
Proof.
  intros H Hu. destruct (revoke_returns db jti) as (d & Hd & _ & _ & _ & Hc & _).
  rewrite H in Hd. injection Hd as <-. unfold unique_jti in *.
  apply (f_equal (map (fun c => snd (fst (fst c))))) in Hc.
  rewrite !map_map in Hc. simpl in Hc.
  change (map RefreshToken.jti (refresh_tokens db1)
          = map RefreshToken.jti (refresh_tokens db)) in Hc.
  now rewrite Hc.
Qed.

Lemma crud_update_commits (db : Session) (appt : Appointment.t)
    (appt_in : AppointmentUpdate.t) (appt' : Appointment.t) (db' : Session) :
  crud.update_appointment db appt appt_in = Return (appt', db') ->
  db' = crud.commit_appointment db appt'
  /\ Appointment.id appt' = Appointment.id appt.
Proof.
  unfold crud.update_appointment.
  destruct (AppointmentUpdate.scheduled_time appt_in) as [t|]; cbn [bind].
  - destruct (crud._validate_appointment_slot _ _ _ _ _) as [[]|e]; cbn [bind];
      [|discriminate].
    destruct (AppointmentUpdate.status appt_in) as [s|]; cbn [bind].
    + destruct (AppointmentStatus_call s) as [st|e]; cbn [bind]; [|discriminate].
      intros [= <- <-]. split; [reflexivity|].
      now destruct (AppointmentUpdate.notes appt_in).
    + intros [= <- <-]. split; [reflexivity|].
      now destruct (AppointmentUpdate.notes appt_in).
  - destruct (AppointmentUpdate.status appt_in) as [s|]; cbn [bind].
    + destruct (AppointmentStatus_call s) as [st|e]; cbn [bind]; [|discriminate].
      intros [= <- <-]. split; [reflexivity|].
      now destruct (AppointmentUpdate.notes appt_in).
    + intros [= <- <-]. split; [reflexivity|].
      now destruct (AppointmentUpdate.notes appt_in).
Qed.

Lemma router_update_session (db : Session) (appt_id : Z)
    (appt_in : AppointmentUpdate.t) (user : User.t) :
  snd (routers.update_appointment db appt_id appt_in user) = db
  \/ exists appt appt',
       crud.get_appointment db appt_id = Some appt
       /\ Appointment.id appt' = Appointment.id appt
       /\ snd (routers.update_appointment db appt_id appt_in user)
          = crud.commit_appointment db appt'.
Proof.
  unfold routers.update_appointment.
  destruct (crud.get_appointment db appt_id) as [appt|] eqn:Hget; [|now left].
  cbn [bind].
  match goal with
  | |- context [bind ?c _] => destruct c as [[]|e]; cbn [bind]; [|now left]
  end.
  match goal with
  | |- context [bind ?c _] => destruct c as [[]|e]; cbn [bind]; [|now left]
  end.
  destruct (crud.update_appointment db appt appt_in) as [[appt' db']|e] eqn:Hup.
  - right. exists appt, appt'. apply crud_update_commits in Hup as [-> Hid].
    now split.
  - left. now destruct (is_ValueError e).
Qed.

Lemma update_first_In_inv {A : Type} (p : A -> bool) (f : A -> A)
    (l : list A) (a : A) :
  In a (update_first p f l) ->
  In a l \/ exists x, In x l /\ p x = true /\ a = f x.
Proof.
  induction l as [|y l IH]; simpl; [tauto|].
  destruct (p y) eqn:Ey; simpl.
  - intros [<-|Ha]; [|tauto]. right. exists y. tauto.
  - intros [<-|Ha]; [tauto|]. destruct (IH Ha) as [H|(x & Hx & Hp & ->)];
      [tauto|]. right. exists x. tauto.
Qed.

Lemma pk_positive_commit (db : Session) (appt appt' : Appointment.t) :
  In appt (appointments db) ->
  Appointment.id appt' = Appointment.id appt ->
  pk_positive db -> pk_positive (crud.commit_appointment db appt').
Proof.
  intros Hin Hid Hpk a. unfold crud.commit_appointment. simpl. intros Ha.
  apply update_first_In_inv in Ha as [Ha|(x & _ & _ & ->)].
  - now apply Hpk.
  - rewrite Hid. now apply Hpk.
Qed.

Lemma next_id_positive (ids : list Z) : 0 < next_id ids.
Proof.
  unfold next_id. induction ids as [|i ids IH]; cbn [fold_right]; lia.
Qed.

(** *** Every operation of the model, as a step on the session *)

Inductive operation : Type :=
| Op_create_appointment (now : datetime.t) (patient_id : Z)
    (appt_in : AppointmentCreate.t)
| Op_update_appointment (appt_id : Z) (appt_in : AppointmentUpdate.t)
    (current_user : User.t)
| Op_reassign_appointment (appt_id new_doctor_id : Z) (new_hospital_id : option Z)
| Op_create_refresh_token_record (now : datetime.t) (user_id : Z) (jti : str)
    (expires_at : datetime.t)
| Op_revoke_refresh_token (jti : str)
| Op_validate_refresh_token (now : datetime.t) (jti : str) (user_id : Z)
| Op_refresh_tokens (now : datetime.t) (uuid4_hex req_refresh_token : str).

Section operations.

Variable jose : Jose.
Variable settings : Settings.
Variable py_int : option str -> result Z.
Variable py_str : Z -> str.

(** The session an operation leaves, whether it returned or raised. *)
Definition step (db : Session) (op : operation) : Session :=
  match op with
  | Op_create_appointment now patient_id appt_in =>
      match crud.create_appointment now db patient_id appt_in with
      | Return (_, db') => db'
      | Raise _ => db
      end
  | Op_update_appointment appt_id appt_in current_user =>
      snd (routers.update_appointment db appt_id appt_in current_user)
  | Op_reassign_appointment appt_id new_doctor_id new_hospital_id =>
      match crud.get_appointment db appt_id with
      | Some appt =>
          snd (crud.reassign_appointment db appt new_doctor_id new_hospital_id)
      | None => db
      end
  | Op_create_refresh_token_record now user_id jti expires_at =>
      match crud.create_refresh_token_record now db user_id jti expires_at with
      | Return (_, db') => db'
      | Raise _ => db
      end
  | Op_revoke_refresh_token jti =>
      match crud.revoke_refresh_token db jti with
      | Return db' => db'
      | Raise _ => db
      end
  | Op_validate_refresh_token _ _ _ => db
  | Op_refresh_tokens now uuid4_hex req_refresh_token =>
      snd (routers.refresh_tokens jose settings py_int py_str now uuid4_hex
             req_refresh_token db)
  end.

Definition run (db : Session) (ops : list operation) : Session :=
  fold_left step ops db.

Lemma refresh_tokens_session (now : datetime.t) (uuid4_hex token : str)
    (db : Session) :
  let out := routers.refresh_tokens jose settings py_int py_str now uuid4_hex
               token db in
  (snd out = db /\ forall pair, fst out <> Return pair)
  \/ exists payload jti user_id db1,
       security.decode_token jose settings now token true = Some payload
       /\ Claims.jti payload = Some jti
       /\ py_int (Claims.sub payload) = Return user_id
       /\ crud.validate_refresh_token now db jti user_id = true
       /\ crud.revoke_refresh_token db jti = Return db1
       /\ ((snd out = db1 /\ forall pair, fst out <> Return pair)
           \/ exists uid rec db2 pair,
                crud.create_refresh_token_record now db1 uid uuid4_hex
                  (now + datetime.timedelta_minutes
                           (REFRESH_TOKEN_EXPIRE_MINUTES settings))
                  = Return (rec, db2)
                /\ out = (Return pair, db2)).
Proof.
  intros out. subst out. unfold routers.refresh_tokens.
  destruct (security.decode_token _ _ _ _ _) as [payload|];
    [|left; split; [reflexivity|discriminate]].
  destruct (routers.ne _ _); [left; split; [reflexivity|discriminate]|].
  destruct (py_int (Claims.sub payload)) as [user_id|e] eqn:Hint;
    [|left; split; [reflexivity|discriminate]].
  destruct (scalar (users db) _) as [user|];
    [|left; split; [reflexivity|discriminate]].
  destruct (Claims.jti payload) as [[|c j]|] eqn:Hj;
    try (left; split; [reflexivity|discriminate]).
  destruct (crud.validate_refresh_token now db (c :: j) user_id) eqn:Hval;
    cbn [negb]; [|left; split; [reflexivity|discriminate]].
  destruct (revoke_returns db (c :: j)) as (db1 & Hrev & _).
  rewrite Hrev. right. exists payload, (c :: j), user_id, db1.
  repeat (split; [reflexivity || assumption|]).
  unfold security.create_access_token, security.create_refresh_token,
    security.create_token. cbv zeta.
  destruct (datetime.add now
              (datetime.timedelta_minutes (ACCESS_TOKEN_EXPIRE_MINUTES settings)))
    as [ea|e]; cbn [bind]; [|left; split; [reflexivity|discriminate]].
  destruct (datetime.add now
              (datetime.timedelta_minutes (REFRESH_TOKEN_EXPIRE_MINUTES settings)))
    as [er|e] eqn:Er; cbn [bind]; [|left; split; [reflexivity|discriminate]].
  apply datetime_add_Return in Er as [-> _].
  destruct (crud.create_refresh_token_record _ _ _ _ _) as [[rec db2]|e] eqn:Hc;
    cbn [bind snd].
  - right. exists (User.id user), rec, db2. eexists. split; [exact Hc|reflexivity].
  - left. split; [reflexivity|discriminate].
Qed.

Lemma step_keeps_revoked (db : Session) (op : operation) :
  revoked_only_set (refresh_tokens db) (refresh_tokens (step db op)).
Proof.
  destruct op; simpl.
  - unfold crud.create_appointment.
    destruct (crud._validate_appointment_slot _ _ _ _ _) as [[]|]; simpl;
      apply revoked_only_set_refl.
  - destruct (router_update_session db appt_id appt_in current_user)
      as [->|(a & a' & _ & _ & ->)]; apply revoked_only_set_refl.
  - destruct (crud.get_appointment db appt_id); simpl;
      apply revoked_only_set_refl.
  - destruct (crud.create_refresh_token_record _ _ _ _ _) as [[rec db']|] eqn:Hc;
      [|apply revoked_only_set_refl].
    apply create_record_spec in Hc as (_ & _ & _ & _ & -> & _).
    apply revoked_only_set_app.
  - destruct (revoke_returns db jti) as (db1 & -> & _ & _ & _ & _ & H & _).
    exact H.
  - apply revoked_only_set_refl.
  - destruct (refresh_tokens_session now uuid4_hex req_refresh_token db)
      as [[-> _]|(p & j & u & db1 & _ & _ & _ & _ & Hrev & Hrest)];
      [apply revoked_only_set_refl|].
    destruct (revoke_returns db j) as (d & Hd & _ & _ & _ & _ & H & _).
    rewrite Hrev in Hd. injection Hd as <-.
    destruct Hrest as [[-> _]|(uid & rec & db2 & pair & Hc & ->)]; [exact H|].
    simpl. apply create_record_spec in Hc as (_ & _ & _ & _ & -> & _).
    eapply revoked_only_set_trans; [exact H|apply revoked_only_set_app].
Qed.

Lemma run_keeps_revoked (ops : list operation) (db : Session) :
  revoked_only_set (refresh_tokens db) (refresh_tokens (run db ops)).
Proof.
  unfold run. revert db. induction ops as [|op ops IH]; intros db; simpl.
  - apply revoked_only_set_refl.
  - eapply revoked_only_set_trans; [apply step_keeps_revoked|apply IH].
Qed.

(** The schema invariants the theorems assume hold in every reachable
    session. *)
Lemma step_keeps_invariants (db : Session) (op : operation) :
  (unique_jti db -> unique_jti (step db op))
  /\ (pk_positive db -> pk_positive (step db op)).
Proof.
  destruct op; simpl.
  - unfold crud.create_appointment.
    destruct (crud._validate_appointment_slot _ _ _ _ _) as [[]|]; simpl;
      [|tauto].
    split; [tauto|]. intros Hpk a. simpl. rewrite in_app_iff.
    intros [Ha|[<-|[]]]; [now apply Hpk|]. simpl. apply next_id_positive.
  - destruct (router_update_session db appt_id appt_in current_user)
      as [->|(a & a' & Hget & Hid & ->)]; [tauto|].
    split; [tauto|]. apply get_appointment_id in Hget as [Hin _].
    now apply (pk_positive_commit db a a').
  - destruct (crud.get_appointment db appt_id) as [a|] eqn:Hget; [|tauto].
    simpl. split; [tauto|]. apply get_appointment_id in Hget as [Hin _].
    apply (pk_positive_commit db a); [assumption|].
    now destruct new_hospital_id.
  - destruct (crud.create_refresh_token_record _ _ _ _ _) as [[rec db']|] eqn:Hc;
      [|tauto].
    split; [now apply (unique_jti_create _ _ _ _ _ _ _ Hc)|].
    apply create_record_spec in Hc as (_ & _ & _ & _ & _ & Ha).
    unfold pk_positive. now rewrite Ha.
  - destruct (revoke_returns db jti) as (db1 & Hrev & _ & _ & Ha & _).
    rewrite Hrev. split; [now apply (unique_jti_revoke db db1 jti)|].
    unfold pk_positive. now rewrite Ha.
  - tauto.
  - destruct (refresh_tokens_session now uuid4_hex req_refresh_token db)
      as [[-> _]|(p & j & u & db1 & _ & _ & _ & _ & Hrev & Hrest)]; [tauto|].
    destruct (revoke_returns db j) as (d & Hd & _ & _ & Ha & _).
    rewrite Hrev in Hd. injection Hd as <-.
    destruct Hrest as [[-> _]|(uid & rec & db2 & pair & Hc & ->)].
    + split; [now apply (unique_jti_revoke db db1 j)|].
      unfold pk_positive. now rewrite Ha.
    + simpl. split.
      * intros Hu. apply (unique_jti_create _ _ _ _ _ _ _ Hc).
        now apply (unique_jti_revoke db db1 j).
      * apply create_record_spec in Hc as (_ & _ & _ & _ & _ & Ha2).
        unfold pk_positive. now rewrite Ha2, Ha.
Qed.

Lemma run_keeps_invariants (ops : list operation) (db : Session) :
  unique_jti db -> pk_positive db ->
  unique_jti (run db ops) /\ pk_positive (run db ops).
Proof.
  unfold run. revert db. induction ops as [|op ops IH]; intros db Hu Hp; simpl.
  - now split.
  - destruct (step_keeps_invariants db op) as [Hu' Hp']. apply IH; auto.
Qed.

(** They hold when the two tables are empty, hence in every session the
    operations reach from there. *)
Lemma reachable_invariants (us : list User.t) (av : list DoctorAvailability.t)
    (ops : list operation) :
  unique_jti (run (mkSession us av [] []) ops)
  /\ pk_positive (run (mkSession us av [] []) ops).
Proof.
  apply run_keeps_invariants; [constructor|intros a []].
Qed.

End operations.

(** C8. [revoke_refresh_token] always returns; a second call with the same
    jti changes nothing more; a jti with no record, or whose record is
    already revoked, leaves the session as it was (no row is added in any
    case); and no operation of the model, nor any sequence of them, takes a
    row from revoked back to not revoked: a revoked row stays as it is. *)
Theorem revoke_idempotent (db : Session) (jti : str) :
  exists db1,
    crud.revoke_refresh_token db jti = Return db1
    /\ crud.revoke_refresh_token db1 jti = Return db1
    /\ List.length (refresh_tokens db1) = List.length (refresh_tokens db)
    /\ map RefreshToken.jti (refresh_tokens db1)
       = map RefreshToken.jti (refresh_tokens db)
    /\ ((forall r, In r (refresh_tokens db) -> RefreshToken.jti r <> jti) ->
        db1 = db)
    /\ (forall rec,
          scalar (refresh_tokens db) (fun r => str_eqb (RefreshToken.jti r) jti)
            = Some rec ->
          RefreshToken.revoked rec = true -> db1 = db)
    /\ (forall jose settings py_int py_str ops db0 i r,
          nth_error (refresh_tokens db0) i = Some r ->
          RefreshToken.revoked r = true ->
          nth_error (refresh_tokens (run jose settings py_int py_str db0 ops)) i
          = Some r).
Proof.
  destruct (revoke_returns db jti) as (db1 & Hrev & _ & _ & _ & Hcols & Hmono & Hrec).
  exists db1. split; [assumption|].
  assert (Hjti : map RefreshToken.jti (refresh_tokens db1)
                 = map RefreshToken.jti (refresh_tokens db)).
  { apply (f_equal (map (fun c => snd (fst (fst c))))) in Hcols.
    rewrite !map_map in Hcols. exact Hcols. }
  split; [|split; [|split; [assumption|split; [|split]]]].
  - unfold crud.revoke_refresh_token in *.
    destruct (scalar (refresh_tokens db) _) as [rec|] eqn:Es.
    + destruct (Hrec rec eq_refl) as [Hs1 _]. rewrite Hs1. reflexivity.
    + injection Hrev as <-. now rewrite Es.
  - rewrite <- (length_map RefreshToken.jti), Hjti. apply length_map.
  - intros Hnone. unfold crud.revoke_refresh_token in Hrev.
    destruct (scalar (refresh_tokens db) _) as [rec|] eqn:Es.
    + apply scalar_Some in Es as [Hin Hj]. apply str_eqb_eq in Hj.
      now destruct (Hnone rec Hin).
    + now injection Hrev as <-.
  - intros rec Hs Hr. unfold crud.revoke_refresh_token in Hrev.
    rewrite Hs, Hr in Hrev. now injection Hrev as <-.
  - intros jose settings py_int py_str ops db0 i r.
    apply revoked_only_set_keeps. apply run_keeps_revoked.
Qed.

(** A login, a logout and a late second logout: the second revoke changes
    nothing, and revoking a jti nobody holds changes nothing either. *)
Example revoke_twice :
  let db := with_refresh_tokens clinic
              [RefreshToken.mk 1 10 (lit "aa") 500 false 0;
               RefreshToken.mk 2 10 (lit "bb") 500 false 0] in
  let db1 := with_refresh_tokens clinic
               [RefreshToken.mk 1 10 (lit "aa") 500 true 0;
                RefreshToken.mk 2 10 (lit "bb") 500 false 0] in
  crud.revoke_refresh_token db (lit "aa") = Return db1
  /\ crud.revoke_refresh_token db1 (lit "aa") = Return db1
  /\ crud.revoke_refresh_token db1 (lit "zz") = Return db1.
Proof. repeat split. Qed.

(** C3. In a session that satisfies the unique index on jti,
    [validate_refresh_token] answers False exactly when the persisted
    record of the jti for that user is missing, is revoked, or has its
    expires_at before now, and True otherwise.  After a refresh that
    succeeded, the old jti's record is revoked, so validating the old token
    fails from then on. *)
Theorem validate_refresh_token_spec (now : datetime.t) (db : Session)
    (jti : str) (user_id : Z) :
  unique_jti db ->
  (crud.validate_refresh_token now db jti user_id = false <->
   (forall r, ~ token_record db jti user_id r)
   \/ (exists r, token_record db jti user_id r /\ RefreshToken.revoked r = true)
   \/ (exists r, token_record db jti user_id r /\ RefreshToken.expires_at r < now))
  /\ (forall jose settings py_int py_str uuid4_hex token pair db',
        routers.refresh_tokens jose settings py_int py_str now uuid4_hex token db
          = (Return pair, db') ->
        exists payload old_jti uid,
          security.decode_token jose settings now token true = Some payload
          /\ Claims.jti payload = Some old_jti
          /\ py_int (Claims.sub payload) = Return uid
          /\ crud.validate_refresh_token now db old_jti uid = true
          /\ forall later, crud.validate_refresh_token later db' old_jti uid = false).
Proof.
  intros Hu. split.
  - split.
    + intros Hf. unfold crud.validate_refresh_token in Hf.
      destruct (scalar _ _) as [r|] eqn:Es.
      * apply scalar_Some in Es as [Hin Hs]. apply token_stmt_spec in Hs.
        assert (Hrec : token_record db jti user_id r) by (unfold token_record; tauto).
        destruct (RefreshToken.revoked r) eqn:Er.
        -- right; left. now exists r.
        -- simpl in Hf. destruct (Z.ltb_spec (RefreshToken.expires_at r) now);
             [|discriminate]. right; right. now exists r.
      * left. intros r (Hin & Hj & Hi).
        rewrite scalar_None in Es. specialize (Es r Hin).
        assert (Hs : str_eqb (RefreshToken.jti r) jti
                     && (RefreshToken.user_id r =? user_id) = true)
          by now apply token_stmt_spec.
        congruence.
    + intros Hcases.
      destruct (crud.validate_refresh_token now db jti user_id) eqn:Ev;
        [|reflexivity].
      exfalso. apply (validate_true_iff now db jti user_id Hu) in Ev
        as (r & Hrec & Hr & He).
      destruct Hcases as [Hnone|[(r' & Hrec' & Hr')|(r' & Hrec' & He')]].
      * exact (Hnone r Hrec).
      * assert (r' = r); [|congruence].
        destruct Hrec as (Hin & Hj & _), Hrec' as (Hin' & Hj' & _).
        apply (NoDup_map_inj RefreshToken.jti (refresh_tokens db));
          [exact Hu|assumption|assumption|congruence].
      * assert (r' = r); [|subst; lia].
        destruct Hrec as (Hin & Hj & _), Hrec' as (Hin' & Hj' & _).
        apply (NoDup_map_inj RefreshToken.jti (refresh_tokens db));
          [exact Hu|assumption|assumption|congruence].
  - intros jose settings py_int py_str uuid4_hex token pair db' Hout.
    destruct (refresh_tokens_session jose settings py_int py_str now uuid4_hex
                token db)
      as [[_ Hno]|(payload & old & uid & db1 & Hdec & Hj & Hint & Hval & Hrev & Hrest)].
    { rewrite Hout in Hno. now destruct (Hno pair). }
    exists payload, old, uid. repeat (split; [assumption|]).
    destruct Hrest as [[_ Hno]|(u & rec & db2 & pair2 & Hc & Hout2)].
    { rewrite Hout in Hno. now destruct (Hno pair). }
    rewrite Hout in Hout2. injection Hout2 as _ ->.
    intros later.
    assert (Hu2 : unique_jti db2).
    { apply (unique_jti_create _ _ _ _ _ _ _ Hc).
      now apply (unique_jti_revoke db db1 old). }
    destruct (crud.validate_refresh_token later db2 old uid) eqn:Ev; [|reflexivity].
    exfalso. apply (validate_true_iff later db2 old uid Hu2) in Ev
      as (r' & (Hin' & Hj' & _) & Hr' & _).
    apply (validate_true_iff now db old uid Hu) in Hval
      as (r & (Hin & Hjr & _) & _ & _).
    destruct (scalar (refresh_tokens db) (fun x => str_eqb (RefreshToken.jti x) old))
      as [r0|] eqn:Es.
    + destruct (revoke_returns db old) as (d & Hd & _ & _ & _ & _ & _ & Hrec).
      rewrite Hrev in Hd. injection Hd as <-.
      destruct (Hrec r0 Es) as [_ Hin1].
      apply scalar_Some in Es as [_ Hj0]. apply str_eqb_eq in Hj0.
      apply create_record_spec in Hc as (_ & _ & _ & _ & Ht2 & _).
      assert (Hin2 : In (set_revoked r0 true) (refresh_tokens db2)).
      { rewrite Ht2. apply in_or_app. now left. }
      assert (E : r' = set_revoked r0 true).
      { apply (NoDup_map_inj RefreshToken.jti (refresh_tokens db2));
          [exact Hu2|assumption|assumption|simpl; congruence]. }
      rewrite E in Hr'. simpl in Hr'. discriminate.
    + rewrite scalar_None in Es. specialize (Es r Hin).
      apply str_eqb_neq in Es. contradiction.
Qed.

Definition one_token : Session :=
  with_refresh_tokens clinic [RefreshToken.mk 1 10 (lit "aa") 500 false 0].

Lemma one_token_unique : unique_jti one_token.
Proof. repeat constructor. intros []. Defined.

(** The record of "aa" is valid at time 500 (expires_at is not yet in the
    past) and invalid at 501, for another user, and for an unknown jti. *)
Lemma validate_refresh_token_spec_witness :
  unique_jti one_token
  /\ crud.validate_refresh_token 500 one_token (lit "aa") 10 = true
  /\ (crud.validate_refresh_token 501 one_token (lit "aa") 10 = false <->
      (forall r, ~ token_record one_token (lit "aa") 10 r)
      \/ (exists r, token_record one_token (lit "aa") 10 r
                    /\ RefreshToken.revoked r = true)
      \/ (exists r, token_record one_token (lit "aa") 10 r
                    /\ RefreshToken.expires_at r < 501)).
Proof.
  split; [exact one_token_unique|]. split; [reflexivity|].
  apply (validate_refresh_token_spec 501 one_token (lit "aa") 10 one_token_unique).
Defined.

(** A toy token library for concrete runs: the token text is the jti, and
    every claim set names user 10. *)
Definition toy_jose : Jose :=
  mkJose
    (fun claims _ => match Claims.jti claims with Some j => j | None => [] end)
    (fun token _ _ =>
       Some (Claims.mk (Some (lit "10")) (Some (lit "patient"))
               (Some (lit "refresh")) (Some token) None)).

(** Rotation on the session above: "aa" is revoked, "bb" is issued, and a
    replay of "aa" is turned down without touching the session. *)
Example rotate_then_replay :
  let settings := get_settings (lit "k1") (lit "k2") (lit "k3") in
  let refresh := routers.refresh_tokens toy_jose settings
                   (fun _ => Return 10) (fun _ => lit "10") in
  let after := snd (refresh 100 (lit "bb") (lit "aa") one_token) in
  fst (refresh 100 (lit "bb") (lit "aa") one_token)
    = Return (TokenPair.mk [] (lit "bb"))
  /\ map (fun r => (RefreshToken.jti r, RefreshToken.revoked r))
       (refresh_tokens after)
     = [(lit "aa", true); (lit "bb", false)]
  /\ refresh 101 (lit "cc") (lit "aa") after
     = (Raise (HTTPException 401 (Text "Token invalid or revoked")), after)
  /\ crud.validate_refresh_token 101 after (lit "bb") 10 = true.
Proof. repeat split; vm_compute; reflexivity. Qed.

(* ------------------------------------------------------------------ *)
(** ** The codecs round-trip *)

Import codecs.

Lemma Z_of_byte_range (b : byte) : 0 <= Z_of_byte b < 256.
Proof.
  unfold Z_of_byte. pose proof (Byte.to_N_bounded b). lia.
Qed.

Lemma Z_of_byte_of_Z (z : Z) : 0 <= z < 256 -> Z_of_byte (byte_of_Z z) = z.
Proof.
  intros Hz. unfold Z_of_byte, byte_of_Z. rewrite Z.mod_small by lia.
  destruct (Byte.of_N (Z.to_N z)) as [b|] eqn:E.
  - apply Byte.to_of_N in E. rewrite E. lia.
  - apply Byte.of_N_None_iff in E. lia.
Qed.

Lemma byte_of_Z_of_byte (b : byte) : byte_of_Z (Z_of_byte b) = b.
Proof.
  pose proof (Z_of_byte_range b) as Hr. unfold byte_of_Z.
  rewrite Z.mod_small by lia. unfold Z_of_byte. rewrite N2Z.id.
  now rewrite Byte.of_to_N.
Qed.

Lemma byte_of_Z_eq (z : Z) (b : byte) : z = Z_of_byte b -> byte_of_Z z = b.
Proof. intros ->. apply byte_of_Z_of_byte. Qed.

Lemma b64_index_char (i : Z) : 0 <= i < 64 -> b64_index (b64_char i) = Some i.
Proof.
  intros Hi. unfold b64_char.
  destruct (Z.ltb_spec i 26);
    [|destruct (Z.ltb_spec i 52);
      [|destruct (Z.ltb_spec i 62); [|destruct (Z.eqb_spec i 62)]]];
    unfold b64_index; rewrite Z_of_byte_of_Z by lia;
    repeat match goal with
           | |- context [?a <=? ?b] => destruct (Z.leb_spec a b)
           | |- context [?a =? ?b] => destruct (Z.eqb_spec a b)
           end; cbn [andb]; try (f_equal; lia); try lia.
Qed.

Lemma b64_char_not_pad (i : Z) : 0 <= i < 64 -> (Z_of_byte (b64_char i) =? 61) = false.
Proof.
  intros Hi. unfold b64_char. apply Z.eqb_neq.
  repeat match goal with
         | |- context [if ?a <? ?b then _ else _] => destruct (Z.ltb_spec a b)
         | |- context [if ?a =? ?b then _ else _] => destruct (Z.eqb_spec a b)
         end; rewrite Z_of_byte_of_Z by lia; lia.
Qed.

Lemma b64_char_ascii (i : Z) : 0 <= i < 64 -> 0 <= Z_of_byte (b64_char i) < 128.
Proof.
  intros Hi. unfold b64_char.
  repeat match goal with
         | |- context [if ?a <? ?b then _ else _] => destruct (Z.ltb_spec a b)
         | |- context [if ?a =? ?b then _ else _] => destruct (Z.eqb_spec a b)
         end; rewrite Z_of_byte_of_Z by lia; lia.
Qed.

Lemma a2b_char (quad_pos : nat) (leftchar pads i : Z) (rest : bytes) :
  0 <= i < 64 ->
  a2b_base64 quad_pos leftchar pads (b64_char i :: rest) =
  match quad_pos with
  | O => a2b_base64 1 i 0 rest
  | S O =>
      out <- a2b_base64 2 (i mod 16) 0 rest ;;
      Return (byte_of_Z (leftchar * 4 + i / 16) :: out)
  | S (S O) =>
      out <- a2b_base64 3 (i mod 4) 0 rest ;;
      Return (byte_of_Z (leftchar * 16 + i / 4) :: out)
  | _ =>
      out <- a2b_base64 0 0 0 rest ;;
      Return (byte_of_Z (leftchar * 64 + i) :: out)
  end.
Proof.
  intros Hi. cbn [a2b_base64]. rewrite b64_char_not_pad, b64_index_char by assumption.
  reflexivity.
Qed.

Lemma pad_is_61 : (Z_of_byte b64_pad =? 61) = true.
Proof. reflexivity. Qed.

(** Lists in steps of three, as [b64encode] reads them. *)
Lemma list_ind3 {A : Type} (P : list A -> Prop) :
  P [] -> (forall a, P [a]) -> (forall a b, P [a; b]) ->
  (forall a b c r, P r -> P (a :: b :: c :: r)) ->
  forall l, P l.
Proof.
  intros H0 H1 H2 H3.
  fix IH 1. intros [|a [|b [|c r]]];
    [exact H0|apply H1|apply H2|apply H3; apply IH].
Qed.

Lemma a2b_b64encode (raw : bytes) : a2b_base64 0 0 0 (b64encode raw) = Return raw.
Proof.
  induction raw as [|b0|b0 b1|b0 b1 b2 r IH] using list_ind3.
  - reflexivity.
  - pose proof (Z_of_byte_range b0) as H0.
    cbn [b64encode]. cbv zeta.
    rewrite !a2b_char by (Z.div_mod_to_equations; lia).
    cbn [a2b_base64]. rewrite !pad_is_61. simpl.
    f_equal. f_equal. apply byte_of_Z_eq. Z.div_mod_to_equations. lia.
  - pose proof (Z_of_byte_range b0) as H0. pose proof (Z_of_byte_range b1) as H1.
    cbn [b64encode]. cbv zeta.
    rewrite !a2b_char by (Z.div_mod_to_equations; lia).
    cbn [a2b_base64]. rewrite !pad_is_61. simpl.
    f_equal. f_equal; [|f_equal]; apply byte_of_Z_eq; Z.div_mod_to_equations; lia.
  - pose proof (Z_of_byte_range b0) as H0. pose proof (Z_of_byte_range b1) as H1.
    pose proof (Z_of_byte_range b2) as H2.
    cbn [b64encode]. cbv zeta.
    rewrite !a2b_char by (Z.div_mod_to_equations; lia).
    rewrite IH. cbn [bind].
    f_equal. f_equal; [|f_equal; [|f_equal]]; apply byte_of_Z_eq;
      Z.div_mod_to_equations; lia.
Qed.

(** Unicode scalar values: the code points UTF-8 can carry (all but the
    surrogates D800-DFFF). *)
Definition is_scalar_value (c : Z) : Prop :=
  0 <= c < 0xD800 \/ 0xDFFF < c <= 0x10FFFF.

Definition is_text (s : str) : Prop := Forall is_scalar_value s.

(** The string holds a surrogate code point (D800-DFFF); in a [str] every
    such code point stands alone. *)
Definition has_surrogate (s : str) : Prop :=
  Exists (fun c => is_surrogate c = true) s.

(** A [str] (code points 0 to 10FFFF) is text or holds a surrogate. *)
Lemma text_or_surrogate (s : str) :
  Forall (fun c => 0 <= c <= 0x10FFFF) s -> is_text s \/ has_surrogate s.
Proof.
  induction 1 as [|c s Hc _ IH]; [left; constructor|].
  destruct IH as [IH|IH]; [|right; now apply Exists_cons_tl].
  destruct (is_surrogate c) eqn:E.
  - right. now apply Exists_cons_hd.
  - left. constructor; [|assumption]. unfold is_surrogate in E.
    apply andb_false_iff in E as [E|E];
      [apply Z.leb_gt in E|apply Z.leb_gt in E]; unfold is_scalar_value; lia.
Qed.

(** [s.encode()] raises on a surrogate, wherever it stands. *)
Lemma str_encode_surrogate (s : str) :
  has_surrogate s -> str_encode s = Raise UnicodeEncodeError.
Proof.
  assert (Hchar : forall c, (exists b, encode_char c = Return b)
                            \/ encode_char c = Raise UnicodeEncodeError).
  { intros c. unfold encode_char.
    repeat match goal with
           | |- context [if ?t then _ else _] => destruct t
           end; eauto. }
  induction 1 as [c s Hc|c s _ IH]; cbn [str_encode].
  - unfold encode_char. unfold is_surrogate in Hc |- *.
    pose proof Hc as Hc'. apply andb_true_iff in Hc' as [H1 H2].
    apply Z.leb_le in H1. apply Z.leb_le in H2.
    destruct (Z.ltb_spec c 0x80); [lia|].
    destruct (Z.ltb_spec c 0x800); [lia|].
    destruct (Z.ltb_spec c 0x10000); [|lia].
    rewrite Hc. reflexivity.
  - destruct (Hchar c) as [[b ->]| ->]; cbn [bind]; [|reflexivity].
    rewrite IH. reflexivity.
Qed.

Ltac byte_values :=
  repeat rewrite Z_of_byte_of_Z by (Z.div_mod_to_equations; lia).

Ltac decide_tests :=
  repeat match goal with
         | |- context [?a <? ?b] =>
             destruct (Z.ltb_spec a b);
             try (exfalso; Z.div_mod_to_equations; lia)
         | |- context [?a <=? ?b] =>
             destruct (Z.leb_spec a b);
             try (exfalso; Z.div_mod_to_equations; lia)
         end.

Lemma decode_encode_char (c : Z) (rest : bytes) :
  is_scalar_value c ->
  exists b,
    encode_char c = Return b
    /\ bytes_decode (b ++ rest) = (s <- bytes_decode rest ;; Return (c :: s)).
Proof.
  intros Hc. unfold is_scalar_value in Hc. unfold encode_char, is_surrogate.
  destruct (Z.ltb_spec c 0x80) as [H1|H1];
    [|destruct (Z.ltb_spec c 0x800) as [H2|H2];
      [|destruct (Z.ltb_spec c 0x10000) as [H3|H3]]].
  - eexists. split; [reflexivity|]. cbn [app bytes_decode]. cbv zeta.
    byte_values. decide_tests. reflexivity.
  - eexists. split; [reflexivity|]. cbn [app bytes_decode]. cbv zeta.
    unfold is_continuation, payload. byte_values. decide_tests. cbn [andb].
    destruct (bytes_decode rest); cbn [bind]; [|reflexivity].
    do 2 f_equal. Z.div_mod_to_equations. lia.
  - assert (Hs : (0xD800 <=? c) && (c <=? 0xDFFF) = false).
    { apply andb_false_iff. destruct Hc; [left; apply Z.leb_gt|right; apply Z.leb_gt]; lia. }
    rewrite Hs. eexists. split; [reflexivity|]. cbn [app bytes_decode]. cbv zeta.
    unfold is_continuation, payload, is_surrogate. byte_values.
    assert (Hv : (0xE0 + c / 4096 - 0xE0) * 4096 + (0x80 + (c / 64) mod 64 - 0x80) * 64
                 + (0x80 + c mod 64 - 0x80) = c) by (Z.div_mod_to_equations; lia).
    rewrite Hv, Hs. decide_tests. cbn [andb negb].
    destruct (bytes_decode rest); reflexivity.
  - eexists. split; [reflexivity|]. cbn [app bytes_decode]. cbv zeta.
    unfold is_continuation, payload. destruct Hc as [Hc|Hc]; [lia|]. byte_values.
    assert (Hv : (0xF0 + c / 262144 - 0xF0) * 262144
                 + (0x80 + (c / 4096) mod 64 - 0x80) * 4096
                 + (0x80 + (c / 64) mod 64 - 0x80) * 64
                 + (0x80 + c mod 64 - 0x80) = c) by (Z.div_mod_to_equations; lia).
    rewrite Hv. decide_tests. cbn [andb].
    destruct (bytes_decode rest); reflexivity.
Qed.

Lemma decode_encode (s : str) :
  is_text s ->
  exists b, str_encode s = Return b /\ bytes_decode b = Return s.
Proof.
  induction 1 as [|c s Hc _ IH].
  - exists []. split; reflexivity.
  - destruct IH as (r & Hr & Hd).
    destruct (decode_encode_char c r Hc) as (b & Hb & Hbd).
    exists (b ++ r). cbn [str_encode]. rewrite Hb, Hr. cbn [bind].
    split; [reflexivity|]. now rewrite Hbd, Hd.
Qed.

Definition is_ascii (b : bytes) : Prop := Forall (fun x => Z_of_byte x < 128) b.

Lemma decode_ascii (b : bytes) :
  is_ascii b -> bytes_decode b = Return (map Z_of_byte b).
Proof.
  induction 1 as [|x b Hx _ IH]; [reflexivity|].
  cbn [bytes_decode map]. cbv zeta.
  destruct (Z.ltb_spec (Z_of_byte x) 0x80); [|lia]. now rewrite IH.
Qed.

Lemma ascii_encode_decoded (b : bytes) :
  is_ascii b -> ascii_encode (map Z_of_byte b) = Return b.
Proof.
  induction 1 as [|x b Hx _ IH]; [reflexivity|].
  cbn [ascii_encode map]. pose proof (Z_of_byte_range x).
  destruct (Z.leb_spec 0 (Z_of_byte x)); [|lia].
  destruct (Z.ltb_spec (Z_of_byte x) 128); [|lia].
  cbn [andb]. rewrite IH. cbn [bind]. now rewrite byte_of_Z_of_byte.
Qed.

Lemma b64encode_ascii (raw : bytes) : is_ascii (b64encode raw).
Proof.
  assert (Hc : forall i, 0 <= i < 64 -> Z_of_byte (b64_char i) < 128)
    by (intros i Hi; apply b64_char_ascii; assumption).
  assert (Hp : Z_of_byte b64_pad < 128) by (vm_compute; reflexivity).
  induction raw as [|b0|b0 b1|b0 b1 b2 r IH] using list_ind3;
    cbn [b64encode]; cbv zeta;
    try pose proof (Z_of_byte_range b0); try pose proof (Z_of_byte_range b1);
    try pose proof (Z_of_byte_range b2);
    repeat (constructor; try assumption;
            try (apply Hc; Z.div_mod_to_equations; lia)).
Qed.

(** The token [encrypt] builds from [raw] decodes back to [raw]. *)
Lemma b64_round_trip (raw : bytes) :
  exists token,
    bytes_decode (b64encode raw) = Return token
    /\ b64decode token = Return raw.
Proof.
  exists (map Z_of_byte (b64encode raw)).
  pose proof (b64encode_ascii raw) as Ha.
  split; [now apply decode_ascii|].
  unfold b64decode. rewrite (ascii_encode_decoded _ Ha). cbn [bind].
  apply a2b_b64encode.
Qed.

(* ------------------------------------------------------------------ *)
(** ** The encryption boundary *)

Lemma firstn_repeat_le {A : Type} (x : A) (n m : nat) :
  (n <= m)%nat -> firstn n (repeat x m) = repeat x n.
Proof.
  revert m. induction n as [|n IH]; intros m Hm; [reflexivity|].
  destruct m as [|m]; [lia|]. simpl. f_equal. apply IH. lia.
Qed.

Lemma normalize_key_spec (raw : str) :
  is_text raw ->
  exists b key,
    str_encode raw = Return b
    /\ encryption._normalize_key raw = Return key
    /\ List.length key = 32%nat
    /\ ((32 <= List.length b)%nat -> key = firstn 32 b)
    /\ ((List.length b < 32)%nat ->
        key = b ++ repeat "0"%byte (32 - List.length b)).
Proof.
  intros Ht. destruct (decode_encode raw Ht) as (b & Hb & _).
  unfold encryption._normalize_key. rewrite Hb. cbn [bind].
  destruct (Z.leb_spec 32 (Z.of_nat (List.length b))) as [Hl|Hl].
  - exists b, (firstn 32 b). repeat split.
    + apply firstn_length_le. lia.
    + intros Hs. lia.
  - exists b, (firstn 32 (b ++ repeat "0"%byte 32)).
    assert (E : firstn 32 (b ++ repeat "0"%byte 32)
                = b ++ repeat "0"%byte (32 - List.length b)).
    { rewrite firstn_app, firstn_all2 by lia. f_equal.
      apply firstn_repeat_le. lia. }
    repeat split.
    + rewrite E, length_app, repeat_length. lia.
    + intros Hs. lia.
    + intros _. exact E.
Qed.

Lemma key_is_accepted (settings : Settings) (KEY : bytes) :
  encryption.KEY settings = Return KEY -> AESGCM.init KEY = Return KEY.
Proof.
  unfold encryption.KEY, encryption._normalize_key. intros H.
  destruct (str_encode (AES_ENCRYPTION_KEY settings)) as [b|e]; [|discriminate].
  cbn [bind] in H.
  assert (Hl : List.length KEY = 32%nat).
  { destruct (Z.leb_spec 32 (Z.of_nat (List.length b))).
    - assert (E : KEY = firstn 32 b) by congruence. rewrite E.
      apply firstn_length_le. lia.
    - assert (E : KEY = firstn 32 (b ++ repeat "0"%byte 32)) by congruence.
      rewrite E, firstn_app, firstn_all2, length_app by lia.
      rewrite firstn_repeat_le, repeat_length by lia. lia. }
  unfold AESGCM.init. rewrite Hl. reflexivity.
Qed.

(** The key as "zero-padded" reads for a key of bytes: filled with bytes of
    value zero. *)
Definition zero_byte_padded (b : bytes) : bytes :=
  if (32 <=? Z.of_nat (List.length b)) then firstn 32 b
  else b ++ repeat x00 (32 - List.length b).

(** C10, as the specification states it, fails on the code in two ways.
    When "zero" is the byte 0: the default secret "16byteslongkey!!"
    (16 bytes) is filled up with sixteen characters '0' (byte 0x30).  And
    not every secret has a key: for the secret "key" followed by the code
    point DC80, which is what [os.getenv] delivers for the undecodable
    byte 0x80, the derivation raises UnicodeEncodeError. *)
Lemma default_key_padded_with_digit_zero :
  encryption._normalize_key (lit "16byteslongkey!!")
  = Return (map byte_of_Z (lit "16byteslongkey!!0000000000000000"))
  /\ encryption._normalize_key (lit "16byteslongkey!!")
     <> Return (zero_byte_padded (map byte_of_Z (lit "16byteslongkey!!")))
  /\ encryption._normalize_key (lit "key" ++ [0xDC80])
     = Raise UnicodeEncodeError.
Proof.
  split; [vm_compute; reflexivity|].
  split; [vm_compute; discriminate|vm_compute; reflexivity].
Qed.

(** C10, amended. For every secret that has a UTF-8 encoding, that is,
    that holds no surrogate code point, the derived key has exactly 32
    bytes: the first 32 bytes of the secret's UTF-8 encoding when that has
    32 bytes or more, otherwise the encoding followed by as many characters
    '0' (byte 0x30, not the byte 0) as it takes to reach 32.  [KEY] is this
    value for the configured secret, and AESGCM accepts it.  For a secret
    that holds a surrogate code point the derivation raises
    UnicodeEncodeError, and so does [KEY] when the module is loaded. *)
Theorem normalize_key_32_bytes (settings : Settings) (raw : str) :
  (is_text raw ->
   exists b key,
     str_encode raw = Return b
     /\ encryption._normalize_key raw = Return key
     /\ List.length key = 32%nat
     /\ ((32 <= List.length b)%nat -> key = firstn 32 b)
     /\ ((List.length b < 32)%nat ->
         key = b ++ repeat "0"%byte (32 - List.length b))
     /\ (AES_ENCRYPTION_KEY settings = raw ->
         encryption.KEY settings = Return key /\ AESGCM.init key = Return key))
  /\ (has_surrogate raw ->
      encryption._normalize_key raw = Raise UnicodeEncodeError
      /\ (AES_ENCRYPTION_KEY settings = raw ->
          encryption.KEY settings = Raise UnicodeEncodeError)).
Proof.
  split.
  - intros Ht.
    destruct (normalize_key_spec raw Ht) as (b & key & Hb & Hk & Hl & H1 & H2).
    exists b, key. repeat (split; [assumption|]).
    intros Hs. assert (HK : encryption.KEY settings = Return key).
    { unfold encryption.KEY. now rewrite Hs. }
    split; [assumption|]. now apply (key_is_accepted settings).
  - intros Hs.
    assert (Hn : encryption._normalize_key raw = Raise UnicodeEncodeError).
    { unfold encryption._normalize_key.
      now rewrite (str_encode_surrogate raw Hs). }
    split; [assumption|]. intros E. unfold encryption.KEY. now rewrite E.
Qed.

Definition default_settings : Settings :=
  get_settings (lit "change_me_secret") (lit "change_me_refresh")
    (lit "16byteslongkey!!").

Lemma lit_is_text (s : string) :
  forallb (fun c => (0 <=? c) && (c <? 0xD800)) (lit s) = true -> is_text (lit s).
Proof.
  intros H. rewrite forallb_forall in H. apply Forall_forall. intros c Hc.
  specialize (H c Hc). apply andb_true_iff in H as [H1 H2].
  apply Z.leb_le in H1. apply Z.ltb_lt in H2. left. lia.
Defined.

Lemma normalize_key_32_bytes_witness :
  is_text (lit "16byteslongkey!!")
  /\ exists b key,
       str_encode (lit "16byteslongkey!!") = Return b
       /\ encryption._normalize_key (lit "16byteslongkey!!") = Return key
       /\ List.length key = 32%nat
       /\ ((32 <= List.length b)%nat -> key = firstn 32 b)
       /\ ((List.length b < 32)%nat ->
           key = b ++ repeat "0"%byte (32 - List.length b))
       /\ (AES_ENCRYPTION_KEY default_settings = lit "16byteslongkey!!" ->
           encryption.KEY default_settings = Return key
           /\ AESGCM.init key = Return key).
Proof.
  split; [apply lit_is_text; reflexivity|].
  apply (proj1 (normalize_key_32_bytes default_settings (lit "16byteslongkey!!"))).
  apply lit_is_text. reflexivity.
Defined.

(** A 40-byte secret is cut to 32 bytes; a secret with a two-byte character
    is measured in bytes (here 2 bytes, so 30 pad characters). *)
Example normalize_key_long_and_accented :
  encryption._normalize_key (lit "0123456789012345678901234567890123456789")
  = Return (map byte_of_Z (lit "01234567890123456789012345678901"))
  /\ encryption._normalize_key [233]
     = Return ([byte_of_Z 0xC3; byte_of_Z 0xA9] ++ repeat "0"%byte 30).
Proof. split; vm_compute; reflexivity. Qed.

Lemma check_nonce_12 (nonce : bytes) :
  List.length nonce = 12%nat -> AESGCM._check_nonce nonce = Return tt.
Proof. unfold AESGCM._check_nonce. now intros ->. Qed.

(** C6 (as amended). Under one key and a cipher that opens what it sealed,
    and whatever nonce the call draws: for every plaintext that has a UTF-8
    encoding, that is, that holds no surrogate code point (the empty string
    and text beyond ASCII included), [encrypt] returns a token and
    [decrypt] of that token returns exactly the plaintext; for a plaintext
    that holds a surrogate code point [encrypt] raises UnicodeEncodeError
    and returns no token. *)
Theorem decrypt_encrypt (lib : AEAD) (settings : Settings) (KEY nonce : bytes)
    (plaintext : str) :
  AEAD_laws lib ->
  encryption.KEY settings = Return KEY ->
  List.length nonce = 12%nat ->
  (is_text plaintext ->
   exists token,
     encryption.encrypt lib KEY nonce (Some plaintext) = Return (Some token)
     /\ encryption.decrypt lib KEY (Some token) = Return (Some plaintext))
  /\ (has_surrogate plaintext ->
      encryption.encrypt lib KEY nonce (Some plaintext)
      = Raise UnicodeEncodeError).
Proof.
  intros [Hopen Hlen] HK Hn.
  pose proof (key_is_accepted settings KEY HK) as Hinit.
  split.
  - intros Ht.
    destruct (decode_encode plaintext Ht) as (data & Henc & Hdec).
    set (ct := aead_seal lib KEY nonce data).
    destruct (b64_round_trip (nonce ++ ct)) as (token & Htok & Hraw).
    exists token. split.
    + unfold encryption.encrypt. rewrite Hinit. cbn [bind]. rewrite Henc.
      cbn [bind].
      unfold AESGCM.encrypt. rewrite (check_nonce_12 nonce Hn). cbn [bind].
      fold ct. rewrite Htok. reflexivity.
    + unfold encryption.decrypt. cbv zeta. rewrite Hraw. cbn [bind].
      rewrite Hinit. cbn [bind].
      assert (Hf : firstn 12 (nonce ++ ct) = nonce).
      { rewrite <- Hn. rewrite firstn_app, Nat.sub_diag, firstn_all. simpl.
        apply app_nil_r. }
      assert (Hs : skipn 12 (nonce ++ ct) = ct).
      { rewrite <- Hn. rewrite skipn_app, Nat.sub_diag, skipn_all. reflexivity. }
      rewrite Hf, Hs. unfold AESGCM.decrypt. rewrite (check_nonce_12 nonce Hn).
      cbn [bind]. unfold ct at 1.
      rewrite (Hlen KEY nonce data Hinit (check_nonce_12 nonce Hn)).
      destruct (Z.ltb_spec (Z.of_nat (List.length data + 16)) 16); [lia|].
      unfold ct. rewrite (Hopen KEY nonce data Hinit (check_nonce_12 nonce Hn)).
      cbn [bind]. rewrite Hdec. reflexivity.
  - intros Hs. unfold encryption.encrypt. rewrite Hinit. cbn [bind].
    now rewrite (str_encode_surrogate plaintext Hs).
Qed.

(** A stand-in cipher for concrete runs: the "ciphertext" is the data
    followed by sixteen bytes of value 1, and opening checks that tag. *)
Definition toy_tag : bytes := repeat x01 16.

Definition bytes_eqb (a b : bytes) : bool :=
  (List.length a =? List.length b)%nat
  && forallb (fun p => Byte.eqb (fst p) (snd p)) (combine a b).

Definition toy_aead : AEAD :=
  mkAEAD
    (fun _ _ data => data ++ toy_tag)
    (fun _ _ ct =>
       let n := (List.length ct - 16)%nat in
       if bytes_eqb (skipn n ct) toy_tag then Some (firstn n ct) else None).

Lemma toy_aead_laws : AEAD_laws toy_aead.
Proof.
  split; intros key nonce data _ _; simpl.
  - rewrite length_app. simpl.
    replace (List.length data + 16 - 16)%nat with (List.length data) by lia.
    rewrite skipn_app, skipn_all, Nat.sub_diag, firstn_app, firstn_all, Nat.sub_diag.
    simpl. now rewrite app_nil_r.
  - rewrite length_app. reflexivity.
Defined.

(** "héllo €" with an emoji, and the empty string, under the default key. *)
Lemma decrypt_encrypt_witness :
  (exists token,
     encryption.encrypt toy_aead
       (map byte_of_Z (lit "16byteslongkey!!0000000000000000"))
       (repeat x07 12) (Some [104; 233; 108; 108; 111; 32; 8364; 128512])
     = Return (Some token)
     /\ encryption.decrypt toy_aead
          (map byte_of_Z (lit "16byteslongkey!!0000000000000000")) (Some token)
        = Return (Some [104; 233; 108; 108; 111; 32; 8364; 128512]))
  /\ (exists token,
        encryption.encrypt toy_aead
          (map byte_of_Z (lit "16byteslongkey!!0000000000000000"))
          (repeat x07 12) (Some [])
        = Return (Some token)
        /\ encryption.decrypt toy_aead
             (map byte_of_Z (lit "16byteslongkey!!0000000000000000")) (Some token)
           = Return (Some [])).
Proof.
  assert (HK : encryption.KEY default_settings
               = Return (map byte_of_Z (lit "16byteslongkey!!0000000000000000")))
    by (vm_compute; reflexivity).
  split.
  - apply (proj1 (decrypt_encrypt toy_aead default_settings _ (repeat x07 12)
                    [104; 233; 108; 108; 111; 32; 8364; 128512] toy_aead_laws
                    HK eq_refl)).
    repeat constructor; unfold is_scalar_value; lia.
  - apply (proj1 (decrypt_encrypt toy_aead default_settings _ (repeat x07 12) []
                    toy_aead_laws HK eq_refl)).
    constructor.
Defined.

(** C6, as the specification states it, fails on the code: the plaintext
    "a" followed by the code point DC80 (a string, as JSON's "\udc80"
    gives it) has no UTF-8 encoding; [encrypt] raises UnicodeEncodeError,
    so there is no token whose decryption could give the plaintext back. *)
Lemma encrypt_surrogate_raises :
  encryption.encrypt toy_aead
    (map byte_of_Z (lit "16byteslongkey!!0000000000000000"))
    (repeat x07 12) (Some (lit "a" ++ [0xDC80]))
  = Raise UnicodeEncodeError
  /\ ~ (exists token,
         encryption.encrypt toy_aead
           (map byte_of_Z (lit "16byteslongkey!!0000000000000000"))
           (repeat x07 12) (Some (lit "a" ++ [0xDC80]))
         = Return (Some token)
         /\ encryption.decrypt toy_aead
              (map byte_of_Z (lit "16byteslongkey!!0000000000000000"))
              (Some token)
            = Return (Some (lit "a" ++ [0xDC80]))).
Proof.
  split; [vm_compute; reflexivity|].
  intros (token & H & _). vm_compute in H. discriminate.
Qed.

(** The token of "hi" under the stand-in cipher, and its way back. *)
Example encrypt_hi :
  encryption.encrypt toy_aead
    (map byte_of_Z (lit "16byteslongkey!!0000000000000000"))
    (repeat x07 12) (Some (lit "hi"))
  = Return (Some (lit "BwcHBwcHBwcHBwcHaGkBAQEBAQEBAQEBAQEBAQEB"))
  /\ encryption.decrypt toy_aead
       (map byte_of_Z (lit "16byteslongkey!!0000000000000000"))
       (Some (lit "BwcHBwcHBwcHBwcHaGkBAQEBAQEBAQEBAQEBAQEB"))
     = Return (Some (lit "hi")).
Proof. split; vm_compute; reflexivity. Qed.


(** Text that is no base64 at all, a lone character, a token cut to its
    first 20 characters, a token with one character changed, and a token
    from outside ASCII: None each time. *)
Example decrypt_bad_tokens :
  let KEY := map byte_of_Z (lit "16byteslongkey!!0000000000000000") in
  encryption.decrypt toy_aead KEY (Some (lit "!!!")) = Return None
  /\ encryption.decrypt toy_aead KEY (Some (lit "A")) = Return None
  /\ encryption.decrypt toy_aead KEY (Some (lit "BwcHBwcHBwcHBwcHaGkB"))
     = Return None
  /\ encryption.decrypt toy_aead KEY
       (Some (lit "BwcHBwcHBwcHBwcHaGkBAQEBAQEBAQEBAQEBAQEC"))
     = Return None
  /\ encryption.decrypt toy_aead KEY (Some [233; 233; 233; 233]) = Return None
  /\ encryption.decrypt toy_aead KEY (Some []) = Return None.
Proof. repeat split; vm_compute; reflexivity. Qed.


(* ================================================================== *)
(** * The rest of the appointment code

    [crud.py] and [routers.py], continued: the functions around the ones
    above (listing a doctor's day, availability rows, the routes that
    create, read, reassign and annotate an appointment, the patient's
    profile update) and [deps.py]'s role check.  The modules [crud2],
    [routers2] and [datetime2] continue [crud], [routers] and [datetime]. *)

Module deps.

(** [RoleChecker(roles)(current_user)] *)
Definition RoleChecker (roles : list UserRole) (current_user : User.t)
    : result User.t :=
  if negb (existsb (UserRole_eqb (User.role current_user)) roles) then
    Raise (HTTPException 403 (Text "Not enough permissions"))
  else Return current_user.

End deps.

Module datetime2.

Definition us_per_second : Z := 1000000.

(** [datetime(d.year, d.month, d.day)]: the same day at 00:00:00.000000. *)
Definition day_start (d : datetime.t) : datetime.t :=
  d / datetime.us_per_day * datetime.us_per_day.

(** [d.replace(hour=h, minute=m, second=s)]: the microsecond stays. *)
Definition replace_hms (d : datetime.t) (h m s : Z) : datetime.t :=
  day_start d + h * datetime.us_per_hour + m * datetime.us_per_minute
  + s * us_per_second + d mod us_per_second.

End datetime2.

Module Patient.
Record t : Type := mk {
  id : Z;
  user_id : Z;
  date_of_birth : option str;
  contact_number : option str;     (* encrypted *)
  address : option str;            (* encrypted *)
  emergency_contact : option str   (* encrypted *)
}.
End Patient.

Module PatientUpdate.
Record t : Type := mk {
  date_of_birth : option str;
  contact_number : option str;
  address : option str;
  emergency_contact : option str
}.
End PatientUpdate.

Module PatientProfile.
Record t : Type := mk {
  date_of_birth : option str;
  contact_number : option str;
  address : option str;
  emergency_contact : option str
}.
End PatientProfile.

Definition set_date_of_birth (p : Patient.t) (v : option str) : Patient.t :=
  Patient.mk (Patient.id p) (Patient.user_id p) v (Patient.contact_number p)
    (Patient.address p) (Patient.emergency_contact p).

Definition set_contact_number (p : Patient.t) (v : option str) : Patient.t :=
  Patient.mk (Patient.id p) (Patient.user_id p) (Patient.date_of_birth p) v
    (Patient.address p) (Patient.emergency_contact p).

Definition set_address (p : Patient.t) (v : option str) : Patient.t :=
  Patient.mk (Patient.id p) (Patient.user_id p) (Patient.date_of_birth p)
    (Patient.contact_number p) v (Patient.emergency_contact p).

Definition set_emergency_contact (p : Patient.t) (v : option str) : Patient.t :=
  Patient.mk (Patient.id p) (Patient.user_id p) (Patient.date_of_birth p)
    (Patient.contact_number p) (Patient.address p) v.

Module crud2.

Definition with_doctor_availabilities (db : Session)
    (v : list DoctorAvailability.t) : Session :=
  mkSession (users db) v (appointments db) (refresh_tokens db).

Definition add_doctor_availability (db : Session) (doctor_id day_of_week : Z)
    (start_time end_time : str) : DoctorAvailability.t * Session :=
  let avail :=
    DoctorAvailability.mk
      (next_id (map DoctorAvailability.id (doctor_availabilities db)))
      doctor_id day_of_week start_time end_time in
  (avail,
   with_doctor_availabilities db (doctor_availabilities db ++ [avail])).

Definition list_doctor_availability (db : Session) (doctor_id : Z)
    : list DoctorAvailability.t :=
  scalars (doctor_availabilities db)
    (fun a => DoctorAvailability.doctor_id a =? doctor_id).

Definition list_doctor_appointments_for_day (db : Session) (doctor_id : Z)
    (date_day : datetime.t) : list Appointment.t :=
  let start := datetime2.day_start date_day in
  let end_ := datetime2.replace_hms start 23 59 59 in
  scalars (appointments db)
    (fun a =>
       (Appointment.doctor_id a =? doctor_id)
       && (start <=? Appointment.scheduled_time a)
       && (Appointment.scheduled_time a <=? end_)).

(** [patient_profile] is the row behind [user.patient_profile] ([None] when
    the relationship is empty); the patients table is not part of
    [Session], so the function returns the row as it is committed.
    [urandom_contact], [urandom_address] and [urandom_emergency] are the
    values [os.urandom(12)] takes in the call of [encrypt] for that field,
    when there is one. *)
Definition update_patient_profile (lib : AEAD) (KEY : bytes)
    (urandom_contact urandom_address urandom_emergency : bytes)
    (patient_profile : option Patient.t) (data : PatientUpdate.t)
    : result Patient.t :=
  match patient_profile with
  | None => Raise (ValueError (Text "No patient profile"))
  | Some patient =>
      let patient :=
        match PatientUpdate.date_of_birth data with
        | Some d => set_date_of_birth patient (Some d)
        | None => patient
        end in
      patient <-
        match PatientUpdate.contact_number data with
        | Some v =>
            token <- encryption.encrypt lib KEY urandom_contact (Some v) ;;
            Return (set_contact_number patient token)
        | None => Return patient
        end ;;
      patient <-
        match PatientUpdate.address data with
        | Some v =>
            token <- encryption.encrypt lib KEY urandom_address (Some v) ;;
            Return (set_address patient token)
        | None => Return patient
        end ;;
      patient <-
        match PatientUpdate.emergency_contact data with
        | Some v =>
            token <- encryption.encrypt lib KEY urandom_emergency (Some v) ;;
            Return (set_emergency_contact patient token)
        | None => Return patient
        end ;;
      Return patient
  end.

End crud2.

Module DoctorAvailabilityCreate.
Record t : Type := mk {
  doctor_id : Z;
  day_of_week : Z;
  start_time : str;
  end_time : str
}.
End DoctorAvailabilityCreate.

Module routers2.

Definition admin_required : User.t -> result User.t :=
  deps.RoleChecker [ADMIN].

Definition create_appointment (now : datetime.t) (db : Session)
    (appt_in : AppointmentCreate.t) (current_user : User.t)
    : result Appointment.t * Session :=
  let r :=
    deps.RoleChecker [PATIENT] current_user ;;;
    match User.patient_profile current_user with
    | None => Raise (HTTPException 400 (Text "Not a patient"))
    | Some patient_profile_id =>
        match crud.create_appointment now db patient_profile_id appt_in with
        | Return r => Return r
        | Raise e =>
            match is_ValueError e with
            | Some detail => Raise (HTTPException 400 detail)
            | None => Raise e
            end
        end
    end in
  match r with
  | Return (appt, db') => (Return appt, db')
  | Raise e => (Raise e, db)
  end.

Definition get_appointment (db : Session) (appt_id : Z) (current_user : User.t)
    : result Appointment.t :=
  appt <-
    match crud.get_appointment db appt_id with
    | Some appt => Return appt
    | None => Raise routers.not_found
    end ;;
  (if UserRole_eqb (User.role current_user) PATIENT then
     pid <- routers.profile_id (User.patient_profile current_user) ;;
     if negb (Appointment.patient_id appt =? pid) then Raise routers.forbidden
     else Return tt
   else Return tt) ;;;
  (if UserRole_eqb (User.role current_user) DOCTOR then
     did <- routers.profile_id (User.doctor_profile current_user) ;;
     if negb (Appointment.doctor_id appt =? did) then Raise routers.forbidden
     else Return tt
   else Return tt) ;;;
  Return appt.

Definition reassign_appointment (db : Session) (appt_id new_doctor_id : Z)
    (new_hospital_id : option Z) (current_user : User.t)
    : result Appointment.t * Session :=
  match admin_required current_user with
  | Raise e => (Raise e, db)
  | Return _ =>
      match crud.get_appointment db appt_id with
      | None => (Raise routers.not_found, db)
      | Some appt =>
          let '(appt, db') :=
            crud.reassign_appointment db appt new_doctor_id new_hospital_id in
          (Return appt, db')
      end
  end.

Definition update_doctor_note (db : Session) (appt_id : Z) (note : str)
    (current_user : User.t) : result Appointment.t * Session :=
  match crud.get_appointment db appt_id with
  | None => (Raise routers.not_found, db)
  | Some appt =>
      let denied :=
        if negb (UserRole_eqb (User.role current_user) DOCTOR) then Return true
        else
          did <- routers.profile_id (User.doctor_profile current_user) ;;
          Return (negb (did =? Appointment.doctor_id appt)) in
      match denied with
      | Raise e => (Raise e, db)
      | Return true => (Raise routers.forbidden, db)
      | Return false =>
          let appt := set_notes appt (Some note) in
          (Return appt, crud.commit_appointment db appt)
      end
  end.

(** [fromisoformat] is [datetime.fromisoformat]: a ValueError for a text
    that is no ISO date. *)
Definition doctor_schedule (fromisoformat : str -> result datetime.t)
    (db : Session) (doctor_id : Z) (date : str) (current_user : User.t)
    : result (list Appointment.t) :=
  (if UserRole_eqb (User.role current_user) DOCTOR then
     did <- routers.profile_id (User.doctor_profile current_user) ;;
     if negb (did =? doctor_id) then Raise routers.forbidden else Return tt
   else Return tt) ;;;
  (if negb (existsb (UserRole_eqb (User.role current_user)) [DOCTOR; ADMIN])
   then Raise routers.forbidden
   else Return tt) ;;;
  date_obj <-
    match fromisoformat date with
    | Return d => Return d
    | Raise e =>
        match is_ValueError e with
        | Some _ =>
            Raise (HTTPException 400
                     (Text "Invalid date format; use YYYY-MM-DD"))
        | None => Raise e
        end
    end ;;
  Return (crud2.list_doctor_appointments_for_day db doctor_id date_obj).

Definition add_availability (db : Session) (doctor_id : Z)
    (data : DoctorAvailabilityCreate.t) (current_user : User.t)
    : result DoctorAvailability.t * Session :=
  match admin_required current_user with
  | Raise e => (Raise e, db)
  | Return _ =>
      if negb (doctor_id =? DoctorAvailabilityCreate.doctor_id data) then
        (Raise (HTTPException 400 (Text "Doctor ID mismatch")), db)
      else
        let '(availability, db') :=
          crud2.add_doctor_availability db
            (DoctorAvailabilityCreate.doctor_id data)
            (DoctorAvailabilityCreate.day_of_week data)
            (DoctorAvailabilityCreate.start_time data)
            (DoctorAvailabilityCreate.end_time data) in
        (Return availability, db')
  end.

Definition list_availability (db : Session) (doctor_id : Z)
    (current_user : User.t) : result (list DoctorAvailability.t) :=
  admin_required current_user ;;;
  Return (crud2.list_doctor_availability db doctor_id).

(** [patient_profile] is the row behind [current_user.patient_profile]. *)
Definition update_patient (lib : AEAD) (KEY : bytes)
    (urandom_contact urandom_address urandom_emergency : bytes)
    (data : PatientUpdate.t) (current_user : User.t)
    (patient_profile : option Patient.t) : result PatientProfile.t :=
  if negb (UserRole_eqb (User.role current_user) PATIENT) then
    Raise routers.forbidden
  else
    patient <-
      crud2.update_patient_profile lib KEY urandom_contact urandom_address
        urandom_emergency patient_profile data ;;
    contact_number <- encryption.decrypt lib KEY (Patient.contact_number patient) ;;
    address <- encryption.decrypt lib KEY (Patient.address patient) ;;
    emergency_contact <-
      encryption.decrypt lib KEY (Patient.emergency_contact patient) ;;
    Return (PatientProfile.mk (Patient.date_of_birth patient) contact_number
              address emergency_contact).

End routers2.

(* ------------------------------------------------------------------ *)
(** ** Booking *)

Lemma fold_max_ge (ids : list Z) (i : Z) :
  In i ids -> i <= fold_right Z.max 0 ids.
Proof.
  induction ids as [|j ids IH]; [contradiction|].
  cbn [fold_right]. intros [->|Hin]; [lia|]. specialize (IH Hin). lia.
Qed.

Lemma next_id_fresh (ids : list Z) (i : Z) : In i ids -> i < next_id ids.
Proof. intros Hin. unfold next_id. pose proof (fold_max_ge ids i Hin). lia. Qed.

Lemma scalar_app_last {A : Type} (p : A -> bool) (l : list A) (x : A) :
  (forall a, In a l -> p a = false) -> p x = true ->
  scalar (l ++ [x]) p = Some x.
Proof.
  intros Hl Hx. unfold scalar. rewrite filter_app.
  assert (E : filter p l = []).
  { induction l as [|y l IH]; [reflexivity|]. simpl.
    rewrite (Hl y (or_introl eq_refl)). apply IH. intros a Ha. apply Hl. now right. }
  rewrite E. simpl. now rewrite Hx.
Qed.

Lemma scalar_app_first {A : Type} (p : A -> bool) (l l' : list A) (x : A) :
  scalar l p = Some x -> scalar (l ++ l') p = Some x.
Proof.
  unfold scalar. rewrite filter_app.
  destruct (filter p l); [discriminate|]. simpl. auto.
Qed.

Lemma crud_create_spec (now : datetime.t) (db : Session) (P : Z)
    (appt_in : AppointmentCreate.t) (appt : Appointment.t) (db' : Session) :
  crud.create_appointment now db P appt_in = Return (appt, db') ->
  crud._validate_appointment_slot db (AppointmentCreate.doctor_id appt_in) P
    (AppointmentCreate.scheduled_time appt_in) None = Return tt
  /\ appt = Appointment.mk (next_id (map Appointment.id (appointments db))) P
              (AppointmentCreate.doctor_id appt_in)
              (AppointmentCreate.hospital_id appt_in)
              (AppointmentCreate.scheduled_time appt_in) PENDING None now
  /\ db' = with_appointments db (appointments db ++ [appt]).
Proof.
  unfold crud.create_appointment.
  destruct (crud._validate_appointment_slot _ _ _ _ _) as [[]|e]; cbn [bind];
    [|discriminate].
  intros [= <- <-]. repeat split.
Qed.

(** X1. A booking that the route accepts is stored as a new pending appointment
    of the caller's own patient profile, under an id above every id in the
    table; it can be read back by that id, and every appointment that could
    be read before still reads the same. *)
Theorem create_appointment_stores (now : datetime.t) (db : Session)
    (appt_in : AppointmentCreate.t) (user : User.t)
    (appt : Appointment.t) (db' : Session) :
  routers2.create_appointment now db appt_in user = (Return appt, db') ->
  User.role user = PATIENT
  /\ User.patient_profile user = Some (Appointment.patient_id appt)
  /\ Appointment.doctor_id appt = AppointmentCreate.doctor_id appt_in
  /\ Appointment.hospital_id appt = AppointmentCreate.hospital_id appt_in
  /\ Appointment.scheduled_time appt = AppointmentCreate.scheduled_time appt_in
  /\ Appointment.status appt = PENDING
  /\ Appointment.notes appt = None
  /\ (forall a, In a (appointments db) -> Appointment.id a < Appointment.id appt)
  /\ appointments db' = appointments db ++ [appt]
  /\ crud.get_appointment db' (Appointment.id appt) = Some appt
  /\ (forall i a, crud.get_appointment db i = Some a ->
        crud.get_appointment db' i = Some a).
Proof.
  unfold routers2.create_appointment, deps.RoleChecker. intros H.
  destruct (User.role user) eqn:Hr; cbn [existsb UserRole_eqb orb negb bind] in H;
    try (injection H as H _; discriminate).
  destruct (User.patient_profile user) as [pid|] eqn:Hp;
    [|injection H as H _; discriminate].
  destruct (crud.create_appointment now db pid appt_in) as [[a d]|e] eqn:Hc.
  - injection H as -> ->.
    apply crud_create_spec in Hc as (_ & Ha & Hd).
    assert (Hfresh : forall a, In a (appointments db) ->
                       Appointment.id a < Appointment.id appt).
    { intros a Hin. rewrite Ha. cbn [Appointment.id]. apply next_id_fresh.
      now apply in_map. }
    assert (Happ : appointments db' = appointments db ++ [appt]) by now rewrite Hd.
    split; [reflexivity|]. rewrite Ha at 1 2 3 4 5 6. cbn.
    repeat (split; [reflexivity|]).
    split; [assumption|]. split; [assumption|]. split.
    + unfold crud.get_appointment. rewrite Happ. apply scalar_app_last.
      * intros a Hin. apply Z.eqb_neq. specialize (Hfresh a Hin). lia.
      * apply Z.eqb_refl.
    + intros i a Hget. unfold crud.get_appointment in *. rewrite Happ.
      now apply scalar_app_first.
  - exfalso. destruct (is_ValueError e); injection H as H _; discriminate.
Qed.

(** Patient 7 books doctor 1 for 13:00 in the clinic. *)
Lemma create_appointment_stores_witness :
  exists appt db',
    routers2.create_appointment 5 clinic
      (AppointmentCreate.mk 1 None (datetime.at_ monday 13 0)) patient7
    = (Return appt, db')
    /\ Appointment.id appt = 3
    /\ Appointment.status appt = PENDING
    /\ crud.get_appointment db' 3 = Some appt.
Proof.
  eexists. eexists. split; [vm_compute; reflexivity|].
  split; [reflexivity|].
  refine (let H := create_appointment_stores 5 clinic
                     (AppointmentCreate.mk 1 None (datetime.at_ monday 13 0))
                     patient7 _ _ eq_refl in _).
  destruct H as (_ & _ & _ & _ & _ & Hs & _ & _ & _ & Hg & _).
  split; [exact Hs|exact Hg].
Defined.

(** X2. Once a booking is accepted, its slot is taken.  A later booking with
    that doctor within 29 minutes of it is never accepted, whoever the
    patient is: it is refused as unavailable, or as a doctor-slot conflict
    when both ends of its own slot are datetimes, or it fails with
    OverflowError when an end of its slot is beyond the datetime range.  A
    later booking of that patient within 29 minutes raises as well, whoever
    the doctor is. *)
Theorem booked_slot_is_taken (now : datetime.t) (db : Session) (P : Z)
    (appt_in : AppointmentCreate.t) (appt : Appointment.t) (db' : Session) :
  crud.create_appointment now db P appt_in = Return (appt, db') ->
  forall T', in_slot T' appt ->
    (forall P',
       crud._validate_appointment_slot db' (AppointmentCreate.doctor_id appt_in)
         P' T' None = Raise crud.doctor_unavailable
       \/ (slot_in_range T'
           /\ crud._validate_appointment_slot db'
                (AppointmentCreate.doctor_id appt_in) P' T' None
              = Raise crud.doctor_slot_conflict)
       \/ (~ slot_in_range T'
           /\ crud._validate_appointment_slot db'
                (AppointmentCreate.doctor_id appt_in) P' T' None
              = Raise OverflowError))
    /\ (forall D' now' appt_in',
          AppointmentCreate.doctor_id appt_in' = D' ->
          AppointmentCreate.scheduled_time appt_in' = T' ->
          exists e, crud.create_appointment now' db' P appt_in' = Raise e).
Proof.
  intros Hc T' Hslot. apply crud_create_spec in Hc as (_ & Ha & Hd).
  assert (Hin : In appt (appointments db')).
  { rewrite Hd. simpl. apply in_or_app. right. now left. }
  assert (Hstmt : forall (key : Appointment.t -> Z) k,
            key appt = k ->
            truthy_row
              (scalar (appointments db')
                 (fun a => (key a =? k)
                           && (T' - datetime.timedelta_minutes 29
                               <=? Appointment.scheduled_time a)
                           && (Appointment.scheduled_time a
                               <=? T' + datetime.timedelta_minutes 29))) = true).
  { intros key k Hk. apply truthy_scalar. exists appt. split; [assumption|].
    unfold in_slot in Hslot. rewrite Hk, Z.eqb_refl. cbn [andb].
    apply andb_true_iff. split; apply Z.leb_le; lia. }
  split.
  - intros P'. unfold crud._validate_appointment_slot. cbv zeta.
    destruct (negb _); [now left|]. right.
    destruct (slot_window T') as [(Hr & -> & ->)|(Hr & [-> | [-> ->]])];
      cbn [bind truthy_int]; [left|right; auto..].
    split; [assumption|].
    rewrite (Hstmt Appointment.doctor_id (AppointmentCreate.doctor_id appt_in));
      [reflexivity|]. now rewrite Ha.
  - intros D' now' appt_in' HD HT. unfold crud.create_appointment.
    unfold crud._validate_appointment_slot. cbv zeta. rewrite HD, HT.
    destruct (negb _); [eexists; reflexivity|].
    destruct (slot_window T') as [(Hr & -> & ->)|(Hr & [-> | [-> ->]])];
      cbn [bind truthy_int]; [|eexists; reflexivity..].
    destruct (truthy_row _); [eexists; reflexivity|].
    rewrite (Hstmt Appointment.patient_id P); [eexists; reflexivity|].
    now rewrite Ha.
Qed.

(** After the 13:00 booking, 13:29 with the same doctor is refused for
    another patient. *)
Lemma booked_slot_is_taken_witness :
  exists appt db',
    crud.create_appointment 5 clinic 7
      (AppointmentCreate.mk 1 None (datetime.at_ monday 13 0))
    = Return (appt, db')
    /\ crud._validate_appointment_slot db' 1 8 (datetime.at_ monday 13 29) None
       = Raise crud.doctor_slot_conflict.
Proof.
  pose (appt13 := Appointment.mk 3 7 1 None (datetime.at_ monday 13 0) PENDING None 5).
  pose (db13 := with_appointments clinic (appointments clinic ++ [appt13])).
  exists appt13, db13. split; [vm_compute; reflexivity|].
  assert (Hs : in_slot (datetime.at_ monday 13 29) appt13).
  { vm_compute. split; discriminate. }
  destruct (booked_slot_is_taken 5 clinic 7
              (AppointmentCreate.mk 1 None (datetime.at_ monday 13 0))
              appt13 db13 eq_refl (datetime.at_ monday 13 29) Hs) as [H _].
  destruct (H 8) as [Hu|[[_ Hc]|[_ Ho]]]; [|exact Hc|].
  - vm_compute in Hu. discriminate.
  - vm_compute in Ho. discriminate.
Defined.

(* ------------------------------------------------------------------ *)
(** ** No double booking *)

(** No two appointments with the same [key] (the doctor, or the patient)
    lie within 29 minutes of each other. *)
Definition slots_free (key : Appointment.t -> Z) (db : Session) : Prop :=
  forall a b, In a (appointments db) -> In b (appointments db) ->
    Appointment.id a <> Appointment.id b -> key a = key b ->
    ~ in_slot (Appointment.scheduled_time a) b.

Definition is_reassign (op : operation) : bool :=
  match op with
  | Op_reassign_appointment _ _ _ => true
  | _ => false
  end.

Lemma in_slot_sym (a b : Appointment.t) :
  in_slot (Appointment.scheduled_time a) b <-> in_slot (Appointment.scheduled_time b) a.
Proof. unfold in_slot. lia. Qed.

Lemma slots_free_commit (key : Appointment.t -> Z) (db : Session)
    (appt appt' : Appointment.t) :
  In appt (appointments db) ->
  Appointment.id appt' = Appointment.id appt ->
  key appt' = key appt ->
  (Appointment.scheduled_time appt' = Appointment.scheduled_time appt
   \/ forall b, In b (appointments db) ->
        Appointment.id b <> Appointment.id appt -> key b = key appt ->
        ~ in_slot (Appointment.scheduled_time appt') b) ->
  slots_free key db -> slots_free key (crud.commit_appointment db appt').
Proof.
  intros Hin Hid Hkey Htime Hfree.
  assert (Hnew : forall b, In b (appointments db) ->
            Appointment.id b <> Appointment.id appt -> key b = key appt ->
            ~ in_slot (Appointment.scheduled_time appt') b).
  { destruct Htime as [E|H]; [|exact H].
    intros b Hb Hne Hk. rewrite E. apply (Hfree appt b); congruence. }
  intros a b Ha Hb Hne Hk. unfold crud.commit_appointment in Ha, Hb. simpl in Ha, Hb.
  apply update_first_In_inv in Ha as [Ha|(x & _ & _ & ->)];
    apply update_first_In_inv in Hb as [Hb|(y & _ & _ & ->)].
  - now apply Hfree.
  - rewrite in_slot_sym. apply Hnew; congruence.
  - apply Hnew; congruence.
  - congruence.
Qed.

Lemma crud_update_keeps (db : Session) (appt : Appointment.t)
    (appt_in : AppointmentUpdate.t) (appt' : Appointment.t) (db' : Session) :
  crud.update_appointment db appt appt_in = Return (appt', db') ->
  Appointment.id appt' = Appointment.id appt
  /\ Appointment.patient_id appt' = Appointment.patient_id appt
  /\ Appointment.doctor_id appt' = Appointment.doctor_id appt
  /\ Appointment.hospital_id appt' = Appointment.hospital_id appt
  /\ Appointment.created_at appt' = Appointment.created_at appt
  /\ (Appointment.scheduled_time appt' = Appointment.scheduled_time appt
      \/ crud._validate_appointment_slot db (Appointment.doctor_id appt)
           (Appointment.patient_id appt) (Appointment.scheduled_time appt')
           (Some (Appointment.id appt)) = Return tt).
Proof.
  unfold crud.update_appointment.
  destruct (AppointmentUpdate.scheduled_time appt_in) as [t|]; cbn [bind].
  - destruct (crud._validate_appointment_slot _ _ _ _ _) as [[]|e] eqn:Hv;
      cbn [bind]; [|discriminate].
    destruct (AppointmentUpdate.status appt_in) as [s|]; cbn [bind].
    + destruct (AppointmentStatus_call s) as [st|e]; cbn [bind]; [|discriminate].
      intros [= <- _]. destruct (AppointmentUpdate.notes appt_in); cbn; tauto.
    + intros [= <- _]. destruct (AppointmentUpdate.notes appt_in); cbn; tauto.
  - destruct (AppointmentUpdate.status appt_in) as [s|]; cbn [bind].
    + destruct (AppointmentStatus_call s) as [st|e]; cbn [bind]; [|discriminate].
      intros [= <- _]. destruct (AppointmentUpdate.notes appt_in); cbn; tauto.
    + intros [= <- _]. destruct (AppointmentUpdate.notes appt_in); cbn; tauto.
Qed.

(** What a call of the update route can do to the session: nothing, or
    commit a row that keeps the identity of the stored one and whose new
    time, if any, passed the validator. *)
Lemma router_update_effect (db : Session) (appt_id : Z)
    (appt_in : AppointmentUpdate.t) (user : User.t) :
  snd (routers.update_appointment db appt_id appt_in user) = db
  \/ exists appt appt',
       crud.get_appointment db appt_id = Some appt
       /\ crud.update_appointment db appt appt_in
          = Return (appt', crud.commit_appointment db appt')
       /\ routers.update_appointment db appt_id appt_in user
          = (Return appt', crud.commit_appointment db appt').
Proof.
  unfold routers.update_appointment.
  destruct (crud.get_appointment db appt_id) as [appt|] eqn:Hget; [|now left].
  cbn [bind].
  match goal with
  | |- context [bind ?c _] => destruct c as [[]|e]; cbn [bind]; [|now left]
  end.
  match goal with
  | |- context [bind ?c _] => destruct c as [[]|e]; cbn [bind]; [|now left]
  end.
  destruct (crud.update_appointment db appt appt_in) as [[appt' db']|e] eqn:Hup.
  - right. exists appt, appt'.
    destruct (crud_update_commits _ _ _ _ _ Hup) as [-> _]. now split.
  - left. now destruct (is_ValueError e).
Qed.

Lemma validated_slot_free (db : Session) (D P : Z) (T : datetime.t)
    (exclude_id : option Z) :
  pk_positive db ->
  crud._validate_appointment_slot db D P T exclude_id = Return tt ->
  ~ doctor_conflict db D T exclude_id /\ ~ patient_conflict db P T exclude_id.
Proof.
  intros Hpk Hv.
  destruct (validate_cases db D P T exclude_id Hpk)
    as [[_ H]|[(_ & _ & H)|[(_ & _ & _ & H)|[(_ & _ & _ & _ & H)
       |(_ & _ & Hd & Hp & _)]]]];
    try (rewrite Hv in H; discriminate). now split.
Qed.

Section no_double_booking.

Variable jose : Jose.
Variable settings : Settings.
Variable py_int : option str -> result Z.
Variable py_str : Z -> str.

Lemma step_keeps_slots (db : Session) (op : operation) :
  pk_positive db ->
  (slots_free Appointment.patient_id db ->
   slots_free Appointment.patient_id (step jose settings py_int py_str db op))
  /\ (is_reassign op = false ->
      slots_free Appointment.doctor_id db ->
      slots_free Appointment.doctor_id (step jose settings py_int py_str db op)).
Proof.
  intros Hpk.
  assert (Hsame : forall key db', appointments db' = appointments db ->
            slots_free key db -> slots_free key db').
  { intros key db' E H. unfold slots_free. now rewrite E. }
  destruct op; cbn [step is_reassign].
  - (* create *)
    destruct (crud.create_appointment now db patient_id appt_in) as [[appt db']|e] eqn:Hc;
      [|tauto].
    apply crud_create_spec in Hc as (Hv & Ha & Hd).
    destruct (validated_slot_free _ _ _ _ _ Hpk Hv) as [Hnd Hnp].
    assert (Hnew : forall key k, key appt = k ->
              (forall b, In b (appointments db) -> key b = k ->
                 ~ in_slot (Appointment.scheduled_time appt) b) ->
              slots_free key db -> slots_free key db').
    { intros key k Hk Hfar Hfree a b Hina Hinb Hne Hkab.
      rewrite Hd in Hina, Hinb. simpl in Hina, Hinb.
      apply in_app_or in Hina as [Hina|[<-|[]]];
        apply in_app_or in Hinb as [Hinb|[<-|[]]].
      - now apply Hfree.
      - rewrite in_slot_sym. apply Hfar; congruence.
      - apply Hfar; congruence.
      - congruence. }
    assert (Ht : Appointment.scheduled_time appt
                 = AppointmentCreate.scheduled_time appt_in) by now rewrite Ha.
    split; [|intros _].
    + apply (Hnew Appointment.patient_id patient_id); [now rewrite Ha|].
      intros b Hb Hk Hs. apply Hnp. exists b. rewrite <- Ht.
      split; [assumption|]. split; [assumption|]. split; [discriminate|assumption].
    + apply (Hnew Appointment.doctor_id (AppointmentCreate.doctor_id appt_in));
        [now rewrite Ha|].
      intros b Hb Hk Hs. apply Hnd. exists b. rewrite <- Ht.
      split; [assumption|]. split; [assumption|]. split; [discriminate|assumption].
  - (* update *)
    destruct (router_update_effect db appt_id appt_in current_user)
      as [->|(appt & appt' & Hget & Hup & ->)]; [tauto|].
    cbn [snd]. apply get_appointment_id in Hget as [Hin _].
    destruct (crud_update_keeps _ _ _ _ _ Hup) as (Hid & Hp & Hd & _ & _ & Ht).
    split; [|intros _]; intros Hfree.
    + apply (slots_free_commit Appointment.patient_id db appt appt' Hin Hid Hp);
        [|assumption].
      destruct Ht as [Ht|Hv]; [now left|right].
      destruct (validated_slot_free _ _ _ _ _ Hpk Hv) as [_ Hnp].
      intros b Hb Hne Hk Hs. apply Hnp. exists b.
      split; [assumption|]. split; [assumption|]. split; [congruence|assumption].
    + apply (slots_free_commit Appointment.doctor_id db appt appt' Hin Hid Hd);
        [|assumption].
      destruct Ht as [Ht|Hv]; [now left|right].
      destruct (validated_slot_free _ _ _ _ _ Hpk Hv) as [Hnd _].
      intros b Hb Hne Hk Hs. apply Hnd. exists b.
      split; [assumption|]. split; [assumption|]. split; [congruence|assumption].
  - (* reassign *)
    split; [|discriminate]. intros Hfree.
    destruct (crud.get_appointment db appt_id) as [appt|] eqn:Hget; [|assumption].
    apply get_appointment_id in Hget as [Hin _]. cbn [crud.reassign_appointment snd].
    apply (slots_free_commit Appointment.patient_id db appt); try assumption;
      destruct new_hospital_id; cbn; auto.
  - destruct (crud.create_refresh_token_record _ _ _ _ _) as [[rec db']|] eqn:Hc;
      [|tauto].
    apply create_record_spec in Hc as (_ & _ & _ & _ & _ & Ha).
    split; [|intros _]; now apply Hsame.
  - destruct (revoke_returns db jti) as (db1 & -> & _ & _ & Ha & _).
    split; [|intros _]; now apply Hsame.
  - tauto.
  - destruct (refresh_tokens_session jose settings py_int py_str now uuid4_hex
                req_refresh_token db)
      as [[-> _]|(p & j & u & db1 & _ & _ & _ & _ & Hrev & Hrest)]; [tauto|].
    destruct (revoke_returns db j) as (d & Hd & _ & _ & Ha & _).
    rewrite Hrev in Hd. injection Hd as <-.
    destruct Hrest as [[-> _]|(uid & rec & db2 & pair & Hc & ->)].
    + split; [|intros _]; now apply Hsame.
    + cbn [snd]. apply create_record_spec in Hc as (_ & _ & _ & _ & _ & Ha2).
      split; [|intros _]; apply Hsame; congruence.
Qed.

End no_double_booking.

(** X3. The patient slots stay free under every sequence of operations of the
    model, and the doctor slots under every sequence without an admin
    reassignment: starting from a session where no two appointments of one
    patient (one doctor) lie within 29 minutes of each other, the
    operations never produce such a pair.  Cancelled and rejected
    appointments count like the others. *)
Theorem no_double_booking (jose : Jose) (settings : Settings)
    (py_int : option str -> result Z) (py_str : Z -> str)
    (ops : list operation) (db : Session) :
  pk_positive db ->
  (slots_free Appointment.patient_id db ->
   slots_free Appointment.patient_id (run jose settings py_int py_str db ops))
  /\ (existsb is_reassign ops = false ->
      slots_free Appointment.doctor_id db ->
      slots_free Appointment.doctor_id (run jose settings py_int py_str db ops)).
Proof.
  revert db. unfold run.
  induction ops as [|op ops IH]; intros db Hpk; cbn [fold_left existsb].
  - tauto.
  - destruct (step_keeps_slots jose settings py_int py_str db op Hpk) as [Hp Hd].
    destruct (step_keeps_invariants jose settings py_int py_str db op) as [_ Hpk'].
    destruct (IH _ (Hpk' Hpk)) as [IHp IHd].
    split.
    + intros H. apply IHp, Hp, H.
    + intros Hnone H. apply orb_false_iff in Hnone as [Hop Hrest].
      apply IHd; [assumption|]. now apply Hd.
Qed.

Lemma clinic_slots_free (key : Appointment.t -> Z) : slots_free key clinic.
Proof.
  intros a b [<-|[<-|[]]] [<-|[<-|[]]] Hne _ [H1 H2];
    try (now apply Hne); vm_compute in H1, H2; auto.
Defined.

(** In the clinic, patient 7 books doctor 1 at 13:00 and then tries to move
    the 11:00 appointment to 13:10: the slots are still free afterwards. *)
Lemma no_double_booking_witness :
  let ops :=
    [Op_create_appointment 5 7
       (AppointmentCreate.mk 1 None (datetime.at_ monday 13 0));
     Op_update_appointment 2
       (AppointmentUpdate.mk (Some (datetime.at_ monday 13 10)) None None)
       patient7] in
  let db' := run toy_jose default_settings (fun _ => Return 10)
               (fun _ => lit "10") clinic ops in
  pk_positive clinic
  /\ slots_free Appointment.patient_id db'
  /\ slots_free Appointment.doctor_id db'.
Proof.
  intros ops db'.
  destruct (no_double_booking toy_jose default_settings (fun _ => Return 10)
              (fun _ => lit "10") ops clinic clinic_pk_positive) as [Hp Hd].
  split; [exact clinic_pk_positive|]. split.
  - apply Hp, clinic_slots_free.
  - apply Hd; [reflexivity|apply clinic_slots_free].
Defined.

(* ------------------------------------------------------------------ *)
(** ** A doctor's day *)

(** X4. The listing of a doctor's day holds the appointments of that doctor on
    the calendar day of [date_day] up to 23:59:59.000000, in table order:
    the time of day of [date_day] plays no part, and an appointment in the
    last second of the day (after 23:59:59.000000) is left out. *)
Theorem day_listing (db : Session) (D : Z) (date_day : datetime.t) :
  (forall a,
     In a (crud2.list_doctor_appointments_for_day db D date_day) <->
     In a (appointments db) /\ Appointment.doctor_id a = D
     /\ Appointment.scheduled_time a / datetime.us_per_day
        = date_day / datetime.us_per_day
     /\ Appointment.scheduled_time a mod datetime.us_per_day
        <= datetime.at_ 0 23 59 + 59 * datetime2.us_per_second)
  /\ (forall d', d' / datetime.us_per_day = date_day / datetime.us_per_day ->
        crud2.list_doctor_appointments_for_day db D d'
        = crud2.list_doctor_appointments_for_day db D date_day).
Proof.
  split.
  - intros a. unfold crud2.list_doctor_appointments_for_day, scalars.
    rewrite filter_In, !andb_true_iff, Z.eqb_eq, !Z.leb_le.
    unfold datetime2.replace_hms, datetime2.day_start, datetime.at_,
      datetime2.us_per_second, datetime.us_per_day, datetime.us_per_hour,
      datetime.us_per_minute.
    generalize (Appointment.scheduled_time a). intros t.
    split.
    + intros (Hin & (Hd & H1) & H2). split; [assumption|]. split; [assumption|].
      Z.div_mod_to_equations. lia.
    + intros (Hin & Hd & H1 & H2). split; [assumption|].
      split; [split; [assumption|]|]; Z.div_mod_to_equations; lia.
  - intros d' E. unfold crud2.list_doctor_appointments_for_day, datetime2.day_start.
    now rewrite E.
Qed.

(* ------------------------------------------------------------------ *)
(** ** Who may read and write what *)

(** The appointments of the session whose [key] (patient or doctor) is not
    [k], in table order. *)
Definition others (key : Appointment.t -> Z) (k : Z) (db : Session)
    : list Appointment.t :=
  filter (fun a => negb (key a =? k)) (appointments db).

Definition not_enough_permissions : exn :=
  HTTPException 403 (Text "Not enough permissions").

Lemma filter_update_first {A : Type} (p q : A -> bool) (f : A -> A)
    (l : list A) (x : A) :
  scalar l p = Some x -> q x = false -> q (f x) = false ->
  filter q (update_first p f l) = filter q l.
Proof.
  unfold scalar. induction l as [|y l IH]; cbn [filter update_first hd_error];
    [discriminate|].
  destruct (p y) eqn:Ey; cbn [filter hd_error].
  - intros [= ->] Hx Hfx. now rewrite Hx, Hfx.
  - intros H Hx Hfx. now rewrite (IH H Hx Hfx).
Qed.

Lemma others_commit (key : Appointment.t -> Z) (k : Z) (db : Session)
    (appt_id : Z) (appt appt' : Appointment.t) :
  crud.get_appointment db appt_id = Some appt ->
  Appointment.id appt' = Appointment.id appt ->
  key appt = k -> key appt' = k ->
  others key k (crud.commit_appointment db appt') = others key k db.
Proof.
  intros Hget Hid Hk Hk'. unfold others, crud.commit_appointment. cbn [appointments
    with_appointments].
  destruct (get_appointment_id _ _ _ Hget) as [_ Hi].
  apply (filter_update_first
           (fun r => Appointment.id r =? Appointment.id appt')
           (fun a => negb (key a =? k)) (fun _ => appt') (appointments db) appt).
  - unfold crud.get_appointment in Hget. rewrite Hid, Hi. exact Hget.
  - rewrite Hk, Z.eqb_refl. reflexivity.
  - rewrite Hk', Z.eqb_refl. reflexivity.
Qed.

(** The update route either raises and leaves the session, or the caller
    was allowed to update the stored row and the row [crud] returns has
    been committed. *)
Lemma router_update_cases (db : Session) (appt_id : Z)
    (appt_in : AppointmentUpdate.t) (user : User.t) :
  (exists e, routers.update_appointment db appt_id appt_in user = (Raise e, db))
  \/ exists appt appt',
       crud.get_appointment db appt_id = Some appt
       /\ may_update user appt appt_in
       /\ crud.update_appointment db appt appt_in
          = Return (appt', crud.commit_appointment db appt')
       /\ routers.update_appointment db appt_id appt_in user
          = (Return appt', crud.commit_appointment db appt').
Proof.
  destruct (crud.get_appointment db appt_id) as [appt|] eqn:Hget.
  2:{ left. unfold routers.update_appointment. rewrite Hget. cbn [bind]. eauto. }
  assert (Hmay : may_update user appt appt_in
                 \/ exists e, routers.update_appointment db appt_id appt_in user
                              = (Raise e, db)).
  { unfold may_update, routers.update_appointment. rewrite Hget. cbn [bind].
    destruct (User.role user); cbn [UserRole_eqb bind].
    - destruct (User.patient_profile user) as [pid|]; cbn [routers.profile_id bind];
        [|right; eauto].
      destruct (Appointment.patient_id appt =? pid) eqn:Ep; cbn [negb bind];
        [|right; eauto].
      apply Z.eqb_eq in Ep. subst pid.
      destruct (truthy_str (AppointmentUpdate.status appt_in)) eqn:Et;
        cbn [andb]; [|left; right; right; auto].
      destruct (AppointmentUpdate.status appt_in) as [s|];
        cbn [routers.not_in existsb]; [|cbn in Et; discriminate].
      rewrite orb_false_r.
      destruct (str_eqb s (AppointmentStatus_value CANCELLED)) eqn:Es;
        cbn [negb bind]; [|right; eauto].
      apply str_eqb_eq in Es. subst s. left. right. right. auto.
    - destruct (User.doctor_profile user) as [did|]; cbn [routers.profile_id bind];
        [|right; eauto].
      destruct (Appointment.doctor_id appt =? did) eqn:Ed; cbn [negb bind];
        [|right; eauto].
      apply Z.eqb_eq in Ed. subst did. left. right. left. auto.
    - left. left. reflexivity. }
  destruct Hmay as [Hmay|He]; [|now left].
  rewrite (router_reaches_crud db appt_id appt appt_in user Hget Hmay).
  destruct (crud.update_appointment db appt appt_in) as [[appt' db']|e] eqn:Hup.
  - right. exists appt, appt'.
    destruct (crud_update_commits _ _ _ _ _ Hup) as [-> _]. auto.
  - left. destruct (is_ValueError e); eauto.
Qed.

(** X5. A patient account reaches no appointment but its own: the read route
    returns only appointments of the patient's own profile; the update
    route leaves every other patient's appointments as they were and
    returns an own appointment; the doctor-note route, the day schedule,
    reassignment and the availability routes turn the patient down and
    leave the session as it was. *)
Theorem patient_isolation (db : Session) (user : User.t) (p : Z) :
  User.role user = PATIENT ->
  User.patient_profile user = Some p ->
  (forall i a, routers2.get_appointment db i user = Return a ->
     Appointment.patient_id a = p)
  /\ (forall i appt_in,
        others Appointment.patient_id p
          (snd (routers.update_appointment db i appt_in user))
        = others Appointment.patient_id p db
        /\ forall a, fst (routers.update_appointment db i appt_in user) = Return a ->
             Appointment.patient_id a = p)
  /\ (forall i note,
        routers2.update_doctor_note db i note user = (Raise routers.not_found, db)
        \/ routers2.update_doctor_note db i note user = (Raise routers.forbidden, db))
  /\ (forall fromisoformat D date,
        routers2.doctor_schedule fromisoformat db D date user
        = Raise routers.forbidden)
  /\ (forall i D h,
        routers2.reassign_appointment db i D h user
        = (Raise not_enough_permissions, db))
  /\ (forall D data,
        routers2.add_availability db D data user
        = (Raise not_enough_permissions, db))
  /\ (forall D, routers2.list_availability db D user
                = Raise not_enough_permissions).
Proof.
  intros Hrole Hprof.
  split; [|split; [|split; [|split; [|split; [|split]]]]].
  - intros i a. unfold routers2.get_appointment. rewrite Hrole, Hprof.
    destruct (crud.get_appointment db i) as [appt|]; cbn; [|discriminate].
    destruct (Appointment.patient_id appt =? p) eqn:Ep; cbn; [|discriminate].
    intros [= <-]. now apply Z.eqb_eq.
  - intros i appt_in.
    destruct (router_update_cases db i appt_in user)
      as [[e ->]|(appt & appt' & Hget & Hmay & Hup & ->)]; cbn [fst snd].
    + split; [reflexivity|discriminate].
    + destruct (crud_update_keeps _ _ _ _ _ Hup) as (Hid & Hp & _).
      assert (Hown : Appointment.patient_id appt = p).
      { destruct Hmay as [H|[[H _]|(_ & H & _)]]; congruence. }
      split.
      * apply (others_commit _ _ _ i appt); congruence.
      * intros a [= <-]. congruence.
  - intros i note. unfold routers2.update_doctor_note. rewrite Hrole.
    destruct (crud.get_appointment db i); cbn; auto.
  - intros f D date. unfold routers2.doctor_schedule. rewrite Hrole. reflexivity.
  - intros i D h. unfold routers2.reassign_appointment, routers2.admin_required,
      deps.RoleChecker. rewrite Hrole. reflexivity.
  - intros D data. unfold routers2.add_availability, routers2.admin_required,
      deps.RoleChecker. rewrite Hrole. reflexivity.
  - intros D. unfold routers2.list_availability, routers2.admin_required,
      deps.RoleChecker. rewrite Hrole. reflexivity.
Qed.

(** Patient 7 of the clinic reads appointment 2 and may cancel it; the
    clinic holds no appointment of another patient. *)
Lemma patient_isolation_witness :
  User.role patient7 = PATIENT
  /\ User.patient_profile patient7 = Some 7
  /\ (forall i a, routers2.get_appointment clinic i patient7 = Return a ->
        Appointment.patient_id a = 7)
  /\ routers2.reassign_appointment clinic 2 2 None patient7
     = (Raise not_enough_permissions, clinic).
Proof.
  destruct (patient_isolation clinic patient7 7 eq_refl eq_refl)
    as (Hget & _ & _ & _ & Hre & _).
  split; [reflexivity|]. split; [reflexivity|]. split; [exact Hget|apply Hre].
Defined.

(** X6. A doctor account reaches no appointment but its own doctor's: the read
    route and the day schedule return only appointments of the doctor's
    own profile; the update route and the doctor-note route leave every
    other doctor's appointments as they were; a note that is accepted is
    stored on the appointment asked for; booking, reassignment and the
    availability routes turn the doctor down and leave the session. *)
Theorem doctor_isolation (db : Session) (user : User.t) (d : Z) :
  User.role user = DOCTOR ->
  User.doctor_profile user = Some d ->
  (forall i a, routers2.get_appointment db i user = Return a ->
     Appointment.doctor_id a = d)
  /\ (forall fromisoformat D date l,
        routers2.doctor_schedule fromisoformat db D date user = Return l ->
        D = d /\ forall a, In a l -> Appointment.doctor_id a = d)
  /\ (forall i appt_in,
        others Appointment.doctor_id d
          (snd (routers.update_appointment db i appt_in user))
        = others Appointment.doctor_id d db
        /\ forall a, fst (routers.update_appointment db i appt_in user) = Return a ->
             Appointment.doctor_id a = d)
  /\ (forall i note,
        others Appointment.doctor_id d
          (snd (routers2.update_doctor_note db i note user))
        = others Appointment.doctor_id d db
        /\ forall a, fst (routers2.update_doctor_note db i note user) = Return a ->
             Appointment.doctor_id a = d
             /\ Appointment.notes a = Some note
             /\ crud.get_appointment
                  (snd (routers2.update_doctor_note db i note user)) i = Some a)
  /\ (forall now appt_in,
        routers2.create_appointment now db appt_in user
        = (Raise not_enough_permissions, db))
  /\ (forall i D h,
        routers2.reassign_appointment db i D h user
        = (Raise not_enough_permissions, db))
  /\ (forall D data,
        routers2.add_availability db D data user
        = (Raise not_enough_permissions, db)).
Proof.
  intros Hrole Hprof.
  split; [|split; [|split; [|split; [|split; [|split]]]]].
  - intros i a. unfold routers2.get_appointment. rewrite Hrole, Hprof.
    destruct (crud.get_appointment db i) as [appt|]; cbn; [|discriminate].
    destruct (Appointment.doctor_id appt =? d) eqn:Ed; cbn; [|discriminate].
    intros [= <-]. now apply Z.eqb_eq.
  - intros f D date l. unfold routers2.doctor_schedule. rewrite Hrole, Hprof.
    cbn [UserRole_eqb routers.profile_id bind existsb orb negb].
    destruct (d =? D) eqn:Ed; cbn [negb bind]; [|discriminate].
    apply Z.eqb_eq in Ed. subst D.
    destruct (f date) as [date_obj|e]; cbn [bind].
    + intros [= <-]. split; [reflexivity|]. intros a Ha.
      now apply (day_listing db d date_obj) in Ha.
    + destruct (is_ValueError e); discriminate.
  - intros i appt_in.
    destruct (router_update_cases db i appt_in user)
      as [[e ->]|(appt & appt' & Hget & Hmay & Hup & ->)]; cbn [fst snd].
    + split; [reflexivity|discriminate].
    + destruct (crud_update_keeps _ _ _ _ _ Hup) as (Hid & _ & Hd & _).
      assert (Hown : Appointment.doctor_id appt = d).
      { destruct Hmay as [H|[[_ H]|(H & _)]]; congruence. }
      split.
      * apply (others_commit _ _ _ i appt); congruence.
      * intros a [= <-]. congruence.
  - intros i note. unfold routers2.update_doctor_note. rewrite Hrole, Hprof.
    destruct (crud.get_appointment db i) as [appt|] eqn:Hget;
      cbn [UserRole_eqb negb routers.profile_id bind fst snd];
      [|split; [reflexivity|discriminate]].
    destruct (d =? Appointment.doctor_id appt) eqn:Ed; cbn [negb fst snd];
      [|split; [reflexivity|discriminate]].
    apply Z.eqb_eq in Ed.
    split.
    + apply (others_commit _ _ _ i appt); auto.
    + intros a [= <-]. split; [auto|]. split; [reflexivity|].
      now apply (get_after_commit db i appt).
  - intros now appt_in. unfold routers2.create_appointment, deps.RoleChecker.
    rewrite Hrole. reflexivity.
  - intros i D h. unfold routers2.reassign_appointment, routers2.admin_required,
      deps.RoleChecker. rewrite Hrole. reflexivity.
  - intros D data. unfold routers2.add_availability, routers2.admin_required,
      deps.RoleChecker. rewrite Hrole. reflexivity.
Qed.

(** Doctor 1 of the clinic writes a note on appointment 2. *)
Lemma doctor_isolation_witness :
  User.role doctor1 = DOCTOR
  /\ User.doctor_profile doctor1 = Some 1
  /\ exists a,
       fst (routers2.update_doctor_note clinic 2 (lit "rest") doctor1) = Return a
       /\ Appointment.doctor_id a = 1
       /\ Appointment.notes a = Some (lit "rest").
Proof.
  destruct (doctor_isolation clinic doctor1 1 eq_refl eq_refl)
    as (_ & _ & _ & Hnote & _).
  split; [reflexivity|]. split; [reflexivity|].
  destruct (Hnote 2 (lit "rest")) as [_ H].
  eexists. split; [reflexivity|].
  destruct (H _ eq_refl) as (Hd & Hn & _). split; [exact Hd|exact Hn].
Defined.

(* ------------------------------------------------------------------ *)
(** ** What a booking request gets back *)

Lemma slot_scan_new (db : Session) (key : Appointment.t -> Z) (k : Z)
    (T : datetime.t) :
  truthy_row
    (scalar (appointments db)
       (fun a =>
          (key a =? k)
          && (T - datetime.timedelta_minutes 29 <=? Appointment.scheduled_time a)
          && (Appointment.scheduled_time a <=? T + datetime.timedelta_minutes 29)))
  = true
  <-> exists a, In a (appointments db) /\ key a = k
        /\ None <> Some (Appointment.id a) /\ in_slot T a.
Proof.
  rewrite truthy_scalar. unfold in_slot. split.
  - intros (a & Hin & Ha). rewrite !andb_true_iff, Z.eqb_eq, !Z.leb_le in Ha.
    exists a. split; [assumption|]. split; [tauto|]. split; [discriminate|tauto].
  - intros (a & Hin & Hk & _ & Hs). exists a. split; [assumption|].
    rewrite !andb_true_iff, Z.eqb_eq, !Z.leb_le. tauto.
Qed.

(** The validator on a new booking (nothing excluded), case by case. *)
Lemma validate_new_cases (db : Session) (D P : Z) (T : datetime.t) :
  let v := crud._validate_appointment_slot db D P T None in
  (~ available db D T /\ v = Raise crud.doctor_unavailable)
  \/ (available db D T /\ ~ slot_in_range T /\ v = Raise OverflowError)
  \/ (available db D T /\ slot_in_range T /\ doctor_conflict db D T None
      /\ v = Raise crud.doctor_slot_conflict)
  \/ (available db D T /\ slot_in_range T /\ ~ doctor_conflict db D T None
      /\ patient_conflict db P T None
      /\ v = Raise crud.patient_slot_conflict)
  \/ (available db D T /\ slot_in_range T /\ ~ doctor_conflict db D T None
      /\ ~ patient_conflict db P T None /\ v = Return tt).
Proof.
  intros v. subst v. unfold crud._validate_appointment_slot. cbv zeta.
  pose proof (available_existsb db D T) as Ha.
  pose proof (slot_scan_new db Appointment.doctor_id D T) as Hd.
  pose proof (slot_scan_new db Appointment.patient_id P T) as Hp.
  fold (doctor_conflict db D T None) in Hd.
  fold (patient_conflict db P T None) in Hp.
  destruct (existsb _ _) eqn:Ea; cbn [negb].
  - assert (Hav : available db D T) by now apply Ha.
    destruct (slot_window T) as [(Hr & -> & ->)|(Hr & [-> | [-> ->]])];
      cbn [bind truthy_int]; [|right; left; auto..].
    match goal with
    | |- context [if ?c then Raise crud.doctor_slot_conflict else _] =>
        destruct c eqn:Ed
    end.
    + right; right; left. split; [assumption|]. split; [assumption|].
      split; [now apply Hd|reflexivity].
    + assert (Hnd : ~ doctor_conflict db D T None).
      { intros Hc. apply Hd in Hc. discriminate. }
      match goal with
      | |- context [if ?c then Raise crud.patient_slot_conflict else _] =>
          destruct c eqn:Ep
      end.
      * right; right; right; left. split; [assumption|]. split; [assumption|].
        split; [assumption|]. split; [now apply Hp|reflexivity].
      * right; right; right; right. split; [assumption|]. split; [assumption|].
        split; [assumption|].
        split; [|reflexivity]. intros Hc. apply Hp in Hc. discriminate.
  - left. split; [|reflexivity]. intros Hav. apply Ha in Hav. discriminate.
Qed.

(** X7. Every answer of the booking route, in the order the code decides it.
    A caller who is no patient gets 403; a patient account without a
    profile gets 400 "Not a patient"; a time outside the doctor's windows
    gets 400 "Doctor not available at this time"; a time whose slot
    (29 minutes before and after) does not lie in the datetime range
    fails with OverflowError, which the route does not catch; a time within
    29 minutes of another appointment of the doctor, then of the patient,
    gets the 400 of that conflict; every other request is stored.  Every
    answer but the last leaves the session as it was. *)
Theorem booking_outcome (now : datetime.t) (db : Session)
    (appt_in : AppointmentCreate.t) (user : User.t) :
  let out := routers2.create_appointment now db appt_in user in
  let D := AppointmentCreate.doctor_id appt_in in
  let T := AppointmentCreate.scheduled_time appt_in in
  (User.role user <> PATIENT /\ out = (Raise not_enough_permissions, db))
  \/ (User.role user = PATIENT /\ User.patient_profile user = None
      /\ out = (Raise (HTTPException 400 (Text "Not a patient")), db))
  \/ exists p,
       User.role user = PATIENT /\ User.patient_profile user = Some p
       /\ ((~ available db D T
            /\ out = (Raise (HTTPException 400
                               (Text "Doctor not available at this time")), db))
           \/ (available db D T /\ ~ slot_in_range T
               /\ out = (Raise OverflowError, db))
           \/ (available db D T /\ slot_in_range T
               /\ doctor_conflict db D T None
               /\ out = (Raise (HTTPException 400
                                  (Text "Doctor has another appointment in that slot")),
                         db))
           \/ (available db D T /\ slot_in_range T
               /\ ~ doctor_conflict db D T None
               /\ patient_conflict db p T None
               /\ out = (Raise (HTTPException 400
                                  (Text "Patient has another appointment in that slot")),
                         db))
           \/ (available db D T /\ slot_in_range T
               /\ ~ doctor_conflict db D T None
               /\ ~ patient_conflict db p T None
               /\ exists appt,
                    out = (Return appt,
                           with_appointments db (appointments db ++ [appt])))).
Proof.
  intros out D T. subst out. unfold routers2.create_appointment, deps.RoleChecker.
  destruct (User.role user) eqn:Hrole; cbn [UserRole_eqb existsb orb negb bind];
    [|left; split; [discriminate|reflexivity]..].
  right. destruct (User.patient_profile user) as [p|]; [|left; auto].
  right. exists p. split; [reflexivity|]. split; [reflexivity|].
  unfold crud.create_appointment.
  destruct (validate_new_cases db D p T)
    as [[Ha H]|[(Ha & Hr & H)|[(Ha & Hr & Hd & H)|[(Ha & Hr & Hd & Hp & H)
       |(Ha & Hr & Hd & Hp & H)]]]];
    fold D T; rewrite H; cbn.
  - left. auto.
  - right; left. auto.
  - right; right; left. auto.
  - right; right; right; left. auto.
  - right; right; right; right. eauto 10.
Qed.

(* ------------------------------------------------------------------ *)
(** ** What an update changes *)

Lemma get_commit_other (db : Session) (appt' : Appointment.t) (j : Z) :
  j <> Appointment.id appt' ->
  crud.get_appointment (crud.commit_appointment db appt') j
  = crud.get_appointment db j.
Proof.
  intros Hne. unfold crud.get_appointment, crud.commit_appointment, scalar.
  cbn [appointments with_appointments]. f_equal.
  induction (appointments db) as [|y l IH]; cbn [update_first filter]; [reflexivity|].
  destruct (Appointment.id y =? Appointment.id appt') eqn:Ey; cbn [filter].
  - apply Z.eqb_eq in Ey.
    destruct (Z.eqb_spec (Appointment.id appt') j) as [E|_]; [congruence|].
    destruct (Z.eqb_spec (Appointment.id y) j) as [E|_]; [congruence|reflexivity].
  - now rewrite IH.
Qed.

Lemma update_first_length {A : Type} (p : A -> bool) (f : A -> A) (l : list A) :
  List.length (update_first p f l) = List.length l.
Proof.
  induction l as [|y l IH]; cbn [update_first]; [reflexivity|].
  destruct (p y); cbn [List.length]; congruence.
Qed.

(** X8. An accepted update rewrites one row and nothing else.  The row keeps
    its id, patient, doctor, hospital and creation time; its time, status
    and notes are the request's where the request gives them and the old
    ones where it does not.  The row is found under its id afterwards,
    every other id gives what it gave before, the table keeps its length
    and the other tables are untouched. *)
Theorem update_rewrites_one_row (db : Session) (i : Z)
    (appt_in : AppointmentUpdate.t) (user : User.t) (a' : Appointment.t)
    (db' : Session) :
  routers.update_appointment db i appt_in user = (Return a', db') ->
  exists a,
    crud.get_appointment db i = Some a
    /\ Appointment.id a' = i
    /\ Appointment.patient_id a' = Appointment.patient_id a
    /\ Appointment.doctor_id a' = Appointment.doctor_id a
    /\ Appointment.hospital_id a' = Appointment.hospital_id a
    /\ Appointment.created_at a' = Appointment.created_at a
    /\ Appointment.scheduled_time a'
       = match AppointmentUpdate.scheduled_time appt_in with
         | Some t => t
         | None => Appointment.scheduled_time a
         end
    /\ match AppointmentUpdate.status appt_in with
       | Some s => AppointmentStatus_value (Appointment.status a') = s
       | None => Appointment.status a' = Appointment.status a
       end
    /\ Appointment.notes a'
       = match AppointmentUpdate.notes appt_in with
         | Some n => Some n
         | None => Appointment.notes a
         end
    /\ crud.get_appointment db' i = Some a'
    /\ (forall j, j <> i ->
          crud.get_appointment db' j = crud.get_appointment db j)
    /\ List.length (appointments db') = List.length (appointments db)
    /\ users db' = users db
    /\ doctor_availabilities db' = doctor_availabilities db
    /\ refresh_tokens db' = refresh_tokens db.
Proof.
  intros Hout.
  destruct (router_update_cases db i appt_in user)
    as [[e He]|(a & a1 & Hget & _ & Hup & He)];
    rewrite He in Hout; [discriminate|].
  injection Hout as <- <-. exists a.
  destruct (get_appointment_id _ _ _ Hget) as [_ Hi].
  destruct (crud_update_keeps _ _ _ _ _ Hup) as (Hid & Hp & Hd & Hh & Hc & _).
  split; [assumption|]. split; [congruence|].
  do 4 (split; [assumption|]).
  assert (Hfields :
    Appointment.scheduled_time a1
    = match AppointmentUpdate.scheduled_time appt_in with
      | Some t => t
      | None => Appointment.scheduled_time a
      end
    /\ match AppointmentUpdate.status appt_in with
       | Some s => AppointmentStatus_value (Appointment.status a1) = s
       | None => Appointment.status a1 = Appointment.status a
       end
    /\ Appointment.notes a1
       = match AppointmentUpdate.notes appt_in with
         | Some n => Some n
         | None => Appointment.notes a
         end).
  { clear He Hid Hp Hd Hh Hc. revert Hup. unfold crud.update_appointment.
    destruct (AppointmentUpdate.scheduled_time appt_in) as [t|]; cbn [bind].
    - destruct (crud._validate_appointment_slot _ _ _ _ _) as [[]|e];
        cbn [bind]; [|discriminate].
      destruct (AppointmentUpdate.status appt_in) as [s|]; cbn [bind].
      + unfold AppointmentStatus_call.
        repeat match goal with
               | |- context [str_eqb s ?v] =>
                   destruct (str_eqb s v) eqn:?; cbn [bind]
               end; try discriminate;
          intros [= <- _]; destruct (AppointmentUpdate.notes appt_in); cbn;
          (split; [reflexivity|]); (split; [|reflexivity]);
          symmetry; now apply str_eqb_eq.
      + intros [= <- _]. destruct (AppointmentUpdate.notes appt_in); cbn; auto.
    - destruct (AppointmentUpdate.status appt_in) as [s|]; cbn [bind].
      + unfold AppointmentStatus_call.
        repeat match goal with
               | |- context [str_eqb s ?v] =>
                   destruct (str_eqb s v) eqn:?; cbn [bind]
               end; try discriminate;
          intros [= <- _]; destruct (AppointmentUpdate.notes appt_in); cbn;
          (split; [reflexivity|]); (split; [|reflexivity]);
          symmetry; now apply str_eqb_eq.
      + intros [= <- _]. destruct (AppointmentUpdate.notes appt_in); cbn; auto. }
  destruct Hfields as (Ht & Hs & Hn).
  do 3 (split; [assumption|]).
  split; [now apply (get_after_commit db i a)|].
  split; [intros j Hj; apply get_commit_other; congruence|].
  split; [apply update_first_length|]. auto.
Qed.

(** Patient 7 moves appointment 2 of the clinic from 11:00 to 15:00. *)
Lemma update_rewrites_one_row_witness :
  exists a' db',
    routers.update_appointment clinic 2
      (AppointmentUpdate.mk (Some (datetime.at_ monday 15 0)) None None) patient7
    = (Return a', db')
    /\ Appointment.scheduled_time a' = datetime.at_ monday 15 0
    /\ crud.get_appointment db' 2 = Some a'
    /\ crud.get_appointment db' 1 = crud.get_appointment clinic 1.
Proof.
  eexists. eexists. split; [vm_compute; reflexivity|].
  destruct (update_rewrites_one_row clinic 2
              (AppointmentUpdate.mk (Some (datetime.at_ monday 15 0)) None None)
              patient7 _ _ eq_refl)
    as (a & _ & _ & _ & _ & _ & _ & Ht & _ & _ & Hg & Ho & _).
  split; [exact Ht|]. split; [exact Hg|]. apply Ho. discriminate.
Defined.

(* ------------------------------------------------------------------ *)
(** ** Reassignment and notes *)

Lemma update_first_In_other {A : Type} (p : A -> bool) (f : A -> A)
    (l : list A) (b : A) :
  In b l -> p b = false -> In b (update_first p f l).
Proof.
  induction l as [|y l IH]; cbn [update_first]; [contradiction|].
  intros [->|Hin] Hb.
  - rewrite Hb. now left.
  - destruct (p y); right; auto.
Qed.

(** X9. Reassignment runs no check of the slot.  An admin who gives
    appointment [i] to the doctor of another appointment [b] gets it
    through although [b] lies within 29 minutes of it: the row changes its
    doctor and nothing else, and the doctor then has two appointments in
    one slot. *)
Theorem reassign_is_unchecked (db : Session) (user : User.t) (i : Z)
    (a b : Appointment.t) :
  User.role user = ADMIN ->
  crud.get_appointment db i = Some a ->
  In b (appointments db) ->
  Appointment.id b <> i ->
  in_slot (Appointment.scheduled_time a) b ->
  let a' := set_doctor_id a (Appointment.doctor_id b) in
  let db' := crud.commit_appointment db a' in
  routers2.reassign_appointment db i (Appointment.doctor_id b) None user
  = (Return a', db')
  /\ crud.get_appointment db' i = Some a'
  /\ In b (appointments db')
  /\ ~ slots_free Appointment.doctor_id db'.
Proof.
  intros Hrole Hget Hb Hne Hslot a' db'.
  destruct (get_appointment_id _ _ _ Hget) as [Hin Hi].
  assert (Hg' : crud.get_appointment db' i = Some a')
    by now apply (get_after_commit db i a).
  assert (Hb' : In b (appointments db')).
  { unfold db', crud.commit_appointment. cbn [appointments with_appointments].
    apply update_first_In_other; [assumption|].
    apply Z.eqb_neq. cbn. congruence. }
  split.
  { unfold routers2.reassign_appointment, routers2.admin_required,
      deps.RoleChecker. rewrite Hrole, Hget. reflexivity. }
  split; [assumption|]. split; [assumption|].
  intros Hfree. destruct (get_appointment_id _ _ _ Hg') as [Hin' Hi'].
  apply (Hfree a' b Hin' Hb'); [congruence|reflexivity|exact Hslot].
Qed.

Definition admin13 : User.t := User.mk 13 ADMIN None None.

(** The clinic with a third appointment: patient 8 sees doctor 2 at 11:10. *)
Definition two_doctors : Session :=
  with_appointments clinic
    (appointments clinic
     ++ [Appointment.mk 3 8 2 None (datetime.at_ monday 11 10) PENDING None 5]).

(** Appointment 3 (doctor 2, 11:10) goes to doctor 1, who has appointment 2
    at 11:00. *)
Lemma reassign_is_unchecked_witness :
  exists a',
    routers2.reassign_appointment two_doctors 3 1 None admin13
    = (Return a', crud.commit_appointment two_doctors a')
    /\ Appointment.doctor_id a' = 1
    /\ ~ slots_free Appointment.doctor_id (crud.commit_appointment two_doctors a').
Proof.
  pose (a := Appointment.mk 3 8 2 None (datetime.at_ monday 11 10) PENDING None 5).
  pose (b := Appointment.mk 2 7 1 None (datetime.at_ monday 11 0) PENDING None 0).
  assert (Hb : In b (appointments two_doctors)) by (right; left; reflexivity).
  assert (Hne : Appointment.id b <> 3) by discriminate.
  assert (Hs : in_slot (Appointment.scheduled_time a) b)
    by (vm_compute; split; discriminate).
  destruct (reassign_is_unchecked two_doctors admin13 3 a b eq_refl eq_refl
              Hb Hne Hs) as (Hr & _ & _ & Hn).
  exists (set_doctor_id a 1). split; [exact Hr|]. split; [reflexivity|exact Hn].
Defined.

(** X10. The notes of an appointment are not the doctor's alone.  After a doctor
    has written a note through the doctor-note route, the patient of the
    appointment can replace it through the update route: the request is
    accepted and the row then carries the patient's text. *)
Theorem patient_rewrites_doctor_note (db : Session) (doctor patient : User.t)
    (i : Z) (note text : str) (a1 : Appointment.t) (db1 : Session) :
  routers2.update_doctor_note db i note doctor = (Return a1, db1) ->
  User.role patient = PATIENT ->
  User.patient_profile patient = Some (Appointment.patient_id a1) ->
  Appointment.notes a1 = Some note
  /\ crud.get_appointment db1 i = Some a1
  /\ routers.update_appointment db1 i
       (AppointmentUpdate.mk None None (Some text)) patient
     = (Return (set_notes a1 (Some text)),
        crud.commit_appointment db1 (set_notes a1 (Some text)))
  /\ crud.get_appointment
       (crud.commit_appointment db1 (set_notes a1 (Some text))) i
     = Some (set_notes a1 (Some text)).
Proof.
  intros Hnote Hrole Hprof.
  assert (H1 : Appointment.notes a1 = Some note
               /\ crud.get_appointment db1 i = Some a1).
  { revert Hnote. unfold routers2.update_doctor_note.
    destruct (crud.get_appointment db i) as [a|] eqn:Hget; [|discriminate].
    match goal with
    | |- context [match ?c with Return _ => _ | Raise _ => _ end] =>
        destruct c as [[|]|e]; try discriminate
    end.
    intros [= <- <-]. split; [reflexivity|].
    now apply (get_after_commit db i a). }
  destruct H1 as [Hn Hg1]. split; [assumption|]. split; [assumption|].
  split.
  - rewrite (router_reaches_crud db1 i a1 _ patient Hg1).
    + reflexivity.
    + right; right. split; [assumption|]. split; [assumption|]. left. reflexivity.
  - now apply (get_after_commit db1 i a1).
Qed.

(** Doctor 1 notes "rest" on appointment 2 of the clinic; patient 7 then
    writes "fine" over it. *)
Lemma patient_rewrites_doctor_note_witness :
  exists a1 db1 a2 db2,
    routers2.update_doctor_note clinic 2 (lit "rest") doctor1 = (Return a1, db1)
    /\ Appointment.notes a1 = Some (lit "rest")
    /\ routers.update_appointment db1 2
         (AppointmentUpdate.mk None None (Some (lit "fine"))) patient7
       = (Return a2, db2)
    /\ Appointment.notes a2 = Some (lit "fine").
Proof.
  eexists. eexists. eexists. eexists.
  split; [vm_compute; reflexivity|].
  refine (let H := patient_rewrites_doctor_note clinic doctor1 patient7 2
                     (lit "rest") (lit "fine") _ _ eq_refl eq_refl eq_refl in _).
  destruct H as (Hn & _ & Hu & _).
  split; [exact Hn|]. split; [exact Hu|reflexivity].
Defined.

(* ------------------------------------------------------------------ *)
(** ** Availability windows *)

Lemma str_leb_ltb_trans (s t e : str) :
  str_leb s t = true -> str_ltb t e = true -> str_ltb s e = true.
Proof.
  unfold str_leb. rewrite negb_true_iff. revert t e.
  induction s as [|x s IH]; intros [|y t] [|z e]; cbn [str_ltb];
    try discriminate; try reflexivity.
  destruct (Z.ltb_spec y x), (Z.ltb_spec x y), (Z.ltb_spec y z),
    (Z.ltb_spec z y), (Z.ltb_spec x z), (Z.ltb_spec z x);
    try discriminate; try reflexivity; try lia.
  apply IH.
Qed.

(** The validator reads the availability table only through the window
    test, and otherwise the appointments. *)
Lemma validate_depends (db1 db2 : Session) (D P : Z) (T : datetime.t)
    (exclude_id : option Z) :
  appointments db1 = appointments db2 ->
  existsb (crud.window_matches (datetime.strftime_HM T))
    (scalars (doctor_availabilities db1)
       (fun a => (DoctorAvailability.doctor_id a =? D)
                 && (DoctorAvailability.day_of_week a =? datetime.weekday T)))
  = existsb (crud.window_matches (datetime.strftime_HM T))
      (scalars (doctor_availabilities db2)
         (fun a => (DoctorAvailability.doctor_id a =? D)
                   && (DoctorAvailability.day_of_week a =? datetime.weekday T))) ->
  crud._validate_appointment_slot db1 D P T exclude_id
  = crud._validate_appointment_slot db2 D P T exclude_id.
Proof.
  intros Ha He. unfold crud._validate_appointment_slot. cbv zeta.
  now rewrite Ha, He.
Qed.

Lemma weekday_range (T : datetime.t) : 0 <= datetime.weekday T < 7.
Proof. unfold datetime.weekday. apply Z.mod_pos_bound. lia. Qed.

(** X11. What a new availability window does.  The route stores the row for
    admins only and only when the path's doctor is the body's; the row is
    the last of that doctor's list and no other doctor's list changes.  The
    doctor is then available at the times the row admits besides the old
    ones, so a request the validator accepted before it still accepts.  The
    row is stored unchecked: with a day of the week outside 0..6, or an
    end that is not after its start, it changes no answer of the
    validator. *)
Theorem new_window (db : Session) (user : User.t) (D : Z)
    (data : DoctorAvailabilityCreate.t) (av : DoctorAvailability.t)
    (db' : Session) :
  routers2.add_availability db D data user = (Return av, db') ->
  User.role user = ADMIN
  /\ DoctorAvailabilityCreate.doctor_id data = D
  /\ av = DoctorAvailability.mk
            (next_id (map DoctorAvailability.id (doctor_availabilities db))) D
            (DoctorAvailabilityCreate.day_of_week data)
            (DoctorAvailabilityCreate.start_time data)
            (DoctorAvailabilityCreate.end_time data)
  /\ crud2.list_doctor_availability db' D
     = crud2.list_doctor_availability db D ++ [av]
  /\ (forall D', D' <> D ->
        crud2.list_doctor_availability db' D'
        = crud2.list_doctor_availability db D')
  /\ appointments db' = appointments db
  /\ (forall D' T,
        available db' D' T <->
        available db D' T
        \/ (D' = D
            /\ datetime.weekday T = DoctorAvailabilityCreate.day_of_week data
            /\ str_leb (DoctorAvailabilityCreate.start_time data)
                 (datetime.strftime_HM T) = true
            /\ str_ltb (datetime.strftime_HM T)
                 (DoctorAvailabilityCreate.end_time data) = true))
  /\ (forall D' P T x,
        crud._validate_appointment_slot db D' P T x = Return tt ->
        crud._validate_appointment_slot db' D' P T x = Return tt)
  /\ (DoctorAvailabilityCreate.day_of_week data < 0
      \/ 6 < DoctorAvailabilityCreate.day_of_week data
      \/ str_leb (DoctorAvailabilityCreate.end_time data)
           (DoctorAvailabilityCreate.start_time data) = true ->
      forall D' P T x,
        crud._validate_appointment_slot db' D' P T x
        = crud._validate_appointment_slot db D' P T x).
Proof.
  unfold routers2.add_availability, routers2.admin_required, deps.RoleChecker.
  destruct (User.role user) eqn:Hrole; cbn [UserRole_eqb existsb orb negb];
    try discriminate.
  destruct (Z.eqb_spec D (DoctorAvailabilityCreate.doctor_id data)) as [HD|_];
    cbn [negb]; [|discriminate].
  unfold crud2.add_doctor_availability. rewrite <- HD. intros [= <- <-].
  set (av := DoctorAvailability.mk _ D _ _ _).
  assert (Hav : forall D' T,
            available (crud2.with_doctor_availabilities db
                         (doctor_availabilities db ++ [av])) D' T <->
            available db D' T
            \/ (D' = D
                /\ datetime.weekday T = DoctorAvailabilityCreate.day_of_week data
                /\ str_leb (DoctorAvailabilityCreate.start_time data)
                     (datetime.strftime_HM T) = true
                /\ str_ltb (datetime.strftime_HM T)
                     (DoctorAvailabilityCreate.end_time data) = true)).
  { intros D' T. unfold available, window_of.
    cbn [doctor_availabilities crud2.with_doctor_availabilities]. split.
    - intros (a & (Hin & Hd & Hw) & Hs & He).
      apply in_app_or in Hin as [Hin|[<-|[]]].
      + left. exists a. auto.
      + right. cbn in Hd, Hw, Hs, He. auto.
    - intros [(a & (Hin & Hd & Hw) & Hs & He)|(-> & Hw & Hs & He)].
      + exists a. split; [|auto]. split; [apply in_or_app; now left|auto].
      + exists av. split; [|auto]. split; [apply in_or_app; right; now left|].
        cbn. auto. }
  assert (Hex : forall D' T,
            existsb (crud.window_matches (datetime.strftime_HM T))
              (scalars (doctor_availabilities db)
                 (fun a => (DoctorAvailability.doctor_id a =? D')
                           && (DoctorAvailability.day_of_week a
                               =? datetime.weekday T))) = true ->
            existsb (crud.window_matches (datetime.strftime_HM T))
              (scalars (doctor_availabilities db ++ [av])
                 (fun a => (DoctorAvailability.doctor_id a =? D')
                           && (DoctorAvailability.day_of_week a
                               =? datetime.weekday T))) = true).
  { intros D' T H. unfold scalars in *. rewrite filter_app, existsb_app, H.
    reflexivity. }
  split; [reflexivity|]. split; [reflexivity|]. split; [reflexivity|].
  split.
  { unfold crud2.list_doctor_availability, scalars.
    cbn [doctor_availabilities crud2.with_doctor_availabilities].
    rewrite filter_app. cbn [filter av DoctorAvailability.doctor_id].
    now rewrite Z.eqb_refl. }
  split.
  { intros D' HD'. unfold crud2.list_doctor_availability, scalars.
    cbn [doctor_availabilities crud2.with_doctor_availabilities].
    rewrite filter_app. cbn [filter av DoctorAvailability.doctor_id].
    destruct (Z.eqb_spec D D'); [congruence|]. apply app_nil_r. }
  split; [reflexivity|]. split; [exact Hav|]. split.
  { intros D' P T x Hv.
    rewrite <- Hv. apply validate_depends; [reflexivity|].
    cbn [doctor_availabilities crud2.with_doctor_availabilities].
    destruct (existsb _ (scalars (doctor_availabilities db) _)) eqn:Ee.
    - now apply Hex.
    - exfalso. revert Hv. unfold crud._validate_appointment_slot. cbv zeta.
      rewrite Ee. discriminate. }
  intros Hbad D' P T x. apply validate_depends; [reflexivity|].
  cbn [doctor_availabilities crud2.with_doctor_availabilities].
  unfold scalars. rewrite filter_app, existsb_app.
  match goal with |- (?l || ?r)%bool = _ => assert (Hr : r = false) end.
  { cbn [filter av DoctorAvailability.doctor_id DoctorAvailability.day_of_week].
    destruct ((D =? D') && (_ =? _)) eqn:Es; [|reflexivity].
    cbn [existsb]. rewrite orb_false_r.
    apply andb_true_iff in Es as [_ Ew]. apply Z.eqb_eq in Ew.
    pose proof (weekday_range T) as Hr.
    destruct Hbad as [H|[H|H]]; [lia|lia|].
    unfold crud.window_matches, av.
    cbn [DoctorAvailability.start_time DoctorAvailability.end_time].
    destruct (str_leb _ (datetime.strftime_HM T)) eqn:Hs; [|reflexivity].
    destruct (str_ltb (datetime.strftime_HM T) _) eqn:He; [|reflexivity].
    pose proof (str_leb_ltb_trans _ _ _ Hs He) as Hlt.
    unfold str_leb in H. rewrite Hlt in H. discriminate. }
  rewrite Hr. apply orb_false_r.
Qed.

Definition admin_window (day : Z) (s e : string) : DoctorAvailabilityCreate.t :=
  DoctorAvailabilityCreate.mk 2 day (lit s) (lit e).

(** Doctor 2 of the clinic gets Tuesday 08:00 to 12:00 and can then be
    booked on a Tuesday at 09:00. *)
Lemma new_window_witness :
  exists av db',
    routers2.add_availability clinic 2 (admin_window 1 "08:00" "12:00") admin13
    = (Return av, db')
    /\ crud2.list_doctor_availability db' 2 = [av]
    /\ available db' 2 (datetime.at_ (monday + 1) 9 0).
Proof.
  eexists. eexists. split; [vm_compute; reflexivity|].
  destruct (new_window clinic admin13 2 (admin_window 1 "08:00" "12:00") _ _
              eq_refl) as (_ & _ & _ & Hl & _ & _ & Ha & _).
  split; [exact Hl|]. apply Ha. right. vm_compute. auto.
Defined.

(* ------------------------------------------------------------------ *)
(** ** Refresh tokens: issue, revoke, rotate *)

Lemma scalar_app_miss {A : Type} (p : A -> bool) (l : list A) (x : A) :
  p x = false -> scalar (l ++ [x]) p = scalar l p.
Proof.
  intros Hx. unfold scalar. rewrite filter_app. cbn [filter]. rewrite Hx.
  now rewrite app_nil_r.
Qed.

Lemma str_eqb_refl (s : str) : str_eqb s s = true.
Proof. now apply str_eqb_eq. Qed.

Lemma str_eqb_false (a b : str) : a <> b -> str_eqb a b = false.
Proof.
  intros Hne. destruct (str_eqb a b) eqn:E; [|reflexivity].
  apply str_eqb_eq in E. contradiction.
Qed.

(** Validation after a record has been stored. *)
Lemma validate_after_create (now : datetime.t) (db : Session) (uid : Z)
    (jti : str) (exp : datetime.t) (rec : RefreshToken.t) (db' : Session) :
  crud.create_refresh_token_record now db uid jti exp = Return (rec, db') ->
  (forall now' u,
     crud.validate_refresh_token now' db' jti u = (u =? uid) && (now' <=? exp))
  /\ (forall now' j u, j <> jti ->
        crud.validate_refresh_token now' db' j u
        = crud.validate_refresh_token now' db j u).
Proof.
  unfold crud.create_refresh_token_record.
  destruct (existsb _ _) eqn:Ex; [discriminate|]. intros [= <- <-].
  assert (Hfresh : forall a, In a (refresh_tokens db) ->
            str_eqb (RefreshToken.jti a) jti = false).
  { intros a Ha. destruct (str_eqb (RefreshToken.jti a) jti) eqn:E; [|reflexivity].
    assert (Ht : existsb (fun r => str_eqb (RefreshToken.jti r) jti)
                   (refresh_tokens db) = true)
      by (apply existsb_exists; eauto).
    rewrite Ht in Ex. discriminate. }
  split.
  - intros now' u. unfold crud.validate_refresh_token. cbv zeta.
    cbn [refresh_tokens with_refresh_tokens].
    destruct (Z.eqb_spec u uid) as [->|Hne].
    + rewrite (scalar_app_last _ (refresh_tokens db) _).
      * cbn [RefreshToken.revoked RefreshToken.expires_at orb andb].
        destruct (Z.ltb_spec exp now'), (Z.leb_spec now' exp); try reflexivity; lia.
      * intros a Ha. now rewrite (Hfresh a Ha).
      * cbn. now rewrite str_eqb_refl, Z.eqb_refl.
    + rewrite scalar_app_miss.
      * replace (scalar (refresh_tokens db) _) with (@None RefreshToken.t);
          [reflexivity|].
        symmetry. apply scalar_None. intros a Ha. now rewrite (Hfresh a Ha).
      * cbn. rewrite str_eqb_refl. cbn. apply Z.eqb_neq. congruence.
  - intros now' j u Hj. unfold crud.validate_refresh_token. cbv zeta.
    cbn [refresh_tokens with_refresh_tokens].
    rewrite scalar_app_miss; [reflexivity|].
    cbn. rewrite (str_eqb_false jti j) by congruence. reflexivity.
Qed.

(** Validation after a revocation. *)
Lemma validate_after_revoke (db db1 : Session) (jti : str) :
  unique_jti db ->
  crud.revoke_refresh_token db jti = Return db1 ->
  (forall now' u, crud.validate_refresh_token now' db1 jti u = false)
  /\ (forall now' j u, j <> jti ->
        crud.validate_refresh_token now' db1 j u
        = crud.validate_refresh_token now' db j u).
Proof.
  intros Hu Hrev. pose proof (unique_jti_revoke db db1 jti Hrev Hu) as Hu1.
  split.
  - intros now' u.
    destruct (crud.validate_refresh_token now' db1 jti u) eqn:Hv; [|reflexivity].
    exfalso. apply (validate_true_iff now' db1 jti u Hu1) in Hv
      as (r & (Hin & Hj & _) & Hr & _).
    revert Hrev Hin Hr. unfold crud.revoke_refresh_token. cbv zeta.
    destruct (scalar (refresh_tokens db) _) as [rec|] eqn:Es.
    + destruct (RefreshToken.revoked rec) eqn:Er; cbn [negb].
      * intros [= <-] Hin Hr. apply scalar_Some in Es as [Hrec Hs].
        apply str_eqb_eq in Hs.
        assert (E : r = rec)
          by (apply (NoDup_map_inj RefreshToken.jti (refresh_tokens db));
              auto; congruence).
        congruence.
      * intros [= <-]. cbn [refresh_tokens with_refresh_tokens]. intros Hin Hr.
        pose proof (update_first_In
                      (fun r => str_eqb (RefreshToken.jti r) jti)
                      (fun r => set_revoked r true) (refresh_tokens db) rec Es)
          as Hin'.
        apply scalar_Some in Es as [_ Hs]. apply str_eqb_eq in Hs.
        assert (E : r = set_revoked rec true).
        { apply (NoDup_map_inj RefreshToken.jti
                   (update_first (fun r => str_eqb (RefreshToken.jti r) jti)
                      (fun r => set_revoked r true) (refresh_tokens db)));
            auto. cbn. congruence. }
        rewrite E in Hr. discriminate.
    + intros [= <-] Hin _. rewrite scalar_None in Es.
      specialize (Es r Hin). rewrite Hj, str_eqb_refl in Es. discriminate.
  - intros now' j u Hj. revert Hrev. unfold crud.revoke_refresh_token. cbv zeta.
    destruct (scalar (refresh_tokens db) _) as [rec|] eqn:Es;
      [|now intros [= <-]].
    destruct (RefreshToken.revoked rec); cbn [negb]; [now intros [= <-]|].
    intros [= <-]. unfold crud.validate_refresh_token, scalar. cbv zeta.
    cbn [refresh_tokens with_refresh_tokens].
    pose proof Es as Es'. apply scalar_Some in Es' as [_ Hs].
    apply str_eqb_eq in Hs.
    rewrite (filter_update_first _ _ _ _ rec Es); [reflexivity| |].
    + rewrite Hs, (str_eqb_false jti j) by congruence. reflexivity.
    + cbn. rewrite Hs, (str_eqb_false jti j) by congruence. reflexivity.
Qed.

(** X12. A stored refresh token and its lookup.  Once a record is stored for a
    user, its jti validates for that user at every time up to and
    including its expiry and for nobody else; every other jti validates as
    before; a revocation ends it at once; and the jti cannot be stored a
    second time. *)
Theorem issued_token_validates (now : datetime.t) (db : Session) (uid : Z)
    (jti : str) (exp : datetime.t) (rec : RefreshToken.t) (db' : Session) :
  unique_jti db ->
  crud.create_refresh_token_record now db uid jti exp = Return (rec, db') ->
  (forall now' u,
     crud.validate_refresh_token now' db' jti u = (u =? uid) && (now' <=? exp))
  /\ (forall now' j u, j <> jti ->
        crud.validate_refresh_token now' db' j u
        = crud.validate_refresh_token now' db j u)
  /\ (forall db'', crud.revoke_refresh_token db' jti = Return db'' ->
        forall now' u, crud.validate_refresh_token now' db'' jti u = false)
  /\ (forall now2 uid2 exp2,
        crud.create_refresh_token_record now2 db' uid2 jti exp2
        = Raise IntegrityError).
Proof.
  intros Hu Hc. destruct (validate_after_create _ _ _ _ _ _ _ Hc) as [H1 H2].
  split; [assumption|]. split; [assumption|]. split.
  - intros db'' Hrev.
    apply (validate_after_revoke db' db'' jti); [|assumption].
    now apply (unique_jti_create now db uid jti exp rec db').
  - intros now2 uid2 exp2. unfold crud.create_refresh_token_record.
    apply create_record_spec in Hc as (_ & Hj & _ & _ & Hd & _).
    replace (existsb _ (refresh_tokens db')) with true; [reflexivity|].
    symmetry. apply existsb_exists. exists rec. rewrite Hd. split.
    + apply in_or_app. right. now left.
    + rewrite Hj. apply str_eqb_refl.
Qed.

(** User 10 gets the token "bb" until time 900 beside "aa". *)
Lemma issued_token_validates_witness :
  exists rec db',
    crud.create_refresh_token_record 100 one_token 10 (lit "bb") 900
    = Return (rec, db')
    /\ crud.validate_refresh_token 900 db' (lit "bb") 10 = true
    /\ crud.validate_refresh_token 901 db' (lit "bb") 10 = false
    /\ crud.validate_refresh_token 500 db' (lit "aa") 10
       = crud.validate_refresh_token 500 one_token (lit "aa") 10.
Proof.
  eexists. eexists. split; [vm_compute; reflexivity|].
  destruct (issued_token_validates 100 one_token 10 (lit "bb") 900 _ _
              one_token_unique eq_refl) as (H1 & H2 & _).
  split; [apply (H1 900 10)|]. split; [apply (H1 901 10)|].
  apply H2. discriminate.
Defined.

Lemma revoked_only_set_In (l l' : list RefreshToken.t) (r : RefreshToken.t) :
  revoked_only_set l l' -> In r l ->
  In r l' \/ In (set_revoked r true) l'.
Proof.
  intros (kept & added & -> & HF) Hin.
  induction HF as [|x y l k Hxy HF IH]; [contradiction|].
  destruct Hin as [->|Hin].
  - destruct Hxy as [->|[_ ->]]; [left|right]; now left.
  - destruct (IH Hin) as [H|H]; [left|right]; now right.
Qed.

Section tokens_over_time.

Variable jose : Jose.
Variable settings : Settings.
Variable py_int : option str -> result Z.
Variable py_str : Z -> str.

Lemma run_keeps_unique (ops : list operation) (db : Session) :
  unique_jti db -> unique_jti (run jose settings py_int py_str db ops).
Proof.
  revert db. unfold run. induction ops as [|op ops IH]; intros db Hu;
    cbn [fold_left]; [assumption|].
  apply IH. now apply (step_keeps_invariants jose settings py_int py_str db op).
Qed.

End tokens_over_time.

(** X13. A refusal is final.  If the record of a jti is revoked, or has expired
    by [now], then after any sequence of operations of the model the jti
    validates for no user at [now] or any later time. *)
Theorem token_rejection_is_final (jose : Jose) (settings : Settings)
    (py_int : option str -> result Z) (py_str : Z -> str)
    (db : Session) (r : RefreshToken.t) (now : datetime.t) :
  unique_jti db ->
  In r (refresh_tokens db) ->
  RefreshToken.revoked r = true \/ RefreshToken.expires_at r < now ->
  forall ops now' u, now <= now' ->
    crud.validate_refresh_token now'
      (run jose settings py_int py_str db ops) (RefreshToken.jti r) u = false.
Proof.
  intros Hu Hin Hdead ops now' u Hnow.
  destruct (crud.validate_refresh_token _ _ _ _) eqn:Hv; [|reflexivity].
  exfalso.
  pose proof (run_keeps_unique jose settings py_int py_str ops db Hu) as Hu'.
  apply (validate_true_iff _ _ _ _ Hu') in Hv as (r2 & (Hin2 & Hj & _) & Hr & He).
  destruct (revoked_only_set_In _ _ r
              (run_keeps_revoked jose settings py_int py_str ops db) Hin)
    as [Hin'|Hin'].
  - assert (E : r2 = r)
      by (apply (NoDup_map_inj RefreshToken.jti _ _ _ Hu' Hin2 Hin' Hj)).
    subst r2. destruct Hdead; [congruence|lia].
  - assert (E : r2 = set_revoked r true)
      by (apply (NoDup_map_inj RefreshToken.jti _ _ _ Hu' Hin2 Hin' Hj)).
    subst r2. discriminate.
Qed.

(** The token "aa" of user 10 expires at 500; after another record has
    been stored and revoked it is refused at 501. *)
Lemma token_rejection_is_final_witness :
  crud.validate_refresh_token 501
    (run toy_jose default_settings (fun _ => Return 10) (fun _ => lit "10")
       one_token
       [Op_create_refresh_token_record 200 10 (lit "bb") 900;
        Op_revoke_refresh_token (lit "bb")])
    (lit "aa") 10 = false.
Proof.
  apply (token_rejection_is_final toy_jose default_settings
           (fun _ => Return 10) (fun _ => lit "10") one_token
           (RefreshToken.mk 1 10 (lit "aa") 500 false 0) 501 one_token_unique).
  - left. reflexivity.
  - right. reflexivity.
  - lia.
Defined.

(** X14. A successful rotation.  The presented token decoded to a refresh claim
    whose jti was valid for its user; afterwards that jti validates for
    nobody, the new jti validates for the same user until the configured
    lifetime after [now] and not later, every other jti validates as
    before, and a further request that carries the old jti is refused and
    leaves the session as it is. *)
Theorem rotation (jose : Jose) (settings : Settings)
    (py_int : option str -> result Z) (py_str : Z -> str)
    (now : datetime.t) (uuid4_hex token : str) (db : Session)
    (pair : TokenPair.t) (db' : Session) :
  unique_jti db ->
  routers.refresh_tokens jose settings py_int py_str now uuid4_hex token db
  = (Return pair, db') ->
  exists payload jti uid,
    security.decode_token jose settings now token true = Some payload
    /\ Claims.type_ payload = Some (lit "refresh")
    /\ Claims.jti payload = Some jti
    /\ py_int (Claims.sub payload) = Return uid
    /\ crud.validate_refresh_token now db jti uid = true
    /\ uuid4_hex <> jti
    /\ (forall now' u, crud.validate_refresh_token now' db' jti u = false)
    /\ (forall now',
          crud.validate_refresh_token now' db' uuid4_hex uid
          = (now' <=? now + datetime.timedelta_minutes
                              (REFRESH_TOKEN_EXPIRE_MINUTES settings)))
    /\ (forall now' j u, j <> jti -> j <> uuid4_hex ->
          crud.validate_refresh_token now' db' j u
          = crud.validate_refresh_token now' db j u)
    /\ (forall now' hex' token' payload',
          security.decode_token jose settings now' token' true = Some payload' ->
          Claims.jti payload' = Some jti ->
          exists e,
            routers.refresh_tokens jose settings py_int py_str now' hex' token' db'
            = (Raise e, db')).
Proof.
  intros Hu. unfold routers.refresh_tokens at 1.
  destruct (security.decode_token jose settings now token true) as [payload|] eqn:Hdec;
    [|discriminate].
  destruct (routers.ne (Claims.type_ payload) (lit "refresh")) eqn:Hty;
    [discriminate|].
  destruct (py_int (Claims.sub payload)) as [uid|e] eqn:Hint; [|discriminate].
  destruct (scalar (users db) _) as [user|] eqn:Huser; [|discriminate].
  destruct (Claims.jti payload) as [[|c j]|] eqn:Hj; try discriminate.
  destruct (crud.validate_refresh_token now db (c :: j) uid) eqn:Hval;
    cbn [negb]; [|discriminate].
  destruct (crud.revoke_refresh_token db (c :: j)) as [db1|e] eqn:Hrev;
    [|discriminate].
  unfold security.create_access_token, security.create_refresh_token,
    security.create_token. cbv zeta.
  destruct (datetime.add now
              (datetime.timedelta_minutes (ACCESS_TOKEN_EXPIRE_MINUTES settings)))
    as [ea|e]; cbn [bind]; [|discriminate].
  destruct (datetime.add now
              (datetime.timedelta_minutes (REFRESH_TOKEN_EXPIRE_MINUTES settings)))
    as [er|e] eqn:Er; cbn [bind]; [|discriminate].
  apply datetime_add_Return in Er as [-> _].
  destruct (crud.create_refresh_token_record _ _ _ _ _) as [[rec db2]|e] eqn:Hc;
    cbn [bind snd]; [|discriminate].
  intros [= _ <-].
  apply scalar_Some in Huser as [_ Hid]. apply Z.eqb_eq in Hid.
  rewrite Hid in Hc.
  destruct (validate_after_revoke db db1 (c :: j) Hu Hrev) as [Hr1 Hr2].
  destruct (validate_after_create _ _ _ _ _ _ _ Hc) as [Hc1 Hc2].
  assert (Hne : uuid4_hex <> c :: j).
  { intros E. specialize (Hc1 now uid). rewrite E in Hc1.
    apply create_record_spec in Hc as (Hfresh & _).
    apply (validate_true_iff now db (c :: j) uid Hu) in Hval
      as (r & (Hin & Hrj & _) & _).
    destruct (revoke_returns db (c :: j)) as (d & Hd & _ & _ & _ & _ & Hros & _).
    rewrite Hrev in Hd. injection Hd as <-.
    destruct (revoked_only_set_In _ _ r Hros Hin) as [H|H];
      apply Hfresh in H; apply H; cbn; congruence. }
  exists payload, (c :: j), uid.
  split; [first [reflexivity|assumption]|]. split.
  { destruct (Claims.type_ payload) as [ty|]; cbn in Hty; [|discriminate].
    apply negb_false_iff, str_eqb_eq in Hty. now subst ty. }
  do 3 (split; [first [reflexivity|assumption]|]).
  split; [assumption|]. split.
  { intros now' u. rewrite Hc2 by congruence. apply Hr1. }
  split.
  { intros now'. rewrite Hc1, Z.eqb_refl. reflexivity. }
  split.
  { intros now' j' u H1 H2. rewrite Hc2 by assumption. now apply Hr2. }
  intros now' hex' token' payload' Hdec' Hj'.
  unfold routers.refresh_tokens. rewrite Hdec', Hj'.
  destruct (routers.ne (Claims.type_ payload') _); [eauto|].
  destruct (py_int (Claims.sub payload')) as [uid'|e]; [|eauto].
  destruct (scalar (users db2) _); [|eauto].
  rewrite Hc2 by congruence. rewrite Hr1. cbn [negb]. eauto.
Qed.

(** The rotation of "aa" into "bb" on the session with one token. *)
Lemma rotation_witness :
  exists pair db',
    routers.refresh_tokens toy_jose default_settings (fun _ => Return 10)
      (fun _ => lit "10") 100 (lit "bb") (lit "aa") one_token
    = (Return pair, db')
    /\ (forall now' u, crud.validate_refresh_token now' db' (lit "aa") u = false)
    /\ crud.validate_refresh_token 101 db' (lit "bb") 10 = true.
Proof.
  eexists. eexists. split; [vm_compute; reflexivity|].
  destruct (rotation toy_jose default_settings (fun _ => Return 10)
              (fun _ => lit "10") 100 (lit "bb") (lit "aa") one_token _ _
              one_token_unique eq_refl)
    as (payload & jti & uid & Hdec & _ & Hj & Hint & _ & _ & Hold & Hnew & _).
  injection Hint as <-. vm_compute in Hdec. injection Hdec as <-.
  cbn in Hj. injection Hj as <-.
  split; [exact Hold|]. exact (eq_trans (Hnew 101) eq_refl).
Defined.

(* ------------------------------------------------------------------ *)
(** ** The encryption key and the patient's profile *)

Lemma str_encode_app (a b : str) (x y : bytes) :
  str_encode a = Return x -> str_encode b = Return y ->
  str_encode (a ++ b) = Return (x ++ y).
Proof.
  revert x. induction a as [|c a IH]; intros x; cbn [str_encode app].
  - intros [= <-]. auto.
  - destruct (encode_char c) as [bc|]; cbn [bind]; [|discriminate].
    destruct (str_encode a) as [r|]; cbn [bind]; [|discriminate].
    intros [= <-] Hb. rewrite (IH r eq_refl Hb). cbn [bind].
    now rewrite app_assoc.
Qed.

Lemma str_encode_zeros (k : nat) :
  str_encode (repeat 48 k) = Return (repeat "0"%byte k).
Proof.
  induction k as [|k IH]; [reflexivity|].
  cbn [repeat str_encode]. rewrite IH. reflexivity.
Qed.

Lemma normalize_key_form (raw : str) (b : bytes) :
  str_encode raw = Return b ->
  encryption._normalize_key raw
  = Return (firstn 32 b ++ repeat "0"%byte (32 - List.length b)).
Proof.
  intros Hb. unfold encryption._normalize_key. rewrite Hb. cbn [bind].
  destruct (Z.leb_spec 32 (Z.of_nat (List.length b))) as [Hl|Hl]; f_equal.
  - replace (32 - List.length b)%nat with 0%nat by lia. cbn [repeat].
    now rewrite app_nil_r.
  - rewrite firstn_app. f_equal. apply firstn_repeat_le. lia.
Qed.

(** X15. The key derivation is not injective.  Zeros ('0', code point 48) at
    the end of the configured secret do not change the key, and once the
    secret has 32 bytes nothing after them does: such secrets give one and
    the same AES key. *)
Theorem normalize_key_collisions (raw : str) (b : bytes) :
  str_encode raw = Return b ->
  (forall k, encryption._normalize_key (raw ++ repeat 48 k)
             = encryption._normalize_key raw)
  /\ (forall tail t, str_encode tail = Return t ->
        (32 <= List.length b)%nat ->
        encryption._normalize_key (raw ++ tail) = encryption._normalize_key raw).
Proof.
  intros Hb. rewrite (normalize_key_form raw b Hb). split.
  - intros k.
    rewrite (normalize_key_form _ _
               (str_encode_app _ _ _ _ Hb (str_encode_zeros k))).
    f_equal. rewrite firstn_app, length_app, repeat_length.
    destruct (Nat.le_gt_cases 32 (List.length b)) as [Hl|Hl].
    + replace (32 - List.length b)%nat with 0%nat by lia.
      replace (32 - (List.length b + k))%nat with 0%nat by lia.
      cbn [firstn repeat]. now rewrite !app_nil_r.
    + rewrite <- app_assoc. f_equal.
      destruct (Nat.le_gt_cases (32 - List.length b) k) as [Hk|Hk].
      * rewrite firstn_repeat_le by lia.
        replace (32 - (List.length b + k))%nat with 0%nat by lia.
        cbn [repeat]. now rewrite app_nil_r.
      * rewrite firstn_all2 by (rewrite repeat_length; lia).
        rewrite <- repeat_app. f_equal. lia.
  - intros tail t Ht Hl.
    rewrite (normalize_key_form _ _ (str_encode_app _ _ _ _ Hb Ht)).
    f_equal. rewrite firstn_app, length_app.
    replace (32 - List.length b)%nat with 0%nat by lia.
    replace (32 - (List.length b + List.length t))%nat with 0%nat by lia.
    cbn [firstn repeat]. now rewrite !app_nil_r.
Qed.

(** The default secret and the same text followed by "0000" give one key. *)
Lemma normalize_key_collisions_witness :
  encryption._normalize_key (lit "16byteslongkey!!0000")
  = encryption._normalize_key (lit "16byteslongkey!!").
Proof.
  destruct (normalize_key_collisions (lit "16byteslongkey!!") _ eq_refl)
    as [H _].
  exact (H 4%nat).
Defined.

Definition option_text (o : option str) : Prop :=
  match o with
  | Some s => is_text s
  | None => True
  end.

(** [v if v is not None else old] *)
Definition or_old (v old : option str) : option str :=
  match v with
  | Some s => Some s
  | None => old
  end.

Lemma encrypt_then_decrypt (lib : AEAD) (KEY nonce : bytes) (plaintext : str) :
  AEAD_laws lib ->
  AESGCM.init KEY = Return KEY ->
  List.length nonce = 12%nat ->
  is_text plaintext ->
  exists token,
    encryption.encrypt lib KEY nonce (Some plaintext) = Return (Some token)
    /\ encryption.decrypt lib KEY (Some token) = Return (Some plaintext).
Proof.
  intros [Hopen Hlen] Hinit Hn Ht.
  destruct (decode_encode plaintext Ht) as (data & Henc & Hdec).
  set (ct := aead_seal lib KEY nonce data).
  destruct (b64_round_trip (nonce ++ ct)) as (token & Htok & Hraw).
  exists token. split.
  - unfold encryption.encrypt. rewrite Hinit. cbn [bind]. rewrite Henc. cbn [bind].
    unfold AESGCM.encrypt. rewrite (check_nonce_12 nonce Hn). cbn [bind].
    fold ct. rewrite Htok. reflexivity.
  - unfold encryption.decrypt. cbv zeta. rewrite Hraw. cbn [bind].
    rewrite Hinit. cbn [bind].
    assert (Hf : firstn 12 (nonce ++ ct) = nonce).
    { rewrite <- Hn. rewrite firstn_app, Nat.sub_diag, firstn_all. cbn [firstn].
      apply app_nil_r. }
    assert (Hs : skipn 12 (nonce ++ ct) = ct).
    { rewrite <- Hn. rewrite skipn_app, Nat.sub_diag, skipn_all. reflexivity. }
    rewrite Hf, Hs. unfold AESGCM.decrypt. rewrite (check_nonce_12 nonce Hn).
    cbn [bind]. unfold ct at 1.
    rewrite (Hlen KEY nonce data Hinit (check_nonce_12 nonce Hn)).
    destruct (Z.ltb_spec (Z.of_nat (List.length data + 16)) 16); [lia|].
    unfold ct. rewrite (Hopen KEY nonce data Hinit (check_nonce_12 nonce Hn)).
    cbn [bind]. rewrite Hdec. reflexivity.
Qed.

Lemma decrypt_returns (lib : AEAD) (KEY : bytes) (token : option str) :
  exists v, encryption.decrypt lib KEY token = Return v.
Proof.
  unfold encryption.decrypt. destruct token as [token|]; [|eauto].
  cbv zeta. match goal with |- context [match ?c with _ => _ end] =>
    destruct c end; eauto.
Qed.

(** X16. The profile a patient gets back is the profile the patient sent.  For
    a patient with a profile row, text fields and 12-byte nonces, the
    profile route answers; each field the request gives comes back as it
    was sent (the three contact fields through [encrypt] and [decrypt]),
    and each field it leaves out comes back as the stored one decrypts.
    The row keeps its id and its user. *)
Theorem profile_round_trip (lib : AEAD) (settings : Settings) (KEY : bytes)
    (n1 n2 n3 : bytes) (data : PatientUpdate.t) (user : User.t)
    (patient : Patient.t) :
  AEAD_laws lib ->
  encryption.KEY settings = Return KEY ->
  List.length n1 = 12%nat -> List.length n2 = 12%nat -> List.length n3 = 12%nat ->
  option_text (PatientUpdate.contact_number data) ->
  option_text (PatientUpdate.address data) ->
  option_text (PatientUpdate.emergency_contact data) ->
  User.role user = PATIENT ->
  exists patient' c0 a0 e0,
    crud2.update_patient_profile lib KEY n1 n2 n3 (Some patient) data
    = Return patient'
    /\ Patient.id patient' = Patient.id patient
    /\ Patient.user_id patient' = Patient.user_id patient
    /\ encryption.decrypt lib KEY (Patient.contact_number patient) = Return c0
    /\ encryption.decrypt lib KEY (Patient.address patient) = Return a0
    /\ encryption.decrypt lib KEY (Patient.emergency_contact patient) = Return e0
    /\ routers2.update_patient lib KEY n1 n2 n3 data user (Some patient)
       = Return
           (PatientProfile.mk
              (or_old (PatientUpdate.date_of_birth data)
                 (Patient.date_of_birth patient))
              (or_old (PatientUpdate.contact_number data) c0)
              (or_old (PatientUpdate.address data) a0)
              (or_old (PatientUpdate.emergency_contact data) e0)).
Proof.
  intros Hlaws HK H1 H2 H3 Tc Ta Te Hrole.
  pose proof (key_is_accepted settings KEY HK) as Hinit.
  destruct (decrypt_returns lib KEY (Patient.contact_number patient)) as [c0 Hc0].
  destruct (decrypt_returns lib KEY (Patient.address patient)) as [a0 Ha0].
  destruct (decrypt_returns lib KEY (Patient.emergency_contact patient))
    as [e0 He0].
  unfold routers2.update_patient, crud2.update_patient_profile.
  rewrite Hrole. cbn [UserRole_eqb negb].
  destruct data as [dob c a e]. cbn [PatientUpdate.date_of_birth
    PatientUpdate.contact_number PatientUpdate.address
    PatientUpdate.emergency_contact option_text] in *.
  destruct c as [c|]; [destruct (encrypt_then_decrypt lib KEY n1 c Hlaws Hinit H1 Tc)
                         as (tc & Ec & Dc); rewrite Ec|];
  (destruct a as [a|]; [destruct (encrypt_then_decrypt lib KEY n2 a Hlaws Hinit H2 Ta)
                          as (ta & Ea & Da); rewrite Ea|]);
  (destruct e as [e|]; [destruct (encrypt_then_decrypt lib KEY n3 e Hlaws Hinit H3 Te)
                          as (te & Ee & De); rewrite Ee|]);
  destruct dob as [dob|]; cbn [bind];
  eexists; exists c0, a0, e0;
  (split; [reflexivity|]);
  cbn [set_date_of_birth set_contact_number set_address set_emergency_contact
       Patient.id Patient.user_id Patient.date_of_birth Patient.contact_number
       Patient.address Patient.emergency_contact or_old];
  (split; [reflexivity|]); (split; [reflexivity|]);
  (split; [assumption|]); (split; [assumption|]); (split; [assumption|]);
  repeat match goal with
         | H : encryption.decrypt _ _ _ = Return _ |- _ => rewrite H; clear H
         end; reflexivity.
Qed.

Definition patient_row : Patient.t := Patient.mk 7 10 None None None None.

(** Patient 7 sends a date of birth and a contact number and gets both
    back; address and emergency contact were never stored. *)
Lemma profile_round_trip_witness :
  routers2.update_patient toy_aead
    (map byte_of_Z (lit "16byteslongkey!!0000000000000000"))
    (repeat x07 12) (repeat x07 12) (repeat x07 12)
    (PatientUpdate.mk (Some (lit "1990-01-01")) (Some (lit "555 0100")) None None)
    patient7 (Some patient_row)
  = Return (PatientProfile.mk (Some (lit "1990-01-01")) (Some (lit "555 0100"))
              None None).
Proof.
  assert (HK : encryption.KEY default_settings
               = Return (map byte_of_Z (lit "16byteslongkey!!0000000000000000")))
    by (vm_compute; reflexivity).
  assert (Tc : is_text (lit "555 0100"))
    by (repeat constructor; unfold is_scalar_value; lia).
  destruct (profile_round_trip toy_aead default_settings _
              (repeat x07 12) (repeat x07 12) (repeat x07 12)
              (PatientUpdate.mk (Some (lit "1990-01-01")) (Some (lit "555 0100"))
                 None None)
              patient7 patient_row toy_aead_laws HK eq_refl eq_refl eq_refl
              Tc I I eq_refl)
    as (p' & c0 & a0 & e0 & _ & _ & _ & _ & Ha & He & Hr).
  change (@Return (option str) None = Return a0) in Ha.
  change (@Return (option str) None = Return e0) in He.
  injection Ha as <-. injection He as <-. exact Hr.
Defined.

(* ------------------------------------------------------------------ *)
(** ** Cancelling *)

(** The row an accepted cancellation returns. *)
Lemma cancellation_row (db : Session) (i : Z)
    (appt_in : AppointmentUpdate.t) (user : User.t) (a' : Appointment.t)
    (db' : Session) :
  routers.update_appointment db i appt_in user = (Return a', db') ->
  AppointmentUpdate.status appt_in = Some (AppointmentStatus_value CANCELLED) ->
  Appointment.status a' = CANCELLED /\ crud.get_appointment db' i = Some a'.
Proof.
  intros Hout Hst.
  destruct (router_update_cases db i appt_in user)
    as [[e He]|(a & a1 & Hget & _ & Hup & He)];
    rewrite He in Hout; [discriminate|].
  injection Hout as <- <-.
  destruct (crud_update_keeps _ _ _ _ _ Hup) as (Hid & _).
  split; [|now apply (get_after_commit db i a)].
  revert Hup. unfold crud.update_appointment. rewrite Hst.
  destruct (AppointmentUpdate.scheduled_time appt_in) as [t|]; cbn [bind].
  - destruct (crud._validate_appointment_slot _ _ _ _ _) as [[]|e];
      cbn [bind]; [|discriminate].
    intros [= <- _]. now destruct (AppointmentUpdate.notes appt_in).
  - intros [= <- _]. now destruct (AppointmentUpdate.notes appt_in).
Qed.

(** X17. Cancelling frees nothing.  After an appointment has been cancelled
    through the update route, a booking with its doctor within 29 minutes
    of it is still never accepted, whoever asks: it is refused as
    unavailable, or as a conflict with the doctor's other appointment when
    both ends of its own slot are datetimes, or it fails with OverflowError
    when an end of its slot is beyond the datetime range. *)
Theorem cancelled_slot_stays_blocked (db : Session) (i : Z) (user : User.t)
    (a' : Appointment.t) (db' : Session) :
  routers.update_appointment db i
    (AppointmentUpdate.mk None (Some (AppointmentStatus_value CANCELLED)) None)
    user
  = (Return a', db') ->
  Appointment.status a' = CANCELLED
  /\ crud.get_appointment db' i = Some a'
  /\ forall now P appt_in,
       AppointmentCreate.doctor_id appt_in = Appointment.doctor_id a' ->
       in_slot (AppointmentCreate.scheduled_time appt_in) a' ->
       crud.create_appointment now db' P appt_in = Raise crud.doctor_unavailable
       \/ (slot_in_range (AppointmentCreate.scheduled_time appt_in)
           /\ crud.create_appointment now db' P appt_in
              = Raise crud.doctor_slot_conflict)
       \/ (~ slot_in_range (AppointmentCreate.scheduled_time appt_in)
           /\ crud.create_appointment now db' P appt_in = Raise OverflowError).
Proof.
  intros Hout.
  destruct (cancellation_row db i _ user a' db' Hout eq_refl)
    as (Hs & Hg).
  split; [assumption|]. split; [assumption|].
  intros now P appt_in HD Hslot.
  destruct (get_appointment_id _ _ _ Hg) as [Hin _].
  assert (Hc : doctor_conflict db' (AppointmentCreate.doctor_id appt_in)
                 (AppointmentCreate.scheduled_time appt_in) None).
  { exists a'. split; [assumption|]. split; [congruence|].
    split; [discriminate|assumption]. }
  unfold crud.create_appointment.
  destruct (validate_new_cases db' (AppointmentCreate.doctor_id appt_in) P
              (AppointmentCreate.scheduled_time appt_in))
    as [[_ H]|[(_ & Hr & H)|[(_ & Hr & _ & H)|[(_ & _ & Hn & _)
       |(_ & _ & Hn & _)]]]];
    try contradiction; rewrite H; cbn [bind]; auto.
Qed.

(** Patient 7 cancels the 11:00 appointment with doctor 1; patient 8 then
    asks for doctor 1 at 11:20 and is refused. *)
Lemma cancelled_slot_stays_blocked_witness :
  exists a' db',
    routers.update_appointment clinic 2
      (AppointmentUpdate.mk None (Some (AppointmentStatus_value CANCELLED)) None)
      patient7
    = (Return a', db')
    /\ Appointment.status a' = CANCELLED
    /\ crud.create_appointment 5 db' 8
         (AppointmentCreate.mk 1 None (datetime.at_ monday 11 20))
       = Raise crud.doctor_slot_conflict.
Proof.
  eexists. eexists. split; [vm_compute; reflexivity|].
  destruct (cancelled_slot_stays_blocked clinic 2 patient7 _ _ eq_refl)
    as (Hs & _ & Hb).
  split; [exact Hs|]. vm_compute. reflexivity.
Defined.
